(** * pudl_scrapers.bin.eia_api: paginated download from the EIA API

    A shallow embedding of [pudl_scrapers/bin/eia_api.py].  Python values
    are an inductive type, exceptions are an error result, and the effects
    of the script (HTTP requests, file writes, warnings and log records)
    are threaded through an explicit [World]. *)

From Stdlib Require Import ZArith Lia String Ascii List Bool.
From stdpp Require Import base gmap strings list fin_maps pretty sorting.

Set Warnings "-register-all".
Open Scope Z_scope.
#[global] Arguments String.append !_ _ : simpl nomatch.

(** ** Python values, exceptions and the effect monad *)

Module Py.

(** The values the script handles: what [json] decodes to, what the
    keyword arguments hold, and opaque objects ([self], a [Path], a set).
    Numbers are integers: a JSON number with a fraction or an exponent,
    which [json] decodes to a [float], has no counterpart here. *)
Inductive value : Type :=
| VNone
| VBool (b : bool)
| VInt (z : Z)
| VStr (s : string)
| VList (l : list value)
| VDict (kvs : list (string * value))
| VObj (name : string).

Inductive exn : Type :=
| HTTPError (status : Z)
| JSONDecodeError
| KeyError (key : string)
| IndexError
| TypeError
| AttributeError
| UnboundLocalError (name : string)
| ZeroDivisionError
| ValueError
| FileNotFoundError
| OSError.

Inductive result (A : Type) : Type :=
| Ok (a : A)
| Raise (e : exn).
Arguments Ok {A} a.
Arguments Raise {A} e.

(** [bool(v)]. *)
Definition truthy (v : value) : bool :=
  match v with
  | VNone => false
  | VBool b => b
  | VInt z => negb (z =? 0)
  | VStr s => negb (String.eqb s "")
  | VList l => match l with [] => false | _ => true end
  | VDict kvs => match kvs with [] => false | _ => true end
  | VObj _ => true
  end.

(** [v == 0]: numbers compare by value, and [False == 0] holds because
    [bool] is a subclass of [int]. *)
Definition eq_zero (v : value) : bool :=
  match v with
  | VInt z => z =? 0
  | VBool b => negb b
  | _ => false
  end.

(** A [dict] keeps insertion order: an association list with unique keys. *)
Fixpoint dict_get (d : list (string * value)) (k : string) : option value :=
  match d with
  | [] => None
  | (k', v) :: d' => if String.eqb k' k then Some v else dict_get d' k
  end.

(** [d[k] = v]: overwrite in place, or append a new key at the end. *)
Fixpoint dict_set (d : list (string * value)) (k : string) (v : value)
  : list (string * value) :=
  match d with
  | [] => [(k, v)]
  | (k', v') :: d' =>
      if String.eqb k' k then (k', v) :: d' else (k', v') :: dict_set d' k v
  end.

(** [obj[key]] with a string key. *)
Definition getitem (obj : value) (key : string) : result value :=
  match obj with
  | VDict kvs =>
      match dict_get kvs key with
      | Some v => Ok v
      | None => Raise (KeyError key)
      end
  | _ => Raise TypeError
  end.

(** [parts[i]] on a list of strings. *)
Definition index (parts : list string) (i : nat) : result string :=
  match nth_error parts i with
  | Some p => Ok p
  | None => Raise IndexError
  end.

(** [s.split(sep)] for a one-character separator: never empty, and an
    empty field between two separators is kept. *)
Fixpoint split (sep : ascii) (s : string) : list string :=
  match s with
  | EmptyString => [EmptyString]
  | String c s' =>
      if Ascii.eqb c sep then EmptyString :: split sep s'
      else match split sep s' with
           | [] => [String c EmptyString]
           | p :: ps => String c p :: ps
           end
  end.

(** [v.split(".")]: only [str] has the method. *)
Definition str_split (v : value) (sep : ascii) : result (list string) :=
  match v with
  | VStr s => Ok (split sep s)
  | _ => Raise AttributeError
  end.

(** Unary minus: defined on [int] and [bool]. *)
Definition neg (v : value) : result Z :=
  match v with
  | VInt z => Ok (- z)
  | VBool b => Ok (- (if b then 1 else 0))
  | _ => Raise TypeError
  end.

(** Sequencing of results: the first exception wins. *)
Definition rbind {A B} (r : result A) (k : A -> result B) : result B :=
  match r with
  | Ok a => k a
  | Raise e => Raise e
  end.

(** The integer an [int] or a [bool] stands for in arithmetic. *)
Definition as_int (v : value) : result Z :=
  match v with
  | VInt z => Ok z
  | VBool b => Ok (if b then 1 else 0)
  | _ => Raise TypeError
  end.

(** [a // b] on integers: floor division, as [Z.div]. *)
Definition floordiv (a b : Z) : result Z :=
  if b =? 0 then Raise ZeroDivisionError else Ok (a / b).

(** [range(lo, hi)]. *)
Definition range (lo hi : Z) : list Z :=
  map (fun k => lo + Z.of_nat k) (seq 0 (Z.to_nat (hi - lo))).

(** [str(v)] for the values [start] can hold. *)
Definition str (v : value) : string :=
  match v with
  | VNone => "None"
  | VStr s => s
  | VInt z => pretty z
  | VBool true => "True"
  | VBool false => "False"
  | _ => ""
  end.

Fixpoint contains (c : ascii) (s : string) : bool :=
  match s with
  | EmptyString => false
  | String c' s' => Ascii.eqb c' c || contains c s'
  end.

Definition startswith (p s : string) : bool := String.prefix p s.

End Py.
Export Py.

Declare Scope result_scope.
Delimit Scope result_scope with result.
Notation "x <- c ;; k" := (rbind c (fun x => k))
  (at level 100, c at next level, right associativity) : result_scope.

(** Computations over a state [S] that may raise.  The state reached
    when an exception is raised is kept: what was written stays written. *)
Definition M (S A : Type) : Type := S -> result A * S.

Definition ret {S A} (a : A) : M S A := fun w => (Ok a, w).
Definition raise {S A} (e : exn) : M S A := fun w => (Raise e, w).
Definition bind {S A B} (c : M S A) (k : A -> M S B) : M S B :=
  fun w => match c w with
           | (Ok a, w') => k a w'
           | (Raise e, w') => (Raise e, w')
           end.
Definition lift {S A} (r : result A) : M S A := fun w => (r, w).

Declare Scope py_scope.
Delimit Scope py_scope with py.
Notation "x <- c ;; k" := (bind c (fun x => k))
  (at level 100, c at next level, right associativity) : py_scope.
Notation "c ;;; k" := (bind c (fun _ => k))
  (at level 100, right associativity) : py_scope.

(** [for x in xs: body x]. *)
Fixpoint for_each {S A} (xs : list A) (body : A -> M S unit) : M S unit :=
  match xs with
  | [] => ret tt
  | x :: xs' => bind (body x) (fun _ => for_each xs' body)
  end.

(** ** pathlib: the part of [PurePosixPath] the script relies on *)

Module Pathlib.

(** A path is its sequence of components; the last one is its name. *)
Abbreviation Path := (list string).

Definition name (p : Path) : string := List.last p EmptyString.

Fixpoint slice_to (n : nat) (s : string) : string :=
  match n, s with
  | S n', String c s' => String c (slice_to n' s')
  | _, _ => EmptyString
  end.

Fixpoint slice_from (n : nat) (s : string) : string :=
  match n, s with
  | S n', String _ s' => slice_from n' s'
  | _, _ => s
  end.

(** [s.rfind(c)], with [None] for -1. *)
Fixpoint rfind (c : ascii) (s : string) : option nat :=
  match s with
  | EmptyString => None
  | String c' s' =>
      match rfind c s' with
      | Some i => Some (S i)
      | None => if Ascii.eqb c' c then Some O else None
      end
  end.

(** [PurePath.suffix]: [name[i:]] when [0 < i < len(name) - 1]. *)
Definition suffix (p : Path) : string :=
  let n := name p in
  match rfind "." n with
  | Some i =>
      if (0 <? i)%nat && (i <? String.length n - 1)%nat then slice_from i n
      else EmptyString
  | None => EmptyString
  end.

(** [PurePath.with_suffix(suffix)]. *)
Definition with_suffix (p : Path) (new_suffix : string) : result Path :=
  if contains "/" new_suffix then Raise ValueError
  else if (negb (String.eqb new_suffix "") && negb (startswith "." new_suffix))
          || String.eqb new_suffix "."
  then Raise ValueError
  else
    let n := name p in
    if String.eqb n "" then Raise ValueError
    else
      let old_suffix := suffix p in
      let n' :=
        if String.eqb old_suffix "" then n +:+ new_suffix
        else slice_to (String.length n - String.length old_suffix) n +:+ new_suffix in
      Ok (removelast p ++ [n']).

(** [p / s] for a relative right operand: [s] is cut at the separators,
    and empty and "." components are dropped. *)
Definition truediv (p : Path) (s : string) : Path :=
  p ++ List.filter (fun c => negb (String.eqb c "" || String.eqb c "."))
         (split "/" s).

End Pathlib.
Export Pathlib.

(** ** The world the script runs in *)

(** One HTTP response: [status_code], [text], and what [json()] returns
    ([None] when the body does not decode). *)
Record Response : Type := {
  status_code : Z;
  text : string;
  json : option value
}.

(** One HTTP request: the URL and the dictionary sent as the [X-Params]
    header. *)
Record Request : Type := {
  req_url : string;
  x_params : list (string * value)
}.

Inductive message : Type :=
| VersionInaccessible
| MajorChange (expected : string) (observed : value)
| MinorChange (expected : string) (observed : value)
| PatchChange (expected : string) (observed : value)
| Downloading (n_total_results : value) (n_requests : Z).

(** What the user sees: [warnings.warn] and [logger.info]. *)
Inductive event : Type :=
| Warn (m : message)
| LogInfo (m : message).

(** The state of a run.  The file system is a flat map from paths to
    contents: directories are not modelled, so [mkdir] has no effect and
    opening a file for writing always succeeds.  A file holds what was
    written to it so far, also when the block that wrote it is left by an
    exception. *)
Record World : Type := {
  fs : gmap Path string;
  requests : list Request;
  events : list event
}.

(** What the script does not control: the server (the reply to the
    [k]-th request of the run), the gzip codec (the bytes a [GzipFile]
    holds once the given blocks were written to it, and the decoder),
    and the block writes that fail. *)
Record Env : Type := {
  server : nat -> Request -> Response;
  gzip_stream : list string -> string;
  gunzip : string -> option string;
  io_fault : nat -> bool
}.

Definition set_fs (f : gmap Path string -> gmap Path string) (w : World) : World :=
  {| fs := f (fs w); requests := requests w; events := events w |}.

Definition emit (e : event) : M World unit :=
  fun w => (Ok tt, {| fs := fs w; requests := requests w; events := events w ++ [e] |}).

Definition warn (m : message) : M World unit := emit (Warn m).
Definition logger_info (m : message) : M World unit := emit (LogInfo m).

(** [open(path, "w")]: create or truncate. *)
Definition open_w (path : Path) : M World unit :=
  fun w => (Ok tt, set_fs (insert path EmptyString) w).

(** [file.write(s)] on a file opened for writing at [path]. *)
Definition file_write (path : Path) (s : string) : M World unit :=
  fun w => (Ok tt, set_fs (fun m => <[path := default EmptyString (m !! path) +:+ s]> m) w).

(** [open(path, "rb")] followed by reading: the content, or
    [FileNotFoundError]. *)
Definition open_rb (path : Path) : M World string :=
  fun w => match fs w !! path with
           | Some c => (Ok c, w)
           | None => (Raise FileNotFoundError, w)
           end.

(** [path.unlink()]. *)
Definition unlink (path : Path) : M World unit :=
  fun w => match fs w !! path with
           | Some _ => (Ok tt, set_fs (delete path) w)
           | None => (Raise FileNotFoundError, w)
           end.

(** ** The keyword arguments of [get_fuel_receipts_costs_aggregates] *)

Module Options.

Inductive Frequency : Type := annual | monthly.

Inductive facet_value : Type := FStr (s : string) | FInt (z : Z).

Inductive sort_key : Type := column | direction.

(** The signature's annotations, field by field ([end_] is [end]). *)
Record t : Type := {
  frequency : Frequency;
  data : option (list string);
  start : option string;
  end_ : option string;
  offset : Z;
  length : Z;
  facets : option (list (string * list facet_value));
  sort : option (list (list (sort_key * string)));
  out_path : option Path
}.

(** The defaults of the signature. *)
Definition defaults : t := {|
  frequency := annual;
  data := Some ["cost-per-btu"; "receipts-btu"]%string;
  start := Some "2001"%string;
  end_ := None;
  offset := 0;
  length := 5000;
  facets := None;
  sort := None;
  out_path := None
|}.

Definition frequency_str (f : Frequency) : string :=
  match f with annual => "annual" | monthly => "monthly" end.

Definition sort_key_str (k : sort_key) : string :=
  match k with column => "column" | direction => "direction" end.

Definition of_optional_str (o : option string) : value :=
  match o with Some s => VStr s | None => VNone end.

Definition of_facet_value (f : facet_value) : value :=
  match f with FStr s => VStr s | FInt z => VInt z end.

Definition of_facets (o : option (list (string * list facet_value))) : value :=
  match o with
  | Some d => VDict (map (fun kv => (fst kv, VList (map of_facet_value (snd kv)))) d)
  | None => VNone
  end.

Definition of_sort (o : option (list (list (sort_key * string)))) : value :=
  match o with
  | Some l =>
      VList (map (fun d => VDict (map (fun kv => (sort_key_str (fst kv), VStr (snd kv))) d)) l)
  | None => VNone
  end.

Definition of_out_path (o : option Path) : value :=
  match o with Some _ => VObj "Path" | None => VNone end.

End Options.

(** ** The client *)

Module EIAAPI.

Definition API_ROOT_URL : string := "https://api.eia.gov/v2/".
Definition ELECTRIC_POWER_ROUTE : string :=
  "electricity/electric-power-operational-data/data/".
Definition API_VERSION : string := "2.0.2".

(** The instance attributes set by [__init__]. *)
Record t : Type := {
  output_dir : Path;
  electric_power_url : string
}.

(** [shutil.COPY_BUFSIZE] outside Windows. *)
Definition COPY_BUFSIZE : nat := Z.to_nat (64 * 1024).

(** The blocks [copyfileobj] reads: [read(bufsize)] until it returns
    nothing.  A read of a non-empty rest takes at least one byte, so
    [String.length s] rounds exhaust [s]. *)
Fixpoint read_blocks (fuel : nat) (bufsize : nat) (s : string) : list string :=
  match fuel with
  | O => []
  | S fuel' =>
      match s with
      | EmptyString => []
      | _ => slice_to bufsize s :: read_blocks fuel' bufsize (slice_from bufsize s)
      end
  end.

Section Client.

Variable env : Env.

(** [EIAAPI.get]: the request is sent and the server's reply returned. *)
Definition get (url : string) (param_dict : list (string * value)) : M World Response :=
  fun w =>
    let rq := {| req_url := url; x_params := param_dict |} in
    (Ok (server env (List.length (requests w)) rq),
     {| fs := fs w; requests := requests w ++ [rq]; events := events w |}).

(** [Response.raise_for_status]. *)
Definition raise_for_status (r : Response) : M World unit :=
  if (400 <=? status_code r) && (status_code r <? 600)
  then raise (HTTPError (status_code r))
  else ret tt.

(** [Response.json]. *)
Definition response_json (r : Response) : M World value :=
  match json r with
  | Some v => ret v
  | None => raise JSONDecodeError
  end.

(** [_check_api_version], with the class attribute it reads as an
    argument.  The local [observed_api_version] is bound only when the
    [try] body completes. *)
Definition _check_api_version_against (API_VERSION : string) (response_json : value)
  : M World unit :=
  (observed_api_version <-
     match getitem response_json "apiVersion" with
     | Ok v => ret (Some v)
     | Raise (KeyError _) => (warn VersionInaccessible ;;; ret None)
     | Raise e => raise e
     end ;;
   let expected_parts := split "." API_VERSION in
   observed <-
     match observed_api_version with
     | Some v => ret v
     | None => raise (UnboundLocalError "observed_api_version")
     end ;;
   observed_parts <- lift (str_split observed ".") ;;
   e0 <- lift (index expected_parts 0) ;;
   o0 <- lift (index observed_parts 0) ;;
   if negb (String.eqb e0 o0) then warn (MajorChange API_VERSION observed)
   else
     e1 <- lift (index expected_parts 1) ;;
     o1 <- lift (index observed_parts 1) ;;
     if negb (String.eqb e1 o1) then warn (MinorChange API_VERSION observed)
     else
       e2 <- lift (index expected_parts 2) ;;
       o2 <- lift (index observed_parts 2) ;;
       if negb (String.eqb e2 o2) then logger_info (PatchChange API_VERSION observed)
       else ret tt)%py.

Definition _check_api_version (response_json : value) : M World unit :=
  _check_api_version_against API_VERSION response_json.

(** The body of the loop of [_get_all_values] over responses 2 through
    N: [new_params] is the given dictionary with [offset] set anew. *)
Definition fetch_page (url : string) (param_dict : list (string * value))
    (file_obj : Path) (length i : Z) : M World unit :=
  (let offset := length * i in
   let new_params := dict_set param_dict "offset" (VInt offset) in
   response <- get url new_params ;;
   file_write file_obj ("," +:+ String (ascii_of_nat 10) EmptyString +:+ text response))%py.

(** Lines 106 and 107 of [_get_all_values], which have no effect but
    may raise: the total the server reports, the page length, and the
    number of requests, rounded up. *)
Definition count_requests (resp_json : value) (param_dict : list (string * value))
  : result (value * Z * Z) :=
  (rs <- getitem resp_json "response" ;;
   n_total_results <- getitem rs "total" ;;
   m <- neg n_total_results ;;
   length <- getitem (VDict param_dict) "length" ;;
   length <- as_int length ;;
   q <- floordiv m length ;;
   Ok (n_total_results, length, - q))%result.

(** [_get_all_values].  [file_obj] is the path of the open file.  The
    three [logger.debug] calls format their arguments before the level is
    looked at, so the subscripts in them are evaluated. *)
Definition _get_all_values (url : string) (param_dict : list (string * value))
    (file_obj : Path) : M World unit :=
  (first_response <- get url param_dict ;;
   raise_for_status first_response ;;;
   resp_json <- response_json first_response ;;
   _check_api_version resp_json ;;;
   rq <- lift (getitem resp_json "request") ;;
   _ <- lift (getitem rq "params") ;;
   counted <- lift (count_requests resp_json param_dict) ;;
   let '(n_total_results, length, n_requests) := counted in
   logger_info (Downloading n_total_results n_requests) ;;;
   file_write file_obj (text first_response) ;;;
   for_each (range 1 n_requests) (fetch_page url param_dict file_obj length))%py.

(** [locals()] where the parameter dictionary is built, in the order the
    names were bound. *)
Definition locals_ (o : Options.t) (data : list string) : list (string * value) :=
  [ ("self", VObj "EIAAPI");
    ("frequency", VStr (Options.frequency_str (Options.frequency o)));
    ("data", VList (map VStr data));
    ("start", Options.of_optional_str (Options.start o));
    ("end", Options.of_optional_str (Options.end_ o));
    ("offset", VInt (Options.offset o));
    ("length", VInt (Options.length o));
    ("facets", Options.of_facets (Options.facets o));
    ("sort", Options.of_sort (Options.sort o));
    ("out_path", Options.of_out_path (Options.out_path o));
    ("exclude_locals", VObj "set") ]%string.

Definition exclude_locals : gset string :=
  {[ "self"; "out_path"; "exclude_locals" ]}%string.

(** [list(data) if data else []]. *)
Definition data_list (o : Options.t) : list string :=
  match Options.data o with
  | Some l => l
  | None => []
  end.

(** The dictionary comprehension over [locals()]. *)
Definition build_param_dict (o : Options.t) : list (string * value) :=
  List.filter
    (fun kv => (truthy (snd kv) || eq_zero (snd kv))
               && bool_decide (fst kv ∉ exclude_locals))
    (locals_ o (data_list o)).

(** The default destination, named after the query. *)
Definition default_out_path (self : t) (o : Options.t) : Path :=
  truediv (output_dir self)
    (String.concat "_"
       ([Options.frequency_str (Options.frequency o)] ++ data_list o
        ++ [str (Options.of_optional_str (Options.start o))])
     +:+ ".json").

Definition resolve_out_path (self : t) (o : Options.t) : Path :=
  match Options.out_path o with
  | Some p => p
  | None => default_out_path self o
  end.

(** The [with out_path.open("w") as file] block: the responses become
    the items of one JSON array. *)
Definition write_aggregate (self : t) (param_dict : list (string * value))
    (out_path : Path) : M World unit :=
  (open_w out_path ;;;
   file_write out_path "[" ;;;
   _get_all_values (electric_power_url self) param_dict out_path ;;;
   file_write out_path "]")%py.

(** The loop of [copyfileobj] into a [GzipFile] at [gz]: block [k] is
    written unless the write fails. *)
Fixpoint copy_blocks (gz : Path) (k : nat) (written blocks : list string)
  : M World unit :=
  match blocks with
  | [] => ret tt
  | b :: rest =>
      if io_fault env k then raise OSError
      else
        bind (fun w => (Ok tt, set_fs (insert gz (gzip_stream env (written ++ [b]))) w))
             (fun _ => copy_blocks gz (S k) (written ++ [b]) rest)
  end.

(** [gzip_file]. *)
Definition gzip_file (filepath : Path) (delete_uncompressed : bool) : M World unit :=
  (f_in <- open_rb filepath ;;
   gz <- lift (with_suffix filepath (suffix filepath +:+ ".gz")) ;;
   (fun w => (Ok tt, set_fs (insert gz (gzip_stream env [])) w)) ;;;
   copy_blocks gz 0 [] (read_blocks (String.length f_in) COPY_BUFSIZE f_in) ;;;
   if delete_uncompressed then unlink filepath else ret tt)%py.

(** [get_fuel_receipts_costs_aggregates]. *)
Definition get_fuel_receipts_costs_aggregates (self : t) (o : Options.t) : M World unit :=
  (let param_dict := build_param_dict o in
   let out_path := resolve_out_path self o in
   write_aggregate self param_dict out_path ;;;
   gzip_file out_path true)%py.

End Client.

End EIAAPI.

(** ** JSON texts

    The grammar of RFC 8259 as a relation between a decoded value and a
    text that denotes it; it is what "the file parses as a JSON array"
    refers to.  Numbers are the integers (the one number the script reads,
    [response.total], is an integer) and the [\u] escape is left out. *)

Module Json.

Definition dquote : ascii := ascii_of_nat 34.
Definition backslash : ascii := ascii_of_nat 92.
Definition newline : ascii := ascii_of_nat 10.

Definition is_ws (c : ascii) : bool :=
  match nat_of_ascii c with
  | 32%nat | 9%nat | 10%nat | 13%nat => true
  | _ => false
  end.

Fixpoint ws (s : string) : bool :=
  match s with
  | EmptyString => true
  | String c s' => is_ws c && ws s'
  end.

(** A character that stands for itself inside a string literal. *)
Definition plain (c : ascii) : bool :=
  (32 <=? nat_of_ascii c)%nat && negb (Ascii.eqb c dquote) && negb (Ascii.eqb c backslash).

(** The character a two-character escape stands for. *)
Definition unescape (e : ascii) : option ascii :=
  match nat_of_ascii e with
  | 34%nat => Some dquote
  | 92%nat => Some backslash
  | 47%nat => Some (ascii_of_nat 47)
  | 98%nat => Some (ascii_of_nat 8)
  | 102%nat => Some (ascii_of_nat 12)
  | 110%nat => Some (ascii_of_nat 10)
  | 114%nat => Some (ascii_of_nat 13)
  | 116%nat => Some (ascii_of_nat 9)
  | _ => None
  end.

(** [chars s t]: the body [t] of a string literal denotes [s]. *)
Inductive chars : string -> string -> Prop :=
| chars_nil : chars EmptyString EmptyString
| chars_plain c s t :
    plain c = true -> chars s t -> chars (String c s) (String c t)
| chars_escape c e s t :
    unescape e = Some c -> chars s t ->
    chars (String c s) (String backslash (String e t)).

Fixpoint all_plain (s : string) : bool :=
  match s with
  | EmptyString => true
  | String c s' => plain c && all_plain s'
  end.

Definition quoted (t : string) : string :=
  String dquote (t +:+ String dquote EmptyString).

(** [text_of v t]: the text [t] is a JSON value that decodes to [v]. *)
Inductive text_of : value -> string -> Prop :=
| text_null : text_of VNone "null"
| text_true : text_of (VBool true) "true"
| text_false : text_of (VBool false) "false"
| text_int z : text_of (VInt z) (pretty z)
| text_str s t : chars s t -> text_of (VStr s) (quoted t)
| text_list_nil w : ws w = true -> text_of (VList []) ("[" +:+ w +:+ "]")
| text_list vs t : elements vs t -> text_of (VList vs) ("[" +:+ t +:+ "]")
| text_dict_nil w : ws w = true -> text_of (VDict []) ("{" +:+ w +:+ "}")
| text_dict kvs t : members kvs t -> text_of (VDict kvs) ("{" +:+ t +:+ "}")
with elements : list value -> string -> Prop :=
| elements_one v t w1 w2 :
    ws w1 = true -> ws w2 = true -> text_of v t ->
    elements [v] (w1 +:+ t +:+ w2)
| elements_cons v vs t w1 w2 r :
    ws w1 = true -> ws w2 = true -> text_of v t -> elements vs r ->
    elements (v :: vs) (w1 +:+ t +:+ w2 +:+ "," +:+ r)
with members : list (string * value) -> string -> Prop :=
| members_one k v tk tv w1 w2 w3 w4 :
    ws w1 = true -> ws w2 = true -> ws w3 = true -> ws w4 = true ->
    chars k tk -> text_of v tv ->
    members [(k, v)] (w1 +:+ quoted tk +:+ w2 +:+ ":" +:+ w3 +:+ tv +:+ w4)
| members_cons k v kvs tk tv w1 w2 w3 w4 r :
    ws w1 = true -> ws w2 = true -> ws w3 = true -> ws w4 = true ->
    chars k tk -> text_of v tv -> members kvs r ->
    members ((k, v) :: kvs)
      (w1 +:+ quoted tk +:+ w2 +:+ ":" +:+ w3 +:+ tv +:+ w4 +:+ "," +:+ r).

(** A JSON object, the shape of a page response. *)
Definition is_object (v : value) : Prop := exists kvs, v = VDict kvs.

Definition object_text (t : string) : Prop := exists kvs, text_of (VDict kvs) t.

End Json.

(** ** What a run of the client leaves to observe *)

(** The requests issued between two worlds. *)
Definition new_requests (w w' : World) : list Request :=
  drop (List.length (requests w)) (requests w').

(** The replies to the requests [rqs], the first of which is the
    [base]-th request of the run. *)
Definition replies (env : Env) (base : nat) (rqs : list Request) : list Response :=
  imap (fun k rq => server env (base + k)%nat rq) rqs.

(** The page bodies received between two worlds, in fetch order. *)
Definition page_bodies (env : Env) (w w' : World) : list string :=
  map text (replies env (List.length (requests w)) (new_requests w w')).

(** The [offset] each request carries. *)
Definition page_offsets (rqs : list Request) : list (option value) :=
  map (fun rq => dict_get (x_params rq) "offset") rqs.

(** The separator written between two page bodies. *)
Definition page_sep : string := "," +:+ String Json.newline EmptyString.

(** The request of page [i >= 1]. *)
Definition page_request (url : string) (param_dict : list (string * value))
    (length i : Z) : Request :=
  {| req_url := url;
     x_params := dict_set param_dict "offset" (VInt (length * i)) |}.

(** A first response of the shape the API documents: an object with an
    [apiVersion] string of at least three components, [request.params],
    and an integer [response.total]. *)
Definition page_response (j : value) (total : Z) : Prop :=
  exists v rq ps rs,
    getitem j "apiVersion" = Ok (VStr v) /\
    (3 <= List.length (split "." v))%nat /\
    getitem j "request" = Ok rq /\ getitem rq "params" = Ok ps /\
    getitem j "response" = Ok rs /\ getitem rs "total" = Ok (VInt total).

(** A status [raise_for_status] lets through. *)
Definition status_ok (r : Response) : Prop :=
  ((400 <=? status_code r) && (status_code r <? 600)) = false.

(** ** The specification's reading of the version check *)

Inductive Severity : Type := OK | PATCH_DRIFT | MINOR_DRIFT | MAJOR_DRIFT.

(** The first component that differs, left to right, decides. *)
Definition classify (e o : string * string * string) : Severity :=
  let '(e0, e1, e2) := e in
  let '(o0, o1, o2) := o in
  if negb (String.eqb e0 o0) then MAJOR_DRIFT
  else if negb (String.eqb e1 o1) then MINOR_DRIFT
  else if negb (String.eqb e2 o2) then PATCH_DRIFT
  else OK.

(** How a severity reaches the user: a warning for major and minor
    drift, a log record for patch drift, nothing otherwise. *)
Definition signalled (expected : string) (observed : value) (s : Severity) : list event :=
  match s with
  | OK => []
  | PATCH_DRIFT => [LogInfo (PatchChange expected observed)]
  | MINOR_DRIFT => [Warn (MinorChange expected observed)]
  | MAJOR_DRIFT => [Warn (MajorChange expected observed)]
  end.

(** The world once [evs] were emitted. *)
Definition record_events (evs : list event) (w : World) : World :=
  match evs with
  | [] => w
  | _ => {| fs := fs w; requests := requests w; events := events w ++ evs |}
  end.

(** A version string of three components. *)
Definition version3 (a b c : string) : string := a +:+ "." +:+ b +:+ "." +:+ c.

(** ** The specification's reading of the parameter mapping *)

(** The named query options, in the order of the signature, each with
    the value given for it; a sequence of names is shown as a list. *)
Definition named_options (o : Options.t) : list (string * value) :=
  [ ("frequency", VStr (Options.frequency_str (Options.frequency o)));
    ("data", match Options.data o with
             | Some l => VList (map VStr l)
             | None => VNone
             end);
    ("start", Options.of_optional_str (Options.start o));
    ("end", Options.of_optional_str (Options.end_ o));
    ("offset", VInt (Options.offset o));
    ("length", VInt (Options.length o));
    ("facets", Options.of_facets (Options.facets o));
    ("sort", Options.of_sort (Options.sort o)) ]%string.

(** The filtering rule: keep if truthy, or exactly the integer 0. *)
Definition kept (v : value) : bool :=
  truthy v || match v with VInt 0 => true | _ => false end.

Definition kept_options (o : Options.t) : list (string * value) :=
  List.filter (fun kv => kept (snd kv)) (named_options o).

(** ** Sample servers and a sample codec, for running the model *)

Module Sample.

(** A page response as the API sends it, decoded. *)
Definition page_json (version : option string) (total : Z) : value :=
  VDict
    (match version with
     | Some v => [("apiVersion"%string, VStr v)]
     | None => []
     end
     ++ [("request"%string, VDict [("params"%string, VDict [])]);
         ("response"%string, VDict [("total"%string, VInt total)])]).

(** The same page response as text. *)
Definition page_text (version : option string) (total : Z) : string :=
  let rest :=
    Json.quoted "request" +:+ ":"
    +:+ ("{" +:+ (Json.quoted "params" +:+ ":" +:+ ("{" +:+ EmptyString +:+ "}")) +:+ "}")
    +:+ ","
    +:+ (Json.quoted "response" +:+ ":"
         +:+ ("{" +:+ (Json.quoted "total" +:+ ":" +:+ pretty total) +:+ "}")) in
  "{"
  +:+ match version with
      | Some v => Json.quoted "apiVersion" +:+ ":" +:+ Json.quoted v +:+ "," +:+ rest
      | None => rest
      end
  +:+ "}".

Definition page (version : option string) (total : Z) : Response :=
  {| status_code := 200;
     text := page_text version total;
     json := Some (page_json version total) |}.

(** A reply with an error status and a body that is not JSON. *)
Definition server_error : Response :=
  {| status_code := 500; text := "Internal Server Error"; json := None |}.

(** A server that answers the [k]-th request with the [k]-th of [pages]. *)
Definition serve (pages : list Response) : nat -> Request -> Response :=
  fun k _ => nth k pages server_error.

(** A codec that stores the blocks behind a two-byte header. *)
Definition store (blocks : list string) : string :=
  "gz" +:+ String.concat EmptyString blocks.

Definition unstore (s : string) : option string :=
  match s with
  | String "g" (String "z" rest) => Some rest
  | _ => None
  end.

Definition env_of (pages : list Response) (fault : nat -> bool) : Env :=
  {| server := serve pages; gzip_stream := store; gunzip := unstore; io_fault := fault |}.

Definition no_fault : nat -> bool := fun _ => false.

Definition self : EIAAPI.t :=
  {| EIAAPI.output_dir := ["eia_api"; "2022-01-01#001"]%string;
     EIAAPI.electric_power_url :=
       EIAAPI.API_ROOT_URL +:+ EIAAPI.ELECTRIC_POWER_ROUTE +:+ "?api_key=k" |}.

Definition empty_world : World := {| fs := ∅; requests := []; events := [] |}.

(** A world in which [path] is open for writing and holds [c]. *)
Definition open_world (path : Path) (c : string) : World :=
  {| fs := {[ path := c ]}; requests := []; events := [] |}.

Definition out : Path := ["out.json"%string].

(** A query that starts at offset 7 with pages of 5. *)
Definition shifted : Options.t := {|
  Options.frequency := Options.annual;
  Options.data := None;
  Options.start := None;
  Options.end_ := None;
  Options.offset := 7;
  Options.length := 5;
  Options.facets := None;
  Options.sort := None;
  Options.out_path := Some out
|}.

End Sample.

(** ** pudl_scrapers.helpers: naming the output directory of a run *)

Module Helpers.

(** A string stands for a [str] whose characters have code points below
    256, one [ascii] per character.  Among those characters [int] skips,
    around the numeral, the space, the characters 9 to 13, and the two
    that are whitespace beyond ASCII, 133 and 160; the separators 28 to
    31 are not skipped.  No character of this range other than ["0"] to
    ["9"] is a decimal digit. *)
Definition is_space (c : ascii) : bool :=
  let n := nat_of_ascii c in
  (n =? 32)%nat || ((9 <=? n)%nat && (n <=? 13)%nat)
  || (n =? 133)%nat || (n =? 160)%nat.

Definition digit_of (c : ascii) : option Z :=
  let n := nat_of_ascii c in
  if (48 <=? n)%nat && (n <=? 57)%nat then Some (Z.of_nat (n - 48)) else None.

Fixpoint lstrip (s : string) : string :=
  match s with
  | EmptyString => EmptyString
  | String c s' => if is_space c then lstrip s' else s
  end.

Fixpoint rstrip (s : string) : string :=
  match s with
  | EmptyString => EmptyString
  | String c s' =>
      match rstrip s' with
      | EmptyString => if is_space c then EmptyString else String c EmptyString
      | r => String c r
      end
  end.

Definition strip (s : string) : string := rstrip (lstrip s).

(** Decimal digits, with single underscores allowed between two digits.
    [after_digit] tells whether the previous character was a digit. *)
Fixpoint digits (acc : Z) (after_digit : bool) (s : string) : option Z :=
  match s with
  | EmptyString => if after_digit then Some acc else None
  | String c s' =>
      match digit_of c with
      | Some d => digits (10 * acc + d) true s'
      | None =>
          if Ascii.eqb c "_" && after_digit then digits acc false s' else None
      end
  end.

(** [int(s)], base 10: surrounding whitespace is dropped, then comes an
    optional sign, then the digits. *)
Definition int (s : string) : result Z :=
  let t := strip s in
  let '(sign, body) :=
    match t with
    | String c r =>
        if Ascii.eqb c "+" then (1, r)
        else if Ascii.eqb c "-" then (-1, r)
        else (1, t)
    | EmptyString => (1, t)
    end in
  match digits 0 false body with
  | Some n => Ok (sign * n)
  | None => Raise ValueError
  end.

(** [s.zfill]-like padding on the left, up to [width] characters. *)
Definition zero_pad (width : nat) (s : string) : string :=
  Nat.iter (width - String.length s) (String "0") s.

(** [f"{n:03d}"]: sign-aware zero padding to a width of 3. *)
Definition format_03d (n : Z) : string :=
  if n <? 0 then String "-" (zero_pad 2 (pretty (- n)))
  else zero_pad 3 (pretty n).

(** [s[-3:]]. *)
Definition last3 (s : string) : string :=
  slice_from (String.length s - 3) s.

(** [str(path)] for a relative path. *)
Definition str_path (p : Path) : string := String.concat "/" p.

(** The order of paths: component by component, each as a string. *)
Fixpoint path_leb (p q : Path) : bool :=
  match p, q with
  | [], _ => true
  | _ :: _, [] => false
  | a :: p', b :: q' =>
      match String.compare a b with
      | Lt => true
      | Gt => false
      | Eq => path_leb p' q'
      end
  end.

Definition path_ge (p q : Path) : Prop := path_leb q p = true.

#[global] Instance path_ge_dec : RelDecision path_ge.
Proof. intros p q. unfold path_ge. apply _. Defined.

(** [sorted(paths, reverse=True)]. *)
Definition sorted_reverse (paths : list Path) : list Path :=
  merge_sort path_ge paths.

(** [root.glob(f"{today}*")], given the names of the entries of [root]:
    the entries whose name starts with today's date.  ([today], an ISO
    date, has no character that is special in a pattern.) *)
Definition glob_today (today : string) (root : Path) (children : list string)
  : list Path :=
  map (fun n => root ++ [n]) (List.filter (String.prefix today) children).

(** The name of the directory of run [n] of [today]. *)
Definition run_name (today : string) (n : Z) : string :=
  today +:+ "#" +:+ format_03d n.

(** [new_output_dir(root)], given today's date in ISO format and the
    names of the entries of [root]. *)
Definition new_output_dir (today : string) (root : Path) (children : list string)
  : result Path :=
  let fp := glob_today today root children in
  let todays_outputs := sorted_reverse fp in
  match todays_outputs with
  | [] => Ok (truediv root (run_name today 1))
  | latest :: _ =>
      let previous_name := str_path latest in
      (previous_number <- int (last3 previous_name) ;;
       Ok (truediv root (run_name today (previous_number + 1))))%result
  end.

(** [get_latest_directory(root)]. *)
Definition get_latest_directory (today : string) (root : Path) (children : list string)
  : result Path :=
  let fp := glob_today today root children in
  let todays_outputs := sorted_reverse fp in
  match todays_outputs with
  | [] => Ok (truediv root (run_name today 1))
  | latest :: _ =>
      let previous_name := str_path latest in
      (previous_number <- int (last3 previous_name) ;;
       Ok (truediv root (run_name today previous_number)))%result
  end.

End Helpers.

(** The run numbers up to 1000, on which facts about their text are
    checked by evaluation. *)
Definition small_numbers : list Z := map Z.of_nat (seq 0 1001).


(** ** The client, from construction to [main] *)

(** What the new code can raise besides the exceptions of [exn]: the
    bare [Exception] of [_generate_api_key_query] and the two errors of
    [mkdir]. *)
Inductive py_exception : Type :=
| Exception (message : string)
| Builtin (e : exn)
| FileExistsError
| NotADirectoryError.

Module Script.

(** [os.environ]. *)
Abbreviation Environ := (gmap string string).

(** [EIAAPI._generate_api_key_query]. *)
Definition _generate_api_key_query (environ : Environ) : py_exception + string :=
  match environ !! "API_KEY_EIA"%string with
  | Some api_key_eia => inr ("?api_key=" +:+ api_key_eia)
  | None =>
      inl (Exception
             "API_KEY_EIA not found. It must be specified in a repo level file called eia_api.env")
  end.

(** [EIAAPI.__init__], given the environment, the [OUTPUT_DIR] of the
    settings, today's date and the names of the entries of the output
    root. *)
Definition __init__ (environ : Environ) (OUTPUT_DIR : Path) (today : string)
    (children : list string) : py_exception + EIAAPI.t :=
  let settings_output_dir := OUTPUT_DIR in
  let output_root := truediv settings_output_dir "eia_api" in
  match Helpers.new_output_dir today output_root children with
  | Raise e => inl (Builtin e)
  | Ok output_dir =>
      match _generate_api_key_query environ with
      | inl e => inl e
      | inr query =>
          inr {| EIAAPI.output_dir := output_dir;
                 EIAAPI.electric_power_url :=
                   EIAAPI.API_ROOT_URL +:+ EIAAPI.ELECTRIC_POWER_ROUTE +:+ query |}
      end
  end.

(** The two dictionaries of [main], as keyword arguments. *)
Definition annual_params : Options.t := {|
  Options.frequency := Options.annual;
  Options.data := Some ["cost-per-btu"; "receipts-btu"]%string;
  Options.start := Some "2001"%string;
  Options.end_ := None;
  Options.offset := 0;
  Options.length := 5000;
  Options.facets := None;
  Options.sort := None;
  Options.out_path := None
|}.

Definition monthly_params : Options.t := {|
  Options.frequency := Options.monthly;
  Options.data := Options.data annual_params;
  Options.start := Options.start annual_params;
  Options.end_ := Options.end_ annual_params;
  Options.offset := Options.offset annual_params;
  Options.length := Options.length annual_params;
  Options.facets := Options.facets annual_params;
  Options.sort := Options.sort annual_params;
  Options.out_path := Options.out_path annual_params
|}.

(** [main]: [None] when it returns, the exception otherwise. *)
Definition main (env : Env) (environ : Environ) (OUTPUT_DIR : Path) (today : string)
    (children : list string) (w : World) : option py_exception * World :=
  match __init__ environ OUTPUT_DIR today children with
  | inl e => (Some e, w)
  | inr api =>
      match EIAAPI.get_fuel_receipts_costs_aggregates env api annual_params w with
      | (Raise e, w1) => (Some (Builtin e), w1)
      | (Ok _, w1) =>
          match EIAAPI.get_fuel_receipts_costs_aggregates env api monthly_params w1 with
          | (Raise e, w2) => (Some (Builtin e), w2)
          | (Ok _, w2) => (None, w2)
          end
      end
  end.

End Script.

(** ** pudl_scrapers.spiders.ferc1 *)

Module Ferc1Spider.

(** A request of the spider: its URL and the year kept in [meta]; the
    callback is always [parse]. *)
Record Request : Type := {
  url : string;
  meta_year : Z
}.

(** A response: the request it answers, whose [meta] it shares, and its
    body. *)
Record Response : Type := {
  request : Request;
  body : string
}.

(** [items.Ferc1]. *)
Record Ferc1 : Type := {
  data : string;
  year : Z;
  save_path : Path
}.

(** [form_for_year]. *)
Definition form_for_year (year : Z) : Request :=
  {| url := "https://forms.ferc.gov/f1allyears/f1_" +:+ pretty year +:+ ".zip";
     meta_year := year |}.

(** [all_form_requests]: the requests it yields, in order. *)
Definition all_form_requests : list Request :=
  map form_for_year (range 1994 2022).

(** [parse], given the [output_dir] set by [start_requests]. *)
Definition parse (output_dir : Path) (response : Response) : Ferc1 :=
  let year := meta_year (request response) in
  let path := truediv output_dir ("ferc1-" +:+ pretty year +:+ ".zip") in
  {| data := body response; year := year; save_path := path |}.

(** [start_requests]: the [output_dir] it sets and the requests it
    yields, given the [OUTPUT_DIR] of the settings, today's date and the
    names of the entries of the output root. *)
Definition start_requests (OUTPUT_DIR : Path) (today : string) (children : list string)
  : result (Path * list Request) :=
  let settings_output_dir := OUTPUT_DIR in
  let output_root := truediv settings_output_dir "ferc1" in
  (output_dir <- Helpers.new_output_dir today output_root children ;;
   Ok (output_dir, all_form_requests))%result.

End Ferc1Spider.

(** ** pudl_scrapers.bin.eia_bulk_elec *)

Module Bulk.

Definition DATA_URL : string := "https://api.eia.gov/bulk/ELEC.zip".

(** The directories and the files there are.  The empty path, the
    working directory, always exists. *)
Record Disk : Type := {
  dirs : gset Path;
  files : gmap Path string
}.

Definition is_dir (d : Disk) (p : Path) : bool :=
  bool_decide (p = []) || bool_decide (p ∈ dirs d).

Definition is_file (d : Disk) (p : Path) : bool :=
  bool_decide (is_Some (files d !! p)).

(** The names of the entries of the directory [root]. *)
Definition listdir (d : Disk) (root : Path) : list string :=
  omap (fun p => if bool_decide (p <> [] /\ removelast p = root)
                 then Some (List.last p EmptyString) else None)
       (elements (dirs d ∪ dom (files d))).

(** The leading parts of a path, itself included, the empty one left
    out, shortest first. *)
Fixpoint ancestors (p : Path) : list Path :=
  match p with
  | [] => []
  | a :: p' => [a] :: map (cons a) (ancestors p')
  end.

(** [path.mkdir(parents=True, exist_ok=False)]: it fails when the path
    is there already or when a file lies on the way, and otherwise makes
    the path and every leading part that is missing. *)
Definition mkdir_parents (p : Path) (d : Disk) : py_exception + Disk :=
  if is_dir d p || is_file d p then inl FileExistsError
  else if existsb (is_file d) (ancestors p) then inl NotADirectoryError
  else inr {| dirs := dirs d ∪ list_to_set (ancestors p); files := files d |}.

(** The streamed response to the one request: its status, its
    [content-length] header if any, and the chunks [iter_content]
    yields. *)
Record Download : Type := {
  status_code : Z;
  content_length : option string;
  chunks : list string
}.

(** What a run can see and change: the disk, and the URLs requested. *)
Record State : Type := {
  disk : Disk;
  requested : list string
}.

(** [int(resp.headers.get("content-length", 0))]. *)
Definition total_size_in_bytes (resp : Download) : result Z :=
  match content_length resp with
  | Some s => Helpers.int s
  | None => Ok 0
  end.

(** [main], run without command-line arguments, given the [OUTPUT_DIR]
    of the settings, today's date and the response of the server: the
    value returned or the exception raised, and the state left. *)
Definition main (OUTPUT_DIR : Path) (today : string) (resp : Download) (s : State)
  : (py_exception + Z) * State :=
  let output_root := truediv OUTPUT_DIR "eia_bulk_elec" in
  match Helpers.new_output_dir today output_root (listdir (disk s) output_root) with
  | Raise e => (inl (Builtin e), s)
  | Ok output_dir =>
      let out_path := truediv output_dir "eia_bulk_elec.zip" in
      match mkdir_parents (removelast out_path) (disk s) with
      | inl e => (inl e, s)
      | inr d1 =>
          let s1 := {| disk := d1; requested := requested s ++ [DATA_URL] |} in
          if (400 <=? status_code resp) && (status_code resp <? 600)
          then (inl (Builtin (HTTPError (status_code resp))), s1)
          else
            match total_size_in_bytes resp with
            | Raise e => (inl (Builtin e), s1)
            | Ok _ =>
                let written :=
                  fold_left (fun content chunk => content +:+ chunk)
                    (chunks resp) EmptyString in
                (inr 0,
                 {| disk := {| dirs := dirs d1;
                               files := <[out_path := written]> (files d1) |};
                    requested := requested s1 |})
            end
      end
  end.

End Bulk.

(** Today's entries of [root] are runs numbered up to [k], run [k]
    among them. *)
Definition runs_so_far (today : string) (root : Path) (d : Bulk.Disk) (k : Z) : Prop :=
  In (Helpers.run_name today k) (Bulk.listdir d root) /\
  forall c : string, In c (Bulk.listdir d root) -> String.prefix today c = true ->
    exists i, 0 <= i <= k /\ c = Helpers.run_name today i.

(** No file lies on the way to [p]. *)
Definition way_clear (d : Bulk.Disk) (p : Path) : Prop :=
  existsb (Bulk.is_file d) (Bulk.ancestors p) = false.

(** ** More sample inputs *)

Module Demo.

Definition today : string := "2019-05-31".

(** The defaults with a page length of 0. *)
Definition zero_length : Options.t := {|
  Options.frequency := Options.annual;
  Options.data := Some ["cost-per-btu"; "receipts-btu"]%string;
  Options.start := Some "2001"%string;
  Options.end_ := None;
  Options.offset := 0;
  Options.length := 0;
  Options.facets := None;
  Options.sort := None;
  Options.out_path := None
|}.

Definition environ : Script.Environ := {[ "API_KEY_EIA"%string := "k"%string ]}.

Definition bulk_root : Path := ["out"; "eia_bulk_elec"]%string.

(** A disk on which [runs] are the directories of today's runs. *)
Definition disk_with (runs : list string) : Bulk.Disk :=
  {| Bulk.dirs :=
       list_to_set ([["out"%string]; bulk_root] ++ map (fun n => bulk_root ++ [n]) runs);
     Bulk.files := ∅ |}.

Definition state_with (runs : list string) : Bulk.State :=
  {| Bulk.disk := disk_with runs; Bulk.requested := [] |}.

Definition download : Bulk.Download :=
  {| Bulk.status_code := 200;
     Bulk.content_length := Some "6"%string;
     Bulk.chunks := ["abc"; "def"]%string |}.

Definition refused : Bulk.Download :=
  {| Bulk.status_code := 503;
     Bulk.content_length := None;
     Bulk.chunks := [] |}.

End Demo.

(** * Properties *)

(** ** Strings and joins *)

Lemma split_cons sep a rest :
  contains sep a = false -> split sep (a +:+ String sep rest) = a :: split sep rest.
Proof.
  induction a as [|c a IH]; simpl.
  - intros _. by rewrite Ascii.eqb_refl.
  - intros H. apply orb_false_iff in H as [Hc Ha].
    rewrite Hc, (IH Ha). done.
Qed.

Lemma split_single sep a : contains sep a = false -> split sep a = [a].
Proof.
  induction a as [|c a IH]; simpl; [done|].
  intros H. apply orb_false_iff in H as [Hc Ha]. by rewrite Hc, (IH Ha).
Qed.

Lemma split_version3 a b c :
  contains "." a = false -> contains "." b = false -> contains "." c = false ->
  split "." (version3 a b c) = [a; b; c].
Proof.
  intros Ha Hb Hc. unfold version3.
  change ("." +:+ b +:+ "." +:+ c) with (String "." (b +:+ String "." c)).
  rewrite (split_cons _ _ _ Ha), (split_cons _ _ _ Hb), (split_single _ _ Hc). done.
Qed.

(** ** Sequencing *)

Section MonadLemmas.
Context {S A B : Type}.

Lemma bind_ok (c : M S A) (k : A -> M S B) w a w1 :
  c w = (Ok a, w1) -> bind c k w = k a w1.
Proof. intros H. unfold bind. by rewrite H. Qed.

Lemma bind_raise (c : M S A) (k : A -> M S B) w e w1 :
  c w = (Raise e, w1) -> bind c k w = (Raise e, w1).
Proof. intros H. unfold bind. by rewrite H. Qed.

Lemma bind_lift_ok (r : result A) (k : A -> M S B) w a :
  r = Ok a -> bind (lift r) k w = k a w.
Proof. intros ->. reflexivity. Qed.

End MonadLemmas.

Lemma append_nil_r s : s +:+ EmptyString = s.
Proof. induction s; simpl; congruence. Qed.

Lemma append_assoc (a b c : string) : (a +:+ b) +:+ c = a +:+ b +:+ c.
Proof. induction a; simpl; congruence. Qed.

Lemma length_append (a b : string) :
  String.length (a +:+ b) = (String.length a + String.length b)%nat.
Proof. induction a; simpl; congruence. Qed.

Lemma concat_empty_cons x l :
  String.concat EmptyString (x :: l) = x +:+ String.concat EmptyString l.
Proof. destruct l; cbn [String.concat]; [by rewrite append_nil_r | reflexivity]. Qed.

(** [sep.join] of a non-empty list, head first. *)
Lemma concat_cons sep b bs :
  String.concat sep (b :: bs) =
  b +:+ String.concat EmptyString (map (fun x => sep +:+ x) bs).
Proof.
  revert b. induction bs as [|b' bs IH]; intros b.
  - cbn. by rewrite append_nil_r.
  - change (String.concat sep (b :: b' :: bs))
      with (b +:+ sep +:+ String.concat sep (b' :: bs)).
    rewrite IH. cbn [map]. by rewrite concat_empty_cons, append_assoc.
Qed.

(** ** The requests of a fetch and their replies *)

Lemma replies_cons env base rq rqs :
  replies env base (rq :: rqs) = server env base rq :: replies env (Datatypes.S base) rqs.
Proof.
  unfold replies. simpl. f_equal.
  - f_equal. lia.
  - apply imap_ext. intros k x _. simpl. f_equal. lia.
Qed.

Lemma replies_length env base rqs : List.length (replies env base rqs) = List.length rqs.
Proof. unfold replies. apply length_imap. Qed.

(** With three components on each side the check completes, and what it
    emits is the severity of the first difference. *)
Lemma check_against_parts (expected v : string) (j : value) (w : World)
    (e0 e1 e2 o0 o1 o2 : string) (es os : list string) :
  getitem j "apiVersion" = Ok (VStr v) ->
  split "." expected = e0 :: e1 :: e2 :: es ->
  split "." v = o0 :: o1 :: o2 :: os ->
  EIAAPI._check_api_version_against expected j w =
    (Ok tt, record_events
              (signalled expected (VStr v) (classify (e0, e1, e2) (o0, o1, o2))) w).
Proof.
  intros Hj He Ho.
  unfold EIAAPI._check_api_version_against. rewrite Hj.
  unfold bind at 1. unfold ret at 1.
  unfold bind at 1. unfold ret at 1.
  unfold str_split. rewrite He, Ho.
  unfold bind, lift, ret, index, classify. cbn [nth_error].
  destruct (String.eqb e0 o0); cbn [negb]; [|done].
  destruct (String.eqb e1 o1); cbn [negb]; [|done].
  destruct (String.eqb e2 o2); cbn [negb]; done.
Qed.

Lemma check_api_version_passes (j : value) (v : string) (w : World) :
  getitem j "apiVersion" = Ok (VStr v) ->
  (3 <= List.length (split "." v))%nat ->
  exists evs, EIAAPI._check_api_version j w = (Ok tt, record_events evs w).
Proof.
  intros Hj Hlen.
  destruct (split "." v) as [|o0 [|o1 [|o2 os]]] eqn:Ho; simpl in Hlen; try lia.
  eexists. unfold EIAAPI._check_api_version.
  eapply check_against_parts; [done| reflexivity | done].
Qed.

Section Pages.
Variable env : Env.
Variables (url : string) (param_dict : list (string * value)) (file : Path) (len : Z).

(** The loop over the later pages never raises: it sends one request
    per page and appends each body after a separator. *)
Lemma pages_loop (pages : list Z) : forall (w : World) (c : string),
  fs w !! file = Some c ->
  for_each pages (EIAAPI.fetch_page env url param_dict file len) w =
    (Ok tt,
     {| fs := <[file :=
                 c +:+ String.concat EmptyString
                         (map (fun b => page_sep +:+ b)
                            (map text (replies env (List.length (requests w))
                                         (map (page_request url param_dict len) pages))))]>
               (fs w);
        requests := requests w ++ map (page_request url param_dict len) pages;
        events := events w |}).
Proof.
  induction pages as [|i pages IH]; intros w c Hc.
  - simpl. unfold ret. f_equal. destruct w as [f r e]; simpl in *.
    rewrite append_nil_r, app_nil_r. f_equal. symmetry. by apply insert_id.
  - simpl for_each. unfold bind at 1. unfold EIAAPI.fetch_page at 1.
    unfold bind at 1. unfold EIAAPI.get at 1. unfold file_write at 1.
    unfold set_fs. cbn [fs requests events].
    rewrite Hc. cbn [default].
    erewrite IH; [|cbn [fs]; apply lookup_insert_eq].
    cbn [fs requests events]. f_equal. f_equal.
    + rewrite insert_insert_eq. f_equal.
      rewrite length_app. cbn [List.length map].
      rewrite replies_cons. cbn [map].
      replace (List.length (requests w) + 1)%nat with (Datatypes.S (List.length (requests w))) by lia.
      rewrite concat_empty_cons, !append_assoc. reflexivity.
    + by rewrite <- app_assoc.
Qed.
End Pages.

Lemma record_events_fs evs w : fs (record_events evs w) = fs w.
Proof. by destruct evs. Qed.

Lemma record_events_requests evs w : requests (record_events evs w) = requests w.
Proof. by destruct evs. Qed.

(** The version check touches neither the files nor the requests. *)
Lemma check_frame (expected : string) (j : value) (w w' : World) (r : result unit) :
  EIAAPI._check_api_version_against expected j w = (r, w') ->
  fs w' = fs w /\ requests w' = requests w.
Proof.
  unfold EIAAPI._check_api_version_against, bind, lift, ret, raise, warn, logger_info, emit.
  intros H.
  repeat match goal with
         | H : context [match ?x with _ => _ end] |- _ => destruct x eqn:?; simplify_eq
         end; simplify_eq; done.
Qed.

Lemma count_requests_page (j : value) (param_dict : list (string * value)) (total len : Z) :
  page_response j total ->
  dict_get param_dict "length" = Some (VInt len) -> len <> 0 ->
  EIAAPI.count_requests j param_dict = Ok (VInt total, len, - (- total / len)).
Proof.
  intros (v & rq & ps & rs & Hv & Hparts & Hrq & Hps & Hrs & Htot) Hlen Hnz.
  unfold EIAAPI.count_requests. rewrite Hrs. cbn [rbind]. rewrite Htot. cbn [rbind neg].
  unfold getitem at 1. rewrite Hlen. cbn [rbind as_int].
  unfold floordiv. destruct (Z.eqb_spec len 0); [done|reflexivity].
Qed.

Section Fetch.
Variable env : Env.
Variables (url : string) (param_dict : list (string * value)) (file : Path).

(** Every run of [_get_all_values] has one of two shapes: an exception
    after the first request and before anything is written, or a full
    run of [max 1 n_requests] pages. *)
Lemma get_all_values_inv (w w' : World) (c : string) (r : result unit) :
  let rq0 := {| req_url := url; x_params := param_dict |} in
  let r0 := server env (List.length (requests w)) rq0 in
  fs w !! file = Some c ->
  EIAAPI._get_all_values env url param_dict file w = (r, w') ->
  (exists e, r = Raise e /\ requests w' = requests w ++ [rq0] /\ fs w' = fs w) \/
  (r = Ok tt /\ status_ok r0 /\
   exists j t len n,
     json r0 = Some j /\ EIAAPI.count_requests j param_dict = Ok (t, len, n) /\
     requests w' =
       requests w ++ rq0 :: map (page_request url param_dict len) (range 1 n) /\
     fs w' =
       <[file := c +:+ String.concat page_sep
                         (map text (replies env (List.length (requests w))
                            (rq0 :: map (page_request url param_dict len) (range 1 n))))]>
         (fs w)).
Proof.
  intros rq0 r0 Hc.
  unfold EIAAPI._get_all_values.
  unfold bind at 1. unfold EIAAPI.get at 1. fold rq0. fold r0.
  set (w1 := {| fs := fs w; requests := requests w ++ [rq0]; events := events w |}).
  unfold bind at 1. unfold EIAAPI.raise_for_status at 1.
  destruct ((400 <=? status_code r0) && (status_code r0 <? 600)) eqn:Hst.
  { unfold raise. intros [= <- <-]. left. eauto. }
  unfold ret at 1.
  unfold bind at 1. unfold EIAAPI.response_json at 1.
  destruct (json r0) as [j|] eqn:Hjs; [|unfold raise; intros [= <- <-]; left; eauto].
  unfold ret at 1.
  unfold bind at 1.
  destruct (EIAAPI._check_api_version j w1) as [[[]|e] w2] eqn:Hck;
    apply check_frame in Hck as [Hfs Hrq].
  2:{ intros [= <- <-]. left. eexists. by rewrite Hfs, Hrq. }
  unfold bind at 1, lift at 1.
  destruct (getitem j "request") as [rq|e]; [|intros [= <- <-]; left; eexists; by rewrite Hfs, Hrq].
  unfold bind at 1, lift at 1.
  destruct (getitem rq "params") as [ps|e]; [|intros [= <- <-]; left; eexists; by rewrite Hfs, Hrq].
  unfold bind at 1, lift at 1.
  destruct (EIAAPI.count_requests j param_dict) as [[[t len] n]|e] eqn:Hcount;
    [|intros [= <- <-]; left; eexists; by rewrite Hfs, Hrq].
  unfold bind at 1. unfold logger_info at 1, emit at 1.
  unfold bind at 1. unfold file_write at 1, set_fs at 1. cbn [fs requests events].
  rewrite Hfs, Hrq. subst w1. cbn [fs requests events].
  rewrite Hc. cbn [default].
  erewrite pages_loop; [|cbn [fs]; apply lookup_insert_eq].
  cbn [fs requests events].
  intros [= <- <-]. right. split; [done|]. split; [done|].
  exists j, t, len, n. split; [done|]. split; [done|]. cbn [fs requests events]. split.
  - by rewrite <- app_assoc.
  - rewrite insert_insert_eq. f_equal.
    rewrite replies_cons. cbn [map]. rewrite concat_cons.
    rewrite length_app. cbn [List.length].
    replace (List.length (requests w) + 1)%nat with (Datatypes.S (List.length (requests w))) by lia.
    rewrite append_assoc, !map_map. reflexivity.
Qed.

(** A well-formed first response makes the run a full one. *)
Lemma get_all_values_run (w : World) (c : string) (j : value) (total len : Z) :
  let rq0 := {| req_url := url; x_params := param_dict |} in
  let r0 := server env (List.length (requests w)) rq0 in
  status_ok r0 -> json r0 = Some j -> page_response j total ->
  dict_get param_dict "length" = Some (VInt len) -> len <> 0 ->
  fs w !! file = Some c ->
  let rqs := rq0 :: map (page_request url param_dict len) (range 1 (- (- total / len))) in
  exists w',
    EIAAPI._get_all_values env url param_dict file w = (Ok tt, w') /\
    requests w' = requests w ++ rqs /\
    fs w' = <[file := c +:+ String.concat page_sep
                          (map text (replies env (List.length (requests w)) rqs))]> (fs w).
Proof.
  intros rq0 r0 Hst Hjs Hpage Hlen Hnz Hc rqs.
  pose proof (count_requests_page _ _ _ _ Hpage Hlen Hnz) as Hcount.
  destruct Hpage as (v & rq & ps & rs & Hv & Hparts & Hrq & Hps & _).
  unfold EIAAPI._get_all_values.
  unfold bind at 1. unfold EIAAPI.get at 1. fold rq0. fold r0.
  set (w1 := {| fs := fs w; requests := requests w ++ [rq0]; events := events w |}).
  unfold bind at 1. unfold EIAAPI.raise_for_status at 1.
  unfold status_ok in Hst. rewrite Hst. unfold ret at 1.
  unfold bind at 1. unfold EIAAPI.response_json at 1. rewrite Hjs. unfold ret at 1.
  destruct (check_api_version_passes j v w1 Hv Hparts) as [evs Hck].
  rewrite (bind_ok _ _ _ _ _ Hck).
  rewrite (bind_lift_ok _ _ _ _ Hrq), (bind_lift_ok _ _ _ _ Hps).
  rewrite (bind_lift_ok _ _ _ _ Hcount).
  unfold bind at 1. unfold logger_info at 1, emit at 1.
  unfold bind at 1. unfold file_write at 1, set_fs at 1. cbn [fs requests events].
  rewrite record_events_fs, record_events_requests. subst w1. cbn [fs requests events].
  rewrite Hc. cbn [default].
  erewrite pages_loop; [|cbn [fs]; apply lookup_insert_eq].
  cbn [fs requests events].
  eexists. split; [reflexivity|]. cbn [fs requests events]. split.
  - subst rqs. by rewrite <- app_assoc.
  - rewrite insert_insert_eq. f_equal. subst rqs.
    rewrite replies_cons. cbn [map]. rewrite concat_cons.
    rewrite length_app. cbn [List.length].
    replace (List.length (requests w) + 1)%nat with (Datatypes.S (List.length (requests w))) by lia.
    rewrite append_assoc, !map_map. reflexivity.
Qed.

End Fetch.

(** ** The number of pages *)

(** [-(-total // len)] is the least [n] with [total <= n * len]. *)
Lemma ceiling_bounds (total len : Z) :
  1 <= len ->
  (- (- total / len) - 1) * len < total <= - (- total / len) * len.
Proof.
  intros Hlen.
  pose proof (Z.div_mod (- total) len ltac:(lia)) as Hdm.
  pose proof (Z.mod_pos_bound (- total) len ltac:(lia)) as Hmod.
  nia.
Qed.

Lemma length_range (lo hi : Z) : List.length (range lo hi) = Z.to_nat (hi - lo).
Proof. unfold range. by rewrite length_map, length_seq. Qed.

Lemma lookup_range (lo hi : Z) (k : nat) :
  (k < Z.to_nat (hi - lo))%nat -> range lo hi !! k = Some (lo + Z.of_nat k).
Proof.
  intros Hk. unfold range. rewrite list_lookup_fmap, lookup_seq_lt by done. reflexivity.
Qed.

Lemma new_requests_app (w w' : World) (rqs : list Request) :
  requests w' = requests w ++ rqs -> new_requests w w' = rqs.
Proof. intros H. unfold new_requests. rewrite H. apply drop_app_length. Qed.

Lemma length_page_bodies env w w' :
  List.length (page_bodies env w w') = List.length (new_requests w w').
Proof. unfold page_bodies. by rewrite length_map, replies_length. Qed.

(** C1. When the first response is a well-formed page response that
    reports [total >= 0] results and the page length is at least 1 (in
    particular anywhere in [1, 5000]), the fetch completes, the computed
    [n_requests = -(-total // length)] is the ceiling of [total / length],
    every page body received is written to the file, and: for
    [total >= 1] exactly [n_requests] requests are issued, the first one
    included; for [total = 0] the count is 0 and still exactly one
    request is issued and one body written. *)
Theorem pages_fetched_is_ceiling (env : Env) (url : string)
    (param_dict : list (string * value)) (file : Path) (w : World) (c : string)
    (j : value) (total len : Z) :
  let r0 := server env (List.length (requests w))
              {| req_url := url; x_params := param_dict |} in
  let n_requests := - (- total / len) in
  status_ok r0 -> json r0 = Some j -> page_response j total ->
  dict_get param_dict "length" = Some (VInt len) -> 1 <= len -> 0 <= total ->
  fs w !! file = Some c ->
  exists w',
    EIAAPI._get_all_values env url param_dict file w = (Ok tt, w') /\
    EIAAPI.count_requests j param_dict = Ok (VInt total, len, n_requests) /\
    (n_requests - 1) * len < total <= n_requests * len /\
    fs w' !! file = Some (c +:+ String.concat page_sep (page_bodies env w w')) /\
    List.length (page_bodies env w w') = List.length (new_requests w w') /\
    (1 <= total -> Z.of_nat (List.length (new_requests w w')) = n_requests) /\
    (total = 0 -> n_requests = 0 /\ List.length (new_requests w w') = 1%nat).
Proof.
  intros r0 n_requests Hst Hjs Hpage Hlen Hpos Htot Hc.
  destruct (get_all_values_run env url param_dict file w c j total len
              Hst Hjs Hpage Hlen ltac:(lia) Hc) as (w' & Hrun & Hreq & Hfs).
  pose proof (ceiling_bounds total len Hpos) as Hceil. fold n_requests in Hceil, Hreq, Hfs.
  exists w'. split; [done|]. split; [apply count_requests_page; [done|done|lia]|].
  split; [done|].
  pose proof (new_requests_app _ _ _ Hreq) as Hnew.
  split.
  { rewrite Hfs, lookup_insert_eq. unfold page_bodies. by rewrite Hnew. }
  split; [apply length_page_bodies|].
  rewrite Hnew. cbn [List.length]. rewrite length_map, length_range.
  split.
  - intros H1. assert (1 <= n_requests) by nia. lia.
  - intros ->. assert (n_requests = 0) by nia. split; [done|]. lia.
Qed.

(** ** The offsets of the pages *)

Lemma dict_get_set (d : list (string * value)) (k : string) (v : value) :
  dict_get (dict_set d k v) k = Some v.
Proof.
  induction d as [|[k' v'] d IH]; simpl.
  - by rewrite String.eqb_refl.
  - destruct (String.eqb k' k) eqn:E; simpl; by rewrite E.
Qed.

Lemma count_requests_length (j : value) (param_dict : list (string * value))
    (t : value) (len len' n : Z) :
  dict_get param_dict "length" = Some (VInt len) ->
  EIAAPI.count_requests j param_dict = Ok (t, len', n) ->
  len' = len /\ exists m, neg t = Ok m /\ n = - (m / len).
Proof.
  intros Hlen. unfold EIAAPI.count_requests.
  destruct (getitem j "response") as [rs|]; [|done]. cbn [rbind].
  destruct (getitem rs "total") as [t'|]; [|done]. cbn [rbind].
  destruct (neg t') as [m|] eqn:Hm; [|done]. cbn [rbind].
  unfold getitem at 1. rewrite Hlen. cbn [rbind as_int].
  unfold floordiv. destruct (len =? 0); [done|]. cbn [rbind].
  intros [= <- <- <-]. eauto.
Qed.

(** C3, amended.  In every fetch the first request carries the
    [offset] of the parameters as given, and the request of every later
    page [k >= 1] carries [offset = length * k].  When the given offset
    is 0 the [k]-th request carries [length * k] for every [k >= 0], and
    with a page length of at least 1 the offsets are then strictly
    increasing in the order of the requests. *)
Theorem later_pages_offset (env : Env) (url : string)
    (param_dict : list (string * value)) (file : Path) (w w' : World)
    (c : string) (r : result unit) (len : Z) :
  dict_get param_dict "length" = Some (VInt len) ->
  fs w !! file = Some c ->
  EIAAPI._get_all_values env url param_dict file w = (r, w') ->
  let offsets := page_offsets (new_requests w w') in
  offsets !! 0%nat = Some (dict_get param_dict "offset") /\
  (forall k : nat, (1 <= k < List.length offsets)%nat ->
     offsets !! k = Some (Some (VInt (len * Z.of_nat k)))) /\
  (dict_get param_dict "offset" = Some (VInt 0) ->
   (forall k : nat, (k < List.length offsets)%nat ->
      offsets !! k = Some (Some (VInt (len * Z.of_nat k)))) /\
   (1 <= len ->
    forall (i k : nat) (oi ok : Z),
      (i < k)%nat -> offsets !! i = Some (Some (VInt oi)) ->
      offsets !! k = Some (Some (VInt ok)) -> oi < ok)).
Proof.
  intros Hlen Hc Hrun offsets.
  assert (Hshape : exists n,
    new_requests w w' =
      {| req_url := url; x_params := param_dict |}
      :: map (page_request url param_dict len) (range 1 n)).
  { destruct (get_all_values_inv env url param_dict file w w' c r Hc Hrun)
      as [(e & _ & Hreq & _)|(_ & _ & j & t & len' & n & _ & Hcount & Hreq & _)].
    - exists 0. by apply new_requests_app.
    - destruct (count_requests_length _ _ _ _ _ _ Hlen Hcount) as [-> _].
      exists n. by apply new_requests_app. }
  destruct Hshape as [n Hnew].
  assert (Hlater : forall k : nat, (1 <= k < List.length offsets)%nat ->
            offsets !! k = Some (Some (VInt (len * Z.of_nat k)))).
  { intros k [Hk1 Hk2]. subst offsets. unfold page_offsets in *. rewrite Hnew in *.
    rewrite length_map in Hk2. cbn [List.length] in Hk2.
    rewrite length_map, length_range in Hk2.
    destruct k as [|k]; [lia|].
    cbn [map]. rewrite lookup_cons. rewrite !list_lookup_fmap.
    rewrite lookup_range by lia. cbn [fmap option_fmap option_map].
    unfold page_request. cbn [x_params]. rewrite dict_get_set.
    do 3 f_equal. lia. }
  assert (Hfirst : offsets !! 0%nat = Some (dict_get param_dict "offset")).
  { subst offsets. unfold page_offsets. by rewrite Hnew. }
  split; [done|]. split; [done|].
  intros Hzero.
  assert (Hall : forall k : nat, (k < List.length offsets)%nat ->
            offsets !! k = Some (Some (VInt (len * Z.of_nat k)))).
  { intros [|k] Hk; [|apply Hlater; lia].
    rewrite Hfirst, Hzero. do 3 f_equal. lia. }
  split; [done|].
  intros Hpos i k oi ok Hik Hi Hk.
  rewrite Hall in Hi by (by eapply lookup_lt_Some).
  rewrite Hall in Hk by (by eapply lookup_lt_Some).
  simplify_eq. nia.
Qed.

(** ** The aggregate file *)

Lemma append_nil_l (s : string) : EmptyString +:+ s = s.
Proof. reflexivity. Qed.

(** The page bodies, joined by [",\n"], are the elements of a JSON array:
    the newline is leading whitespace of the next element. *)
Lemma elements_join (vs : list value) (bodies : list string) :
  Forall2 Json.text_of vs bodies -> bodies <> [] ->
  forall w : string, Json.ws w = true ->
    Json.elements vs (w +:+ String.concat page_sep bodies).
Proof.
  induction 1 as [|v b vs bodies Hv Hrest IH]; [done|].
  intros _ w Hw.
  destruct Hrest as [|v' b' vs' bodies' Hv' Hrest'].
  - cbn [String.concat].
    rewrite <- (append_nil_r b) at 1.
    by apply Json.elements_one.
  - change (String.concat page_sep (b :: b' :: bodies'))
      with (b +:+ page_sep +:+ String.concat page_sep (b' :: bodies')).
    change (b +:+ page_sep +:+ String.concat page_sep (b' :: bodies'))
      with (b +:+ (("," +:+ String Json.newline EmptyString) +:+ String.concat page_sep (b' :: bodies'))).
    rewrite append_assoc.
    change (b +:+ "," +:+ String Json.newline EmptyString +:+ String.concat page_sep (b' :: bodies'))
      with (b +:+ EmptyString +:+ "," +:+ (String Json.newline EmptyString +:+ String.concat page_sep (b' :: bodies'))).
    apply Json.elements_cons; [done|done|done|].
    apply IH; [done|reflexivity].
Qed.

Lemma object_texts_decode (bodies : list string) :
  Forall Json.object_text bodies ->
  exists vs, Forall2 Json.text_of vs bodies /\ Forall Json.is_object vs.
Proof.
  induction 1 as [|b bodies [kvs Hb] _ (vs & Hvs & Hobj)].
  - exists []. split; constructor.
  - exists (VDict kvs :: vs). split; constructor; try done. by exists kvs.
Qed.


(** ** Compression *)

(** *** Slices and suffixes *)

Lemma slice_to_from (i : nat) (s : string) : slice_to i s +:+ slice_from i s = s.
Proof.
  revert s. induction i as [|i IH]; intros [|c s]; cbn; try done. by rewrite IH.
Qed.

Lemma length_slice_from (i : nat) (s : string) :
  String.length (slice_from i s) = (String.length s - i)%nat.
Proof. revert s. induction i as [|i IH]; intros [|c s]; cbn; try done. Qed.

Lemma rfind_lt (c : ascii) (s : string) (i : nat) :
  rfind c s = Some i -> (i < String.length s)%nat.
Proof.
  revert i. induction s as [|c' s IH]; intros i; cbn; [done|].
  destruct (rfind c s) as [k|].
  - intros [= <-]. specialize (IH k eq_refl). lia.
  - destruct (Ascii.eqb c' c); [|done]. intros [= <-]. lia.
Qed.

Lemma slice_to_all (s : string) : slice_to (String.length s) s = s.
Proof. induction s as [|c s IH]; cbn; [done|by rewrite IH]. Qed.

(** Cutting the suffix off the name and putting it back is the name. *)
Lemma stem_suffix (p : Path) :
  slice_to (String.length (name p) - String.length (suffix p)) (name p) +:+ suffix p
  = name p.
Proof.
  assert (Hnone : slice_to (String.length (name p) - 0) (name p) +:+ EmptyString = name p)
    by (by rewrite Nat.sub_0_r, append_nil_r, slice_to_all).
  unfold suffix. destruct (rfind "." (name p)) as [i|] eqn:Hi; [|done].
  destruct ((0 <? i)%nat && (i <? String.length (name p) - 1)%nat); [|done].
  apply rfind_lt in Hi. rewrite length_slice_from.
  replace (String.length (name p) - (String.length (name p) - i))%nat with i by lia.
  apply slice_to_from.
Qed.

(** [with_suffix(suffix + ".gz")], when it returns, appends [".gz"] to
    the name. *)
Lemma with_suffix_gz (p gz : Path) :
  with_suffix p (suffix p +:+ ".gz") = Ok gz ->
  gz = removelast p ++ [name p +:+ ".gz"] /\ name p <> EmptyString.
Proof.
  unfold with_suffix.
  destruct (contains "/" (suffix p +:+ ".gz")); [done|].
  destruct (_ || _); [done|].
  destruct (String.eqb_spec (name p) ""); [done|].
  intros [= <-]. split; [|done]. do 2 f_equal.
  destruct (String.eqb_spec (suffix p) "") as [->|_]; [done|].
  by rewrite <- append_assoc, stem_suffix.
Qed.

Lemma gz_path_fresh (p : Path) :
  name p <> EmptyString -> removelast p ++ [name p +:+ ".gz"] <> p.
Proof.
  intros Hname Heq.
  assert (H : List.last (removelast p ++ [name p +:+ ".gz"]) EmptyString = name p)
    by (by rewrite Heq).
  rewrite last_last in H.
  apply (f_equal String.length) in H. rewrite length_append in H. cbn in H. lia.
Qed.

(** *** The block copy *)

Lemma read_blocks_concat (bufsize : nat) (fuel : nat) : forall s : string,
  (0 < bufsize)%nat -> (String.length s <= fuel)%nat ->
  String.concat EmptyString (EIAAPI.read_blocks fuel bufsize s) = s.
Proof.
  induction fuel as [|fuel IH]; intros [|c s] Hb Hlen; cbn in Hlen; try done; try lia.
  cbn [EIAAPI.read_blocks]. rewrite concat_empty_cons, IH.
  - apply slice_to_from.
  - done.
  - rewrite length_slice_from. cbn [String.length]. lia.
Qed.

Section Gzip.
Variable env : Env.

Lemma copy_blocks_frame (gz : Path) (blocks : list string) :
  forall (k : nat) (written : list string) (w w' : World) (r : result unit),
    EIAAPI.copy_blocks env gz k written blocks w = (r, w') ->
    requests w' = requests w /\
    forall p : Path, p <> gz -> fs w' !! p = fs w !! p.
Proof.
  induction blocks as [|b blocks IH]; intros k written w w' r; cbn [EIAAPI.copy_blocks].
  - unfold ret. by intros [= <- <-].
  - destruct (io_fault env k).
    + unfold raise. by intros [= <- <-].
    + unfold bind at 1. intros H. apply IH in H as [Hrq Hfs]. cbn [fs requests set_fs] in *.
      split; [done|]. intros p Hp. rewrite Hfs by done. by rewrite lookup_insert_ne.
Qed.

Lemma copy_blocks_ok (gz : Path) (blocks : list string) :
  forall (k : nat) (written : list string) (w w' : World),
    fs w !! gz = Some (gzip_stream env written) ->
    EIAAPI.copy_blocks env gz k written blocks w = (Ok tt, w') ->
    fs w' !! gz = Some (gzip_stream env (written ++ blocks)).
Proof.
  induction blocks as [|b blocks IH]; intros k written w w' Hgz; cbn [EIAAPI.copy_blocks].
  - unfold ret. intros [= <-]. by rewrite app_nil_r.
  - destruct (io_fault env k); [done|].
    unfold bind at 1. intros H. apply IH in H.
    + by rewrite <- app_assoc in H.
    + cbn [fs set_fs]. apply lookup_insert_eq.
Qed.

(** Whatever happens, [gzip_file] touches two paths only, and issues no
    request. *)
Lemma gzip_file_frame (p : Path) (d : bool) (w w' : World) (r : result unit) :
  EIAAPI.gzip_file env p d w = (r, w') ->
  requests w' = requests w /\
  (r <> Ok tt \/ d = false -> fs w' !! p = fs w !! p).
Proof.
  unfold EIAAPI.gzip_file.
  unfold bind at 1. unfold open_rb at 1.
  destruct (fs w !! p) as [content|] eqn:Hp; [|by intros [= <- <-]].
  unfold bind at 1, lift at 1.
  destruct (with_suffix p (suffix p +:+ ".gz")) as [gz|e] eqn:Hgz;
    [|intros [= <- <-]; by rewrite Hp].
  apply with_suffix_gz in Hgz as [-> Hname].
  pose proof (gz_path_fresh p Hname) as Hfresh.
  set (gz := removelast p ++ [name p +:+ ".gz"]) in *.
  unfold bind at 1.
  unfold bind at 1.
  destruct (EIAAPI.copy_blocks env gz 0 [] _ _) as [[[]|e] w3] eqn:Hcopy;
    apply copy_blocks_frame in Hcopy as [Hrq Hfs]; cbn [fs requests set_fs] in *.
  2:{ intros [= <- <-]. split; [done|]. intros _.
      rewrite Hfs by done. by rewrite lookup_insert_ne. }
  assert (Hsrc : fs w3 !! p = Some content).
  { rewrite Hfs by done. by rewrite lookup_insert_ne. }
  destruct d.
  - unfold unlink. rewrite Hsrc. intros [= <- <-]. split; [done|]. intros [?|?]; done.
  - unfold ret. intros [= <- <-]. split; [done|]. intros _. done.
Qed.

(** C8.  When [gzip_file] completes with deletion enabled, the file
    named as the source with [".gz"] appended holds a stream that
    decompresses to the bytes the source held (given a codec whose
    decoder inverts its encoder on every sequence of written blocks), and
    the source path no longer exists. *)
Theorem gzip_file_round_trip (p : Path) (w w' : World) :
  (forall blocks : list string,
     gunzip env (gzip_stream env blocks) = Some (String.concat EmptyString blocks)) ->
  EIAAPI.gzip_file env p true w = (Ok tt, w') ->
  exists content z : string,
    fs w !! p = Some content /\
    fs w' !! (removelast p ++ [name p +:+ ".gz"]) = Some z /\
    gunzip env z = Some content /\
    fs w' !! p = None.
Proof.
  intros Hcodec.
  unfold EIAAPI.gzip_file.
  unfold bind at 1. unfold open_rb at 1.
  destruct (fs w !! p) as [content|] eqn:Hp; [|done].
  unfold bind at 1, lift at 1.
  destruct (with_suffix p (suffix p +:+ ".gz")) as [gz|e] eqn:Hgz; [|done].
  apply with_suffix_gz in Hgz as [-> Hname].
  pose proof (gz_path_fresh p Hname) as Hfresh.
  set (gz := removelast p ++ [name p +:+ ".gz"]) in *.
  unfold bind at 1.
  unfold bind at 1.
  destruct (EIAAPI.copy_blocks env gz 0 [] _ _) as [[[]|e] w3] eqn:Hcopy; [|done].
  pose proof (copy_blocks_frame _ _ _ _ _ _ _ Hcopy) as [_ Hfs].
  apply copy_blocks_ok in Hcopy; [|cbn [fs set_fs]; apply lookup_insert_eq].
  cbn [fs set_fs app] in *.
  unfold unlink. rewrite Hfs by done. rewrite lookup_insert_ne by done. rewrite Hp.
  intros [= <-]. cbn [fs set_fs].
  exists content, (gzip_stream env (EIAAPI.read_blocks (String.length content) EIAAPI.COPY_BUFSIZE content)).
  split; [done|]. split; [by rewrite lookup_delete_ne|].
  split; [|apply lookup_delete_eq].
  rewrite Hcodec. f_equal. apply read_blocks_concat; [|done].
  unfold EIAAPI.COPY_BUFSIZE. lia.
Qed.

(** C9.  When [gzip_file] raises, at whatever step, the source file is
    still there with its content: [unlink] is reached only after the
    copy has completed. *)
Theorem failed_compression_keeps_source (p : Path) (d : bool) (w w' : World)
    (e : exn) (content : string) :
  fs w !! p = Some content ->
  EIAAPI.gzip_file env p d w = (Raise e, w') ->
  fs w' !! p = Some content.
Proof.
  intros Hp Hrun. apply gzip_file_frame in Hrun as [_ Hfs].
  rewrite Hfs; [done|]. by left.
Qed.

End Gzip.

(** ** The parameter dictionary *)

Lemma eq_zero_local (o : Options.t) (k : string) (v : value) :
  In (k, v) (EIAAPI.locals_ o (EIAAPI.data_list o)) ->
  eq_zero v = true -> v = VInt 0.
Proof.
  unfold EIAAPI.locals_. cbn [In].
  intros H Hz.
  repeat (destruct H as [[= <- <-]|H]); try done; try discriminate.
  - destruct (Options.start o); discriminate.
  - destruct (Options.end_ o); discriminate.
  - cbn in Hz. apply Z.eqb_eq in Hz. by rewrite Hz.
  - cbn in Hz. apply Z.eqb_eq in Hz. by rewrite Hz.
  - destruct (Options.facets o); discriminate.
  - destruct (Options.sort o); discriminate.
  - destruct (Options.out_path o); discriminate.
Qed.

Lemma dict_get_filter_skip (f : string * value -> bool) (k' k : string) (v : value)
    (d : list (string * value)) :
  String.eqb k' k = false ->
  dict_get (List.filter f ((k', v) :: d)) k = dict_get (List.filter f d) k.
Proof.
  intros Hk. cbn [List.filter]. destruct (f (k', v)); [|done].
  cbn [dict_get]. by rewrite Hk.
Qed.

Lemma dict_get_filter_hit (f : string * value -> bool) (k : string) (v : value)
    (d : list (string * value)) :
  dict_get (List.filter f ((k, v) :: d)) k =
  if f (k, v) then Some v else dict_get (List.filter f d) k.
Proof.
  cbn [List.filter]. destruct (f (k, v)); [|done].
  cbn [dict_get]. by rewrite String.eqb_refl.
Qed.

Section Requests.
Variable env : Env.

Lemma write_aggregate_requests (self : EIAAPI.t) (param_dict : list (string * value))
    (out_path : Path) (w w' : World) (r : result unit) :
  EIAAPI.write_aggregate env self param_dict out_path w = (r, w') ->
  exists rest,
    requests w' =
      requests w
      ++ {| req_url := EIAAPI.electric_power_url self; x_params := param_dict |} :: rest.
Proof.
  unfold EIAAPI.write_aggregate.
  unfold bind at 1. unfold open_w at 1, set_fs at 1.
  unfold bind at 1. unfold file_write at 1, set_fs at 1. cbn [fs requests events].
  rewrite lookup_insert_eq. cbn [default from_option id]. rewrite insert_insert_eq.
  unfold bind at 1.
  destruct (EIAAPI._get_all_values env _ _ _ _) as [r3 w3] eqn:Hrun.
  eapply get_all_values_inv in Hrun; [|cbn [fs]; apply lookup_insert_eq].
  cbn [fs requests events] in Hrun.
  destruct Hrun as [(e & -> & Hreq & _)|(-> & _ & j & t & len & n & _ & _ & Hreq & _)].
  - intros [= <- <-]. eauto.
  - unfold file_write, set_fs. intros [= <- <-]. cbn [requests]. eauto.
Qed.

(** The first request of every run carries the dictionary built from
    the keyword arguments. *)
Lemma first_request_sent (self : EIAAPI.t) (o : Options.t) (w : World) :
  exists (r : result unit) (w' : World),
    EIAAPI.get_fuel_receipts_costs_aggregates env self o w = (r, w') /\
    requests w' !! List.length (requests w) =
      Some {| req_url := EIAAPI.electric_power_url self;
              x_params := EIAAPI.build_param_dict o |}.
Proof.
  unfold EIAAPI.get_fuel_receipts_costs_aggregates.
  unfold bind at 1.
  destruct (EIAAPI.write_aggregate env self _ _ w) as [[[]|e] w2] eqn:Hagg;
    apply write_aggregate_requests in Hagg as [rest Hreq].
  - destruct (EIAAPI.gzip_file env _ true w2) as [r w'] eqn:Hgz.
    exists r, w'. split; [done|].
    apply gzip_file_frame in Hgz as [-> _]. rewrite Hreq. apply list_lookup_middle. done.
  - eexists _, _. split; [done|]. rewrite Hreq. by apply list_lookup_middle.
Qed.

End Requests.

Lemma filter_cons_drop {A} (f : A -> bool) (x : A) (l : list A) :
  f x = false -> List.filter f (x :: l) = List.filter f l.
Proof. intros H. cbn [List.filter]. by rewrite H. Qed.

Lemma filter_cons_both {A} (f g : A -> bool) (x y : A) (l l' : list A) :
  f x = g y -> (f x = true -> x = y) -> List.filter f l = List.filter g l' ->
  List.filter f (x :: l) = List.filter g (y :: l').
Proof.
  intros Hx Hxy Hl. cbn [List.filter]. rewrite <- Hx, Hl.
  destruct (f x) eqn:Hf; [|done]. by rewrite (Hxy eq_refl).
Qed.

Lemma kept_int (z : Z) : truthy (VInt z) || eq_zero (VInt z) = kept (VInt z).
Proof. unfold kept. cbn [truthy eq_zero]. by destruct z. Qed.

Ltac keep_key :=
  apply filter_cons_both;
  [cbn [fst snd];
   match goal with
   | |- context [@bool_decide ?P ?d] =>
       replace (@bool_decide P d) with true by (by vm_compute)
   end; rewrite andb_true_r
  |cbn [fst snd]|].

(** The dictionary comprehension over [locals()] and the filtering rule
    over the named options give the same dictionary. *)
Lemma param_dict_is_kept_options (o : Options.t) :
  EIAAPI.build_param_dict o = kept_options o.
Proof.
  unfold EIAAPI.build_param_dict, EIAAPI.locals_, kept_options, named_options.
  rewrite filter_cons_drop by (by vm_compute).
  keep_key.
  { unfold kept. by destruct (Options.frequency o). }
  { done. }
  keep_key.
  { unfold EIAAPI.data_list, kept. by destruct (Options.data o) as [[|x l]|]. }
  { unfold EIAAPI.data_list. by destruct (Options.data o) as [[|x l]|]. }
  keep_key.
  { unfold kept. by destruct (Options.start o) as [[|c s]|]. }
  { done. }
  keep_key.
  { unfold kept. by destruct (Options.end_ o) as [[|c s]|]. }
  { done. }
  keep_key; [apply kept_int|done|].
  keep_key; [apply kept_int|done|].
  keep_key.
  { unfold kept. by destruct (Options.facets o) as [[|x l]|]. }
  { done. }
  keep_key.
  { unfold kept. by destruct (Options.sort o) as [[|x l]|]. }
  { done. }
  rewrite filter_cons_drop; [by rewrite filter_cons_drop by (by vm_compute)|].
  cbn [fst snd].
  match goal with
  | |- context [@bool_decide ?P ?d] =>
      replace (@bool_decide P d) with false by (by vm_compute)
  end.
  apply andb_false_r.
Qed.

Lemma dict_get_absent (d : list (string * value)) (k : string) :
  (forall kv, In kv d -> fst kv <> k) -> dict_get d k = None.
Proof.
  induction d as [|[k' v] d IH]; [done|]. intros Hd. cbn [dict_get].
  destruct (String.eqb k' k) eqn:E.
  - apply String.eqb_eq in E. by destruct (Hd (k', v) (or_introl eq_refl)).
  - apply IH. intros kv Hin. apply Hd. by right.
Qed.

Lemma dict_get_excluded (o : Options.t) (k : string) :
  k ∈ EIAAPI.exclude_locals -> dict_get (EIAAPI.build_param_dict o) k = None.
Proof.
  intros Hk. rewrite param_dict_is_kept_options.
  apply dict_get_absent. intros kv Hin. unfold kept_options in Hin.
  apply filter_In in Hin as [Hin _]. unfold named_options in Hin. cbn [In] in Hin.
  intros <-. unfold EIAAPI.exclude_locals in Hk.
  repeat (destruct Hin as [<-|Hin]); try done; cbn [fst] in Hk; set_solver.
Qed.

Ltac lookup_key :=
  rewrite param_dict_is_kept_options; unfold kept_options, named_options;
  rewrite ?dict_get_filter_skip by reflexivity;
  rewrite dict_get_filter_hit; cbn [fst snd];
  rewrite ?dict_get_filter_skip by reflexivity.

(** C7.  The dictionary built from the keyword arguments is the named
    options, in the order of the signature, filtered by the rule: keep
    if truthy, or exactly the integer 0.  Option by option: [frequency],
    [offset] and [length] are always there, [offset] and [length] also
    when they are 0; [data], [facets] and [sort] are there exactly when
    they are given and not empty, [start] and [end] exactly when they are
    a string that is not empty; [self], [out_path] and [exclude_locals]
    are never there.  Nothing is rejected: whatever the options, the run
    sends its first request, with this dictionary. *)
Theorem param_dict_keeps_truthy_or_zero (o : Options.t) :
  EIAAPI.build_param_dict o = kept_options o /\
  dict_get (EIAAPI.build_param_dict o) "frequency"
    = Some (VStr (Options.frequency_str (Options.frequency o))) /\
  dict_get (EIAAPI.build_param_dict o) "data"
    = match Options.data o with
      | Some (x :: l) => Some (VList (map VStr (x :: l)))
      | _ => None
      end /\
  dict_get (EIAAPI.build_param_dict o) "start"
    = match Options.start o with
      | Some s => if String.eqb s "" then None else Some (VStr s)
      | None => None
      end /\
  dict_get (EIAAPI.build_param_dict o) "end"
    = match Options.end_ o with
      | Some s => if String.eqb s "" then None else Some (VStr s)
      | None => None
      end /\
  dict_get (EIAAPI.build_param_dict o) "length" = Some (VInt (Options.length o)) /\
  dict_get (EIAAPI.build_param_dict o) "facets"
    = match Options.facets o with
      | Some (x :: d) => Some (Options.of_facets (Options.facets o))
      | _ => None
      end /\
  dict_get (EIAAPI.build_param_dict o) "sort"
    = match Options.sort o with
      | Some (x :: l) => Some (Options.of_sort (Options.sort o))
      | _ => None
      end /\
  (forall k : string, k ∈ EIAAPI.exclude_locals ->
     dict_get (EIAAPI.build_param_dict o) k = None) /\
  (forall (k : string) (v : value),
     In (k, v) (EIAAPI.build_param_dict o) <->
     In (k, v) (EIAAPI.locals_ o (EIAAPI.data_list o)) /\
     (k ∉ EIAAPI.exclude_locals) /\
     (truthy v = true \/ v = VInt 0)) /\
  dict_get (EIAAPI.build_param_dict o) "offset" = Some (VInt (Options.offset o)) /\
  (Options.end_ o = None -> dict_get (EIAAPI.build_param_dict o) "end" = None) /\
  (EIAAPI.data_list o = [] -> dict_get (EIAAPI.build_param_dict o) "data" = None) /\
  (forall (env : Env) (self : EIAAPI.t) (w : World),
     exists (r : result unit) (w' : World),
       EIAAPI.get_fuel_receipts_costs_aggregates env self o w = (r, w') /\
       requests w' !! List.length (requests w) =
         Some {| req_url := EIAAPI.electric_power_url self;
                 x_params := EIAAPI.build_param_dict o |}).
Proof.
  split; [apply param_dict_is_kept_options|].
  split. { lookup_key. by destruct (Options.frequency o). }
  split. { lookup_key. by destruct (Options.data o) as [[|x l]|]. }
  split. { lookup_key. by destruct (Options.start o) as [[|c s]|]. }
  split. { lookup_key. by destruct (Options.end_ o) as [[|c s]|]. }
  split. { lookup_key. unfold kept. cbn [truthy]. by destruct (Options.length o). }
  split. { lookup_key. by destruct (Options.facets o) as [[|x l]|]. }
  split. { lookup_key. by destruct (Options.sort o) as [[|x l]|]. }
  split; [apply dict_get_excluded|].
  split; [|split; [|split; [|split]]].
  - intros k v. unfold EIAAPI.build_param_dict. rewrite filter_In.
    cbn [fst snd]. rewrite andb_true_iff, bool_decide_eq_true, orb_true_iff.
    split.
    + intros (Hin & [Ht|Hz] & Hk); (split; [done|split; [done|]]); [by left|].
      right. by eapply eq_zero_local.
    + intros (Hin & Hk & [Ht| ->]); (split; [done|split; [|done]]); [by left|by right].
  - unfold EIAAPI.build_param_dict, EIAAPI.locals_.
    rewrite !dict_get_filter_skip by reflexivity.
    rewrite dict_get_filter_hit. cbn [fst snd].
    match goal with
    | |- context [@bool_decide ?P ?d] =>
        replace (@bool_decide P d) with true by (by vm_compute)
    end.
    cbn [truthy eq_zero]. by destruct (Options.offset o =? 0).
  - intros Hend. unfold EIAAPI.build_param_dict, EIAAPI.locals_. rewrite Hend.
    rewrite !dict_get_filter_skip by reflexivity.
    rewrite dict_get_filter_hit. cbn [fst snd Options.of_optional_str truthy eq_zero orb andb].
    by rewrite !dict_get_filter_skip by reflexivity.
  - intros Hdata. unfold EIAAPI.build_param_dict, EIAAPI.locals_. rewrite Hdata.
    rewrite !dict_get_filter_skip by reflexivity.
    rewrite dict_get_filter_hit. cbn [fst snd map truthy eq_zero orb andb].
    by rewrite !dict_get_filter_skip by reflexivity.
  - intros env self w. apply first_request_sent.
Qed.

(** ** The version check *)

(** C5.  For an expected and an observed version of three dot-separated
    components each, the check completes and signals the severity of the
    first component that differs, left to right: a warning for a major
    or a minor difference, a log record for a patch difference, nothing
    when the three components agree.  In particular the expected version
    itself passes in silence. *)
Theorem check_api_version_classifies (a b c a' b' c' : string) (j : value) (w : World) :
  contains "." a = false -> contains "." b = false -> contains "." c = false ->
  contains "." a' = false -> contains "." b' = false -> contains "." c' = false ->
  getitem j "apiVersion" = Ok (VStr (version3 a' b' c')) ->
  EIAAPI._check_api_version_against (version3 a b c) j w =
    (Ok tt, record_events
              (signalled (version3 a b c) (VStr (version3 a' b' c'))
                 (classify (a, b, c) (a', b', c'))) w)
  /\ EIAAPI._check_api_version (VDict [("apiVersion"%string, VStr "2.0.2")]) w = (Ok tt, w).
Proof.
  intros Ha Hb Hc Ha' Hb' Hc' Hj. split; [|reflexivity].
  eapply check_against_parts; [done| |]; by apply split_version3.
Qed.

(** C10.  When the observed version has fewer than three components and
    those it has are the leading components of the expected version, the
    check raises [IndexError]: it returns no severity and emits nothing. *)
Theorem short_version_raises_index_error (expected observed : string)
    (rest : list string) (j : value) (w : World) :
  getitem j "apiVersion" = Ok (VStr observed) ->
  split "." expected = split "." observed ++ rest ->
  (List.length (split "." observed) < 3)%nat ->
  EIAAPI._check_api_version_against expected j w = (Raise IndexError, w).
Proof.
  intros Hj He Hlen.
  unfold EIAAPI._check_api_version_against. rewrite Hj.
  unfold bind at 1. unfold ret at 1.
  unfold bind at 1. unfold ret at 1.
  unfold str_split. rewrite He.
  destruct (split "." observed) as [|o0 [|o1 [|o2 os]]]; cbn in Hlen; try lia;
    unfold bind, lift, ret, raise, index; cbn [app nth_error].
  - by destruct rest.
  - rewrite String.eqb_refl. cbn [negb]. by destruct rest.
  - rewrite !String.eqb_refl. cbn [negb]. by destruct rest.
Qed.

Lemma missing_version_raises (kvs : list (string * value)) (w : World) :
  dict_get kvs "apiVersion" = None ->
  EIAAPI._check_api_version (VDict kvs) w =
    (Raise (UnboundLocalError "observed_api_version"),
     record_events [Warn VersionInaccessible] w).
Proof.
  intros H. unfold EIAAPI._check_api_version, EIAAPI._check_api_version_against, getitem.
  by rewrite H.
Qed.

(** C6, at a first response without [apiVersion].  The warning is
    emitted, and then the check raises [UnboundLocalError]: the fetch
    stops with the opening bracket alone in the file, and nothing is
    compressed. *)
Theorem missing_version_aborts_fetch :
  let env := Sample.env_of [Sample.page None 1] Sample.no_fault in
  let run := EIAAPI.get_fuel_receipts_costs_aggregates env Sample.self Options.defaults
               Sample.empty_world in
  let out_path := EIAAPI.default_out_path Sample.self Options.defaults in
  getitem (Sample.page_json None 1) "apiVersion" = Raise (KeyError "apiVersion") /\
  fst run = Raise (UnboundLocalError "observed_api_version") /\
  events (snd run) = [Warn VersionInaccessible] /\
  fs (snd run) !! out_path = Some "["%string /\
  fs (snd run) !! (removelast out_path ++ [name out_path +:+ ".gz"]) = None.
Proof. vm_compute. repeat split; reflexivity. Qed.

(** ** Error statuses *)

(** An error status on the first request raises [HTTPError] before
    anything is written. *)
Lemma first_page_error_raises (env : Env) (url : string)
    (param_dict : list (string * value)) (file : Path) (w : World) :
  let rq0 := {| req_url := url; x_params := param_dict |} in
  let r0 := server env (List.length (requests w)) rq0 in
  ~ status_ok r0 ->
  EIAAPI._get_all_values env url param_dict file w =
    (Raise (HTTPError (status_code r0)),
     {| fs := fs w; requests := requests w ++ [rq0]; events := events w |}).
Proof.
  intros rq0 r0 Hst. unfold status_ok in Hst. apply not_false_is_true in Hst.
  unfold EIAAPI._get_all_values.
  unfold bind at 1. unfold EIAAPI.get at 1. fold rq0. fold r0.
  unfold bind at 1. unfold EIAAPI.raise_for_status at 1. by rewrite Hst.
Qed.

(** C2, at a run whose second reply has status 500.  No exception is
    raised: the error body is written as the second item, the array is
    closed, and the file is compressed and deleted. *)
Theorem error_status_on_later_page_is_written :
  let env := Sample.env_of [Sample.page (Some "2.0.2"%string) 10000; Sample.server_error]
               Sample.no_fault in
  let run := EIAAPI.get_fuel_receipts_costs_aggregates env Sample.self Options.defaults
               Sample.empty_world in
  let out_path := EIAAPI.default_out_path Sample.self Options.defaults in
  status_code (server env 1%nat
                 (page_request (EIAAPI.electric_power_url Sample.self)
                    (EIAAPI.build_param_dict Options.defaults) 5000 1)) = 500 /\
  fst run = Ok tt /\
  List.length (requests (snd run)) = 2%nat /\
  fs (snd run) !! out_path = None /\
  (fs (snd run) !! (removelast out_path ++ [name out_path +:+ ".gz"])) ≫= gunzip env =
    Some ("[" +:+ Sample.page_text (Some "2.0.2"%string) 10000 +:+ page_sep
          +:+ "Internal Server Error" +:+ "]").
Proof. vm_compute. repeat split; reflexivity. Qed.

(** ** Sample pages are JSON objects *)

Lemma chars_all_plain (s : string) : Json.all_plain s = true -> Json.chars s s.
Proof.
  induction s as [|c s IH]; cbn [Json.all_plain]; [constructor|].
  intros [Hc Hs]%andb_true_iff. constructor; auto.
Qed.

Lemma member_last (k tv : string) (v : value) :
  Json.all_plain k = true -> Json.text_of v tv ->
  Json.members [(k, v)] (Json.quoted k +:+ ":" +:+ tv).
Proof.
  intros Hk Hv.
  rewrite <- (append_nil_r tv).
  apply (Json.members_one k v k tv EmptyString EmptyString EmptyString EmptyString);
    auto using chars_all_plain.
Qed.

Lemma member_next (k tv r : string) (v : value) (kvs : list (string * value)) :
  Json.all_plain k = true -> Json.text_of v tv -> Json.members kvs r ->
  Json.members ((k, v) :: kvs) (Json.quoted k +:+ ":" +:+ tv +:+ "," +:+ r).
Proof.
  intros Hk Hv Hr.
  apply (Json.members_cons k v kvs k tv EmptyString EmptyString EmptyString EmptyString r);
    auto using chars_all_plain.
Qed.

Lemma sample_page_text_of (v : string) (total : Z) :
  Json.all_plain v = true ->
  Json.text_of (Sample.page_json (Some v) total) (Sample.page_text (Some v) total).
Proof.
  intros Hv. unfold Sample.page_json, Sample.page_text. cbn [app].
  apply Json.text_dict.
  apply member_next; [done|by apply Json.text_str, chars_all_plain|].
  apply member_next; [done| |].
  - apply Json.text_dict. apply member_last; [done|]. by apply Json.text_dict_nil.
  - apply member_last; [done|]. apply Json.text_dict. apply member_last; [done|].
    apply Json.text_int.
Qed.

Lemma sample_page_object (v : string) (total : Z) :
  Json.all_plain v = true -> Json.object_text (Sample.page_text (Some v) total).
Proof. intros Hv. eexists. by apply sample_page_text_of. Qed.

(** ** Where the offsets and the element count differ from the specification *)

(** C3 fails when the query starts at a non-zero offset: with offset 7
    and pages of 5 the two requests carry the offsets 7 and 5, which are
    neither [5 * k] nor increasing. *)
Lemma nonzero_offset_breaks_page_offsets :
  let env := Sample.env_of [Sample.page (Some "2.0.2"%string) 10;
                            Sample.page (Some "2.0.2"%string) 10] Sample.no_fault in
  let run := EIAAPI.get_fuel_receipts_costs_aggregates env Sample.self Sample.shifted
               Sample.empty_world in
  let offsets := page_offsets (new_requests Sample.empty_world (snd run)) in
  fst run = Ok tt /\
  ~ (forall k : nat, (k < List.length offsets)%nat ->
       offsets !! k = Some (Some (VInt (5 * Z.of_nat k)))) /\
  ~ (forall (i k : nat) (oi ok : Z),
       (i < k)%nat -> offsets !! i = Some (Some (VInt oi)) ->
       offsets !! k = Some (Some (VInt ok)) -> oi < ok).
Proof.
  intros env run offsets.
  assert (Hoff : offsets = [Some (VInt 7); Some (VInt 5)]) by (by vm_compute).
  rewrite Hoff. split; [by vm_compute|]. split.
  - intros H. specialize (H 0%nat ltac:(cbn; lia)). discriminate H.
  - intros H. specialize (H 0%nat 1%nat 7 5 ltac:(lia) eq_refl eq_refl). lia.
Qed.


(** ** The theorems at sample runs *)

Lemma pages_fetched_is_ceiling_witness :
  let env := Sample.env_of [Sample.page (Some "2.0.2"%string) 12000;
                            Sample.page (Some "2.0.2"%string) 12000;
                            Sample.page (Some "2.0.2"%string) 12000] Sample.no_fault in
  let url := EIAAPI.electric_power_url Sample.self in
  let param_dict := EIAAPI.build_param_dict Options.defaults in
  let w := Sample.open_world Sample.out "[" in
  exists w',
    EIAAPI._get_all_values env url param_dict Sample.out w = (Ok tt, w') /\
    EIAAPI.count_requests (Sample.page_json (Some "2.0.2"%string) 12000) param_dict
      = Ok (VInt 12000, 5000, 3) /\
    (3 - 1) * 5000 < 12000 <= 3 * 5000 /\
    fs w' !! Sample.out = Some ("[" +:+ String.concat page_sep (page_bodies env w w')) /\
    List.length (page_bodies env w w') = List.length (new_requests w w') /\
    (1 <= 12000 -> Z.of_nat (List.length (new_requests w w')) = 3) /\
    (12000 = 0 -> 3 = 0 /\ List.length (new_requests w w') = 1%nat).
Proof.
  intros env url param_dict w.
  apply (pages_fetched_is_ceiling env url param_dict Sample.out w "["
           (Sample.page_json (Some "2.0.2"%string) 12000) 12000 5000).
  - reflexivity.
  - reflexivity.
  - do 4 eexists. repeat split; reflexivity.
  - reflexivity.
  - lia.
  - lia.
  - reflexivity.
Defined.

Lemma later_pages_offset_witness :
  let env := Sample.env_of [Sample.page (Some "2.0.2"%string) 10;
                            Sample.page (Some "2.0.2"%string) 10] Sample.no_fault in
  let url := EIAAPI.electric_power_url Sample.self in
  let param_dict := EIAAPI.build_param_dict Sample.shifted in
  let w := Sample.open_world Sample.out "[" in
  let w' := snd (EIAAPI._get_all_values env url param_dict Sample.out w) in
  let offsets := page_offsets (new_requests w w') in
  offsets !! 0%nat = Some (dict_get param_dict "offset") /\
  (forall k : nat, (1 <= k < List.length offsets)%nat ->
     offsets !! k = Some (Some (VInt (5 * Z.of_nat k)))) /\
  (dict_get param_dict "offset" = Some (VInt 0) ->
   (forall k : nat, (k < List.length offsets)%nat ->
      offsets !! k = Some (Some (VInt (5 * Z.of_nat k)))) /\
   (1 <= 5 ->
    forall (i k : nat) (oi ok : Z),
      (i < k)%nat -> offsets !! i = Some (Some (VInt oi)) ->
      offsets !! k = Some (Some (VInt ok)) -> oi < ok)).
Proof.
  intros env url param_dict w w'.
  apply (later_pages_offset env url param_dict Sample.out w w' "[" (Ok tt) 5).
  - reflexivity.
  - reflexivity.
  - vm_compute. reflexivity.
Defined.


Lemma check_api_version_classifies_witness :
  let j := VDict [("apiVersion"%string, VStr "3.0.2")] in
  EIAAPI._check_api_version_against "2.0.2" j Sample.empty_world =
    (Ok tt, record_events [Warn (MajorChange "2.0.2" (VStr "3.0.2"))] Sample.empty_world)
  /\ EIAAPI._check_api_version (VDict [("apiVersion"%string, VStr "2.0.2")])
       Sample.empty_world = (Ok tt, Sample.empty_world).
Proof.
  intros j.
  apply (check_api_version_classifies "2" "0" "2" "3" "0" "2" j Sample.empty_world);
    reflexivity.
Defined.

Lemma param_dict_keeps_truthy_or_zero_witness :
  EIAAPI.build_param_dict Options.defaults
    = [ ("frequency", VStr "annual");
        ("data", VList [VStr "cost-per-btu"; VStr "receipts-btu"]);
        ("start", VStr "2001");
        ("offset", VInt 0);
        ("length", VInt 5000) ]%string /\
  dict_get (EIAAPI.build_param_dict Options.defaults) "offset" = Some (VInt 0) /\
  dict_get (EIAAPI.build_param_dict Options.defaults) "end" = None.
Proof.
  destruct (param_dict_keeps_truthy_or_zero Options.defaults)
    as (Heq & _ & _ & _ & _ & _ & _ & _ & _ & _ & Hoffset & Hend & _).
  split; [rewrite Heq; reflexivity|].
  split; [exact Hoffset|exact (Hend eq_refl)].
Defined.

Lemma gzip_file_round_trip_witness :
  let env := Sample.env_of [] Sample.no_fault in
  let w := Sample.open_world Sample.out "[{}]" in
  let w' := snd (EIAAPI.gzip_file env Sample.out true w) in
  exists content z : string,
    fs w !! Sample.out = Some content /\
    fs w' !! (removelast Sample.out ++ [name Sample.out +:+ ".gz"]) = Some z /\
    gunzip env z = Some content /\
    fs w' !! Sample.out = None.
Proof.
  intros env w w'.
  apply (gzip_file_round_trip env Sample.out w w').
  - intros blocks. reflexivity.
  - vm_compute. reflexivity.
Defined.

Lemma failed_compression_keeps_source_witness :
  let env := Sample.env_of [] (fun _ => true) in
  let w := Sample.open_world Sample.out "[{}]" in
  let w' := snd (EIAAPI.gzip_file env Sample.out true w) in
  fs w' !! Sample.out = Some "[{}]"%string.
Proof.
  intros env w w'.
  apply (failed_compression_keeps_source env Sample.out true w w' OSError "[{}]").
  - reflexivity.
  - vm_compute. reflexivity.
Defined.

Lemma short_version_raises_index_error_witness :
  EIAAPI._check_api_version (VDict [("apiVersion"%string, VStr "2.0")]) Sample.empty_world
  = (Raise IndexError, Sample.empty_world).
Proof.
  apply (short_version_raises_index_error "2.0.2" "2.0" ["2"%string]
           (VDict [("apiVersion"%string, VStr "2.0")]) Sample.empty_world).
  - reflexivity.
  - reflexivity.
  - cbn. lia.
Defined.

(** * Further properties *)

(** ** The fetch as a whole *)

(** With integer totals and a server that always answers, a run of the
    [with] block can only raise before the first body is written: it has
    then sent one request and written the opening bracket only. *)
Lemma write_aggregate_raise (env : Env) (self : EIAAPI.t)
    (param_dict : list (string * value)) (out_path : Path) (w w' : World) (e : exn) :
  EIAAPI.write_aggregate env self param_dict out_path w = (Raise e, w') ->
  fs w' = <[out_path := "["%string]> (fs w) /\
  requests w' =
    requests w ++ [{| req_url := EIAAPI.electric_power_url self; x_params := param_dict |}].
Proof.
  unfold EIAAPI.write_aggregate.
  unfold bind at 1. unfold open_w at 1, set_fs at 1.
  unfold bind at 1. unfold file_write at 1, set_fs at 1. cbn [fs requests events].
  rewrite lookup_insert_eq. cbn [default from_option id]. rewrite insert_insert_eq.
  unfold bind at 1.
  destruct (EIAAPI._get_all_values env _ _ _ _) as [r3 w3] eqn:Hrun.
  eapply get_all_values_inv in Hrun; [|cbn [fs]; apply lookup_insert_eq].
  cbn [fs requests events] in Hrun.
  destruct Hrun as [(e' & -> & Hreq & Hfs)|(-> & _)].
  - intros [= <- <-]. done.
  - unfold file_write. discriminate.
Qed.

(** X1.  When the [with] block raises, the exception leaves
    [get_fuel_receipts_costs_aggregates] as it is and [gzip_file] is not
    reached: the destination stays, uncompressed, with the opening
    bracket at its start, and no other file is created, changed or
    removed. *)
Theorem failed_fetch_is_not_compressed (env : Env) (self : EIAAPI.t) (o : Options.t)
    (w w2 : World) (e : exn) :
  let out_path := EIAAPI.resolve_out_path self o in
  EIAAPI.write_aggregate env self (EIAAPI.build_param_dict o) out_path w = (Raise e, w2) ->
  EIAAPI.get_fuel_receipts_costs_aggregates env self o w = (Raise e, w2) /\
  (exists written : string, fs w2 !! out_path = Some ("[" +:+ written)) /\
  (forall p : Path, p <> out_path -> fs w2 !! p = fs w !! p).
Proof.
  intros out_path Hagg.
  split.
  { unfold EIAAPI.get_fuel_receipts_costs_aggregates. fold out_path.
    unfold bind. by rewrite Hagg. }
  apply write_aggregate_raise in Hagg as [Hfs Hreq].
  rewrite Hfs. split.
  - exists EmptyString. apply lookup_insert_eq.
  - intros p Hp. by rewrite lookup_insert_ne.
Qed.

(** X2.  An error status on the first request makes the whole call raise
    [HTTPError] with that status. *)
Theorem first_page_error_aborts_call (env : Env) (self : EIAAPI.t) (o : Options.t)
    (w : World) :
  let r0 := server env (List.length (requests w))
              {| req_url := EIAAPI.electric_power_url self;
                 x_params := EIAAPI.build_param_dict o |} in
  ~ status_ok r0 ->
  exists w',
    EIAAPI.get_fuel_receipts_costs_aggregates env self o w
      = (Raise (HTTPError (status_code r0)), w') /\
    fs w' = <[EIAAPI.resolve_out_path self o := "["%string]> (fs w).
Proof.
  intros r0 Hst.
  unfold EIAAPI.get_fuel_receipts_costs_aggregates, EIAAPI.write_aggregate.
  unfold bind at 1. unfold bind at 1. unfold open_w at 1, set_fs at 1.
  unfold bind at 1. unfold file_write at 1, set_fs at 1. cbn [fs requests events].
  rewrite lookup_insert_eq. cbn [default from_option id]. rewrite insert_insert_eq.
  unfold bind at 1.
  rewrite first_page_error_raises by exact Hst.
  cbn [fs requests events]. eexists. split; reflexivity.
Qed.

Lemma dict_get_set_other (d : list (string * value)) (k k' : string) (v : value) :
  k <> k' -> dict_get (dict_set d k' v) k = dict_get d k.
Proof.
  intros Hk. induction d as [|[k0 v0] d IH]; cbn [dict_set dict_get].
  - destruct (String.eqb_spec k' k); congruence.
  - destruct (String.eqb_spec k0 k') as [->|Hne]; cbn [dict_get].
    + destruct (String.eqb_spec k' k); congruence.
    + destruct (String.eqb_spec k0 k); [done|apply IH].
Qed.

(** X3.  Every request of a fetch goes to the URL given and carries the
    parameters given: only [offset] is set anew on the later pages. *)
Theorem later_requests_keep_parameters (env : Env) (url : string)
    (param_dict : list (string * value)) (file : Path) (w w' : World)
    (c : string) (r : result unit) :
  fs w !! file = Some c ->
  EIAAPI._get_all_values env url param_dict file w = (r, w') ->
  forall rq : Request, In rq (new_requests w w') ->
    req_url rq = url /\
    forall k : string, k <> "offset"%string ->
      dict_get (x_params rq) k = dict_get param_dict k.
Proof.
  intros Hc Hrun rq Hin.
  assert (Hshape : exists len n,
    new_requests w w' =
      {| req_url := url; x_params := param_dict |}
      :: map (page_request url param_dict len) (range 1 n)).
  { destruct (get_all_values_inv env url param_dict file w w' c r Hc Hrun)
      as [(e & _ & Hreq & _)|(_ & _ & j & t & len & n & _ & _ & Hreq & _)].
    - exists 0, 0. by apply new_requests_app.
    - exists len, n. by apply new_requests_app. }
  destruct Hshape as (len & n & Hnew). rewrite Hnew in Hin.
  destruct Hin as [<-|Hin]; [done|].
  apply in_map_iff in Hin as (i & <- & _). cbn [page_request req_url x_params].
  split; [done|]. intros k Hk. by apply dict_get_set_other.
Qed.

Lemma split_nonempty (sep : ascii) (s : string) : split sep s <> [].
Proof.
  destruct s as [|c s]; cbn [split]; [done|].
  destruct (Ascii.eqb c sep); [done|]. by destruct (split sep s).
Qed.

(** X4.  A first component that differs from the expected one is
    reported as a major change and the check completes, however many
    components the observed version has. *)
Theorem major_drift_needs_one_component (expected observed : string) (j : value)
    (w : World) :
  getitem j "apiVersion" = Ok (VStr observed) ->
  hd EmptyString (split "." expected) <> hd EmptyString (split "." observed) ->
  EIAAPI._check_api_version_against expected j w =
    (Ok tt, record_events [Warn (MajorChange expected (VStr observed))] w).
Proof.
  intros Hj Hne.
  unfold EIAAPI._check_api_version_against. rewrite Hj.
  unfold bind at 1. unfold ret at 1.
  unfold bind at 1. unfold ret at 1.
  unfold str_split.
  pose proof (split_nonempty "." expected) as He.
  pose proof (split_nonempty "." observed) as Ho.
  destruct (split "." expected) as [|e0 es]; [done|].
  destruct (split "." observed) as [|o0 os]; [done|].
  cbn [hd] in Hne.
  unfold bind, lift, ret, index. cbn [nth_error].
  apply String.eqb_neq in Hne. by rewrite Hne.
Qed.

Lemma record_events_events (evs : list event) (w : World) :
  events (record_events evs w) = events w ++ evs.
Proof. destruct evs; cbn; [by rewrite app_nil_r|done]. Qed.

Lemma check_api_version_signals (j : value) (v : string) (w : World) :
  getitem j "apiVersion" = Ok (VStr v) ->
  (3 <= List.length (split "." v))%nat ->
  exists sev,
    EIAAPI._check_api_version j w =
      (Ok tt, record_events (signalled EIAAPI.API_VERSION (VStr v) sev) w).
Proof.
  intros Hj Hlen.
  destruct (split "." v) as [|o0 [|o1 [|o2 os]]] eqn:Ho; simpl in Hlen; try lia.
  eexists. unfold EIAAPI._check_api_version.
  eapply check_against_parts; [done| reflexivity | done].
Qed.

(** X5.  The version is checked once per fetch: a completed fetch emits
    at most one version event, then the one log record that announces the
    download, and nothing per page. *)
Theorem version_checked_once (env : Env) (url : string)
    (param_dict : list (string * value)) (file : Path) (w : World) (c : string)
    (j : value) (total len : Z) :
  let r0 := server env (List.length (requests w))
              {| req_url := url; x_params := param_dict |} in
  status_ok r0 -> json r0 = Some j -> page_response j total ->
  dict_get param_dict "length" = Some (VInt len) -> len <> 0 ->
  fs w !! file = Some c ->
  exists (w' : World) (v : string) (sev : Severity),
    EIAAPI._get_all_values env url param_dict file w = (Ok tt, w') /\
    getitem j "apiVersion" = Ok (VStr v) /\
    events w' =
      events w ++ signalled EIAAPI.API_VERSION (VStr v) sev
      ++ [LogInfo (Downloading (VInt total) (- (- total / len)))].
Proof.
  intros r0 Hst Hjs Hpage Hlen Hnz Hc.
  pose proof (count_requests_page _ _ _ _ Hpage Hlen Hnz) as Hcount.
  destruct Hpage as (v & rq & ps & rs & Hv & Hparts & Hrq & Hps & _).
  unfold EIAAPI._get_all_values.
  unfold bind at 1. unfold EIAAPI.get at 1. fold r0.
  set (w1 := {| fs := fs w; requests := _; events := events w |}).
  unfold bind at 1. unfold EIAAPI.raise_for_status at 1.
  unfold status_ok in Hst. rewrite Hst. unfold ret at 1.
  unfold bind at 1. unfold EIAAPI.response_json at 1. rewrite Hjs. unfold ret at 1.
  destruct (check_api_version_signals j v w1 Hv Hparts) as [sev Hck].
  rewrite (bind_ok _ _ _ _ _ Hck).
  rewrite (bind_lift_ok _ _ _ _ Hrq), (bind_lift_ok _ _ _ _ Hps).
  rewrite (bind_lift_ok _ _ _ _ Hcount).
  unfold bind at 1. unfold logger_info at 1, emit at 1.
  unfold bind at 1. unfold file_write at 1, set_fs at 1. cbn [fs requests events].
  rewrite record_events_fs, record_events_requests, record_events_events.
  subst w1. cbn [fs requests events].
  rewrite Hc. cbn [default from_option id].
  erewrite pages_loop; [|cbn [fs]; apply lookup_insert_eq].
  cbn [fs requests events].
  eexists _, v, sev. split; [reflexivity|]. split; [done|]. cbn [events].
  by rewrite <- app_assoc.
Qed.

(** X6.  A page length of 0 is kept by the parameter dictionary and
    reaches the division: with a well-formed first response the call
    raises [ZeroDivisionError]. *)
Theorem zero_length_divides_by_zero (env : Env) (self : EIAAPI.t) (o : Options.t)
    (w : World) (j : value) (total : Z) :
  let r0 := server env (List.length (requests w))
              {| req_url := EIAAPI.electric_power_url self;
                 x_params := EIAAPI.build_param_dict o |} in
  Options.length o = 0 ->
  status_ok r0 -> json r0 = Some j -> page_response j total ->
  exists w',
    EIAAPI.get_fuel_receipts_costs_aggregates env self o w = (Raise ZeroDivisionError, w').
Proof.
  intros r0 Hzero Hst Hjs (v & rq & ps & rs & Hv & Hparts & Hrq & Hps & Hrs & Htot).
  assert (Hlen : dict_get (EIAAPI.build_param_dict o) "length" = Some (VInt 0)).
  { unfold EIAAPI.build_param_dict, EIAAPI.locals_.
    rewrite !dict_get_filter_skip by reflexivity.
    rewrite dict_get_filter_hit. cbn [fst snd]. rewrite Hzero.
    match goal with
    | |- context [@bool_decide ?P ?d] =>
        replace (@bool_decide P d) with true by (by vm_compute)
    end.
    reflexivity. }
  assert (Hcount : EIAAPI.count_requests j (EIAAPI.build_param_dict o)
                   = Raise ZeroDivisionError).
  { unfold EIAAPI.count_requests. rewrite Hrs. cbn [rbind]. rewrite Htot. cbn [rbind neg].
    unfold getitem at 1. rewrite Hlen. reflexivity. }
  unfold EIAAPI.get_fuel_receipts_costs_aggregates, EIAAPI.write_aggregate.
  unfold bind at 1. unfold bind at 1. unfold open_w at 1, set_fs at 1.
  unfold bind at 1. unfold file_write at 1, set_fs at 1. cbn [fs requests events].
  unfold bind at 1.
  unfold EIAAPI._get_all_values.
  unfold bind at 1. unfold EIAAPI.get at 1. cbn [fs requests events]. fold r0.
  set (w1 := {| fs := _; requests := _; events := events w |}).
  unfold bind at 1. unfold EIAAPI.raise_for_status at 1.
  unfold status_ok in Hst. rewrite Hst. unfold ret at 1.
  unfold bind at 1. unfold EIAAPI.response_json at 1. rewrite Hjs. unfold ret at 1.
  destruct (check_api_version_passes j v w1 Hv Hparts) as [evs Hck].
  rewrite (bind_ok _ _ _ _ _ Hck).
  rewrite (bind_lift_ok _ _ _ _ Hrq), (bind_lift_ok _ _ _ _ Hps).
  unfold bind at 1, lift at 1. rewrite Hcount. eauto.
Qed.

(** A run of the [with] block that completes leaves the array in the
    destination and touches nothing else. *)
Lemma write_aggregate_ok (env : Env) (self : EIAAPI.t)
    (param_dict : list (string * value)) (out_path : Path) (w w' : World) :
  EIAAPI.write_aggregate env self param_dict out_path w = (Ok tt, w') ->
  fs w' = <[out_path := "[" +:+ String.concat page_sep (page_bodies env w w') +:+ "]"]> (fs w).
Proof.
  unfold EIAAPI.write_aggregate.
  unfold bind at 1. unfold open_w at 1, set_fs at 1.
  unfold bind at 1. unfold file_write at 1, set_fs at 1. cbn [fs requests events].
  rewrite lookup_insert_eq. cbn [default from_option id]. rewrite insert_insert_eq.
  unfold bind at 1.
  destruct (EIAAPI._get_all_values env _ _ _ _) as [r3 w3] eqn:Hrun.
  eapply get_all_values_inv in Hrun; [|cbn [fs]; apply lookup_insert_eq].
  cbn [fs requests events] in Hrun.
  destruct Hrun as [(e' & -> & _)|(-> & _ & j & t & len & n & _ & _ & Hreq & Hfs)];
    [discriminate|].
  unfold file_write, set_fs. intros [= <-]. cbn [fs].
  rewrite Hfs, lookup_insert_eq, !insert_insert_eq. cbn [default from_option id].
  f_equal. unfold page_bodies, new_requests. cbn [requests].
  rewrite Hreq, drop_app_length. reflexivity.
Qed.

Section GzipRuns.
Variable env : Env.

(** What a completed [gzip_file] leaves. *)
Lemma gzip_file_ok (p : Path) (d : bool) (w w' : World) :
  EIAAPI.gzip_file env p d w = (Ok tt, w') ->
  exists content : string,
    fs w !! p = Some content /\
    name p <> EmptyString /\
    requests w' = requests w /\ events w' = events w /\
    fs w' =
      (if d then delete p else id)
        (<[removelast p ++ [name p +:+ ".gz"] :=
             gzip_stream env
               (EIAAPI.read_blocks (String.length content) EIAAPI.COPY_BUFSIZE content)]>
           (fs w)).
Proof.
  unfold EIAAPI.gzip_file.
  unfold bind at 1. unfold open_rb at 1.
  destruct (fs w !! p) as [content|] eqn:Hp; [|done].
  unfold bind at 1, lift at 1.
  destruct (with_suffix p (suffix p +:+ ".gz")) as [gz|e] eqn:Hgz; [|done].
  apply with_suffix_gz in Hgz as [-> Hname].
  pose proof (gz_path_fresh p Hname) as Hfresh.
  set (gz := removelast p ++ [name p +:+ ".gz"]) in *.
  unfold bind at 1.
  unfold bind at 1.
  set (blocks := EIAAPI.read_blocks _ _ _).
  assert (Hcopy : forall (bs written : list string) (k : nat) (w1 w3 : World),
            fs w1 !! gz = Some (gzip_stream env written) ->
            EIAAPI.copy_blocks env gz k written bs w1 = (Ok tt, w3) ->
            fs w3 = <[gz := gzip_stream env (written ++ bs)]> (fs w1) /\
            requests w3 = requests w1 /\ events w3 = events w1).
  { induction bs as [|b bs IH]; intros written k w1 w3 Hw1; cbn [EIAAPI.copy_blocks].
    - unfold ret. intros [= <-]. rewrite app_nil_r. by rewrite insert_id.
    - destruct (io_fault env k); [done|].
      unfold bind at 1. intros H. apply IH in H as (Hfs & Hrq & Hev).
      + cbn [fs requests events set_fs] in *. rewrite Hfs, insert_insert_eq.
        by rewrite <- app_assoc.
      + cbn [fs set_fs]. apply lookup_insert_eq. }
  destruct (EIAAPI.copy_blocks env gz 0 [] blocks _) as [[[]|e] w3] eqn:Hrun; [|done].
  apply Hcopy in Hrun as (Hfs & Hrq & Hev); [|cbn [fs set_fs]; apply lookup_insert_eq].
  cbn [fs requests events set_fs app] in *. rewrite insert_insert_eq in Hfs.
  intros Hend. exists content. destruct d.
  - unfold unlink in Hend.
    rewrite Hfs, lookup_insert_ne, Hp in Hend by done.
    injection Hend as <-. cbn [fs requests events set_fs]. by rewrite Hfs.
  - unfold ret in Hend. injection Hend as <-. by rewrite Hfs.
Qed.

(** X7.  With [delete_uncompressed] left at [False], a completed
    [gzip_file] keeps the source as it was and adds the compressed file
    beside it; no request is sent and nothing is logged. *)
Theorem gzip_file_can_keep_source (p : Path) (w w' : World) :
  (forall blocks : list string,
     gunzip env (gzip_stream env blocks) = Some (String.concat EmptyString blocks)) ->
  EIAAPI.gzip_file env p false w = (Ok tt, w') ->
  exists content z : string,
    fs w' !! p = Some content /\ fs w !! p = Some content /\
    fs w' !! (removelast p ++ [name p +:+ ".gz"]) = Some z /\
    gunzip env z = Some content /\
    requests w' = requests w /\ events w' = events w.
Proof.
  intros Hcodec Hrun.
  apply gzip_file_ok in Hrun as (content & Hp & Hname & Hrq & Hev & Hfs).
  exists content, (gzip_stream env
    (EIAAPI.read_blocks (String.length content) EIAAPI.COPY_BUFSIZE content)).
  rewrite Hfs. cbn [id].
  rewrite lookup_insert_ne by (by apply gz_path_fresh).
  rewrite lookup_insert_eq.
  repeat split; try done.
  rewrite Hcodec. f_equal. apply read_blocks_concat; [|done].
  unfold EIAAPI.COPY_BUFSIZE. lia.
Qed.

(** X8.  Whatever its outcome, [gzip_file] changes no file other than
    the source and the file named after it with [".gz"] appended; when
    the source is missing it raises [FileNotFoundError] and changes
    nothing at all. *)
Theorem gzip_file_touches_two_paths (p : Path) (d : bool) (w w' : World)
    (r : result unit) :
  EIAAPI.gzip_file env p d w = (r, w') ->
  (forall q : Path, q <> p -> q <> removelast p ++ [name p +:+ ".gz"] ->
     fs w' !! q = fs w !! q) /\
  (fs w !! p = None -> r = Raise FileNotFoundError /\ w' = w).
Proof.
  unfold EIAAPI.gzip_file.
  unfold bind at 1. unfold open_rb at 1.
  destruct (fs w !! p) as [content|] eqn:Hp; [|by intros [= <- <-]].
  unfold bind at 1, lift at 1.
  destruct (with_suffix p (suffix p +:+ ".gz")) as [gz|e] eqn:Hgz;
    [|by intros [= <- <-]].
  apply with_suffix_gz in Hgz as [-> Hname].
  set (gz := removelast p ++ [name p +:+ ".gz"]) in *.
  unfold bind at 1.
  unfold bind at 1.
  destruct (EIAAPI.copy_blocks env gz 0 [] _ _) as [[[]|e] w3] eqn:Hcopy;
    apply copy_blocks_frame in Hcopy as [_ Hfs]; cbn [fs requests set_fs] in *.
  2:{ intros [= <- <-]. split; [|done]. intros q _ Hq.
      rewrite Hfs by done. by rewrite lookup_insert_ne. }
  intros Hend. split; [|done]. intros q Hqp Hq.
  assert (Hw3 : fs w3 !! q = fs w !! q).
  { rewrite Hfs by done. by rewrite lookup_insert_ne. }
  destruct d.
  - unfold unlink in Hend. cbn beta iota in Hend.
    destruct (fs w3 !! p); injection Hend as <- <-; [|done].
    cbn [fs set_fs]. by rewrite lookup_delete_ne.
  - unfold ret in Hend. by injection Hend as <- <-.
Qed.

(** What a completed call leaves. *)
Lemma call_completed (self : EIAAPI.t) (o : Options.t)
    (w w' : World) :
  (forall blocks : list string,
     gunzip env (gzip_stream env blocks) = Some (String.concat EmptyString blocks)) ->
  EIAAPI.get_fuel_receipts_costs_aggregates env self o w = (Ok tt, w') ->
  let out_path := EIAAPI.resolve_out_path self o in
  let gz := removelast out_path ++ [name out_path +:+ ".gz"] in
  exists z : string,
    fs w' !! out_path = None /\
    fs w' !! gz = Some z /\
    gunzip env z =
      Some ("[" +:+ String.concat page_sep (page_bodies env w w') +:+ "]") /\
    (forall q : Path, q <> out_path -> q <> gz -> fs w' !! q = fs w !! q).
Proof.
  intros Hcodec Hrun out_path gz. revert Hrun.
  unfold EIAAPI.get_fuel_receipts_costs_aggregates. fold out_path.
  unfold bind at 1.
  destruct (EIAAPI.write_aggregate env self _ out_path w) as [[[]|e] w2] eqn:Hagg; [|done].
  apply write_aggregate_ok in Hagg as Hfs2.
  apply write_aggregate_requests in Hagg as [rest Hreq2].
  intros Hgz. apply gzip_file_ok in Hgz as (content & Hp & Hname & Hrq & Hev & Hfs).
  rewrite Hfs2, lookup_insert_eq in Hp. injection Hp as <-.
  pose proof (gz_path_fresh out_path Hname) as Hfresh. fold gz in Hfresh, Hfs.
  eexists. rewrite Hfs. split; [apply lookup_delete_eq|].
  split; [rewrite lookup_delete_ne by done; apply lookup_insert_eq|].
  split.
  - rewrite Hcodec. f_equal.
    rewrite read_blocks_concat; [|unfold EIAAPI.COPY_BUFSIZE; lia|done].
    unfold page_bodies, new_requests. by rewrite Hrq.
  - intros q Hq Hqz. rewrite lookup_delete_ne by done.
    rewrite lookup_insert_ne by done. rewrite Hfs2. by rewrite lookup_insert_ne.
Qed.

(** X9.  A call that completes leaves the compressed array and nothing
    else: the destination itself is gone, the file named after it with
    [".gz"] appended decodes to the bracketed page bodies, and every
    other file is as before. *)
Theorem completed_call_leaves_compressed_array (self : EIAAPI.t) (o : Options.t)
    (w w' : World) :
  (forall blocks : list string,
     gunzip env (gzip_stream env blocks) = Some (String.concat EmptyString blocks)) ->
  EIAAPI.get_fuel_receipts_costs_aggregates env self o w = (Ok tt, w') ->
  let out_path := EIAAPI.resolve_out_path self o in
  let gz := removelast out_path ++ [name out_path +:+ ".gz"] in
  exists z : string,
    fs w' !! out_path = None /\
    fs w' !! gz = Some z /\
    gunzip env z =
      Some ("[" +:+ String.concat page_sep (page_bodies env w w') +:+ "]") /\
    (forall q : Path, q <> out_path -> q <> gz -> fs w' !! q = fs w !! q).
Proof. apply call_completed. Qed.

End GzipRuns.

(** ** The order of names and of paths *)

Lemma compare_refl (s : string) : String.compare s s = Eq.
Proof.
  induction s as [|c s IH]; cbn; [done|].
  unfold Ascii.compare. by rewrite N.compare_refl.
Qed.

Lemma compare_common_prefix (p a b : string) :
  String.compare (p +:+ a) (p +:+ b) = String.compare a b.
Proof.
  induction p as [|c p IH]; cbn; [done|].
  unfold Ascii.compare. by rewrite N.compare_refl.
Qed.

Lemma compare_lt_trans (a b c : string) :
  String.compare a b = Lt -> String.compare b c = Lt -> String.compare a c = Lt.
Proof.
  revert b c. induction a as [|x a IH]; intros [|y b] [|z c]; cbn; try done.
  unfold Ascii.compare.
  destruct (N.compare_spec (N_of_ascii x) (N_of_ascii y)) as [Hxy|Hxy|Hxy]; try done;
    destruct (N.compare_spec (N_of_ascii y) (N_of_ascii z)) as [Hyz|Hyz|Hyz]; try done;
    intros H1 H2.
  - rewrite <- Hxy in Hyz. rewrite Hyz, N.compare_refl. by eapply IH.
  - rewrite Hxy. by apply N.compare_lt_iff in Hyz as ->.
  - rewrite <- Hyz. by apply N.compare_lt_iff in Hxy as ->.
  - assert (N_of_ascii x < N_of_ascii z)%N as Hxz by lia.
    by apply N.compare_lt_iff in Hxz as ->.
Qed.

Lemma path_leb_refl (p : Path) : Helpers.path_leb p p = true.
Proof. induction p as [|a p IH]; cbn; [done|]. by rewrite compare_refl. Qed.

Lemma path_leb_total (p q : Path) :
  Helpers.path_leb p q = true \/ Helpers.path_leb q p = true.
Proof.
  revert q. induction p as [|a p IH]; intros [|b q]; cbn; auto.
  rewrite (String.compare_antisym b a).
  destruct (String.compare a b); cbn; auto.
Qed.

Lemma path_leb_trans (p q r : Path) :
  Helpers.path_leb p q = true -> Helpers.path_leb q r = true ->
  Helpers.path_leb p r = true.
Proof.
  revert q r. induction p as [|a p IH]; intros [|b q] [|c r]; cbn; try done.
  destruct (String.compare a b) eqn:Hab; try done;
    destruct (String.compare b c) eqn:Hbc; try done; intros H1 H2.
  - apply String.compare_eq_iff in Hab as ->. rewrite Hbc. by eapply IH.
  - apply String.compare_eq_iff in Hab as ->. by rewrite Hbc.
  - apply String.compare_eq_iff in Hbc as <-. by rewrite Hab.
  - by rewrite (compare_lt_trans _ _ _ Hab Hbc).
Qed.

Lemma path_leb_antisym (p q : Path) :
  Helpers.path_leb p q = true -> Helpers.path_leb q p = true -> p = q.
Proof.
  revert q. induction p as [|a p IH]; intros [|b q]; cbn; try done.
  rewrite (String.compare_antisym b a).
  destruct (String.compare a b) eqn:Hab; cbn; try done.
  intros H1 H2. apply String.compare_eq_iff in Hab as ->. f_equal. by apply IH.
Qed.

#[local] Instance path_ge_total : Total Helpers.path_ge.
Proof. intros p q. unfold Helpers.path_ge. destruct (path_leb_total p q); auto. Qed.

#[local] Instance path_ge_trans : Transitive Helpers.path_ge.
Proof. intros p q r. unfold Helpers.path_ge. intros H1 H2. by eapply path_leb_trans. Qed.

(** Two entries of the same directory compare as their names do. *)
Lemma path_leb_siblings (root : Path) (a b : string) :
  Helpers.path_leb (root ++ [a]) (root ++ [b]) = String.leb a b.
Proof.
  induction root as [|c root IH]; cbn.
  - unfold String.leb. by destruct (String.compare a b).
  - by rewrite compare_refl.
Qed.

(** The first of the paths sorted in reverse is the greatest of them. *)
Lemma sorted_reverse_head (paths : list Path) (m : Path) :
  In m paths ->
  (forall p : Path, In p paths -> Helpers.path_leb p m = true) ->
  exists rest, Helpers.sorted_reverse paths = m :: rest.
Proof.
  intros Hm Hmax. unfold Helpers.sorted_reverse.
  pose proof (merge_sort_Permutation Helpers.path_ge paths) as Hperm.
  pose proof (StronglySorted_merge_sort Helpers.path_ge paths) as Hsorted.
  destruct (merge_sort Helpers.path_ge paths) as [|h t] eqn:Hs.
  - apply Permutation_nil_l in Hperm. subst paths. destruct Hm.
  - exists t. f_equal.
    assert (Hh : In h paths).
    { apply list_elem_of_In. rewrite <- Hperm. left. }
    assert (Hmin : m ∈ h :: t) by (rewrite Hperm; by apply list_elem_of_In).
    apply path_leb_antisym; [by apply Hmax|].
    apply elem_of_cons in Hmin as [->|Hmt]; [apply path_leb_refl|].
    apply StronglySorted_inv in Hsorted as [_ Hall].
    rewrite Forall_forall in Hall. by apply Hall.
Qed.

Lemma sorted_reverse_nil : Helpers.sorted_reverse [] = [].
Proof. reflexivity. Qed.

(** ** Run numbers as text *)

Lemma small_numbers_spec (n : Z) : 0 <= n <= 1000 -> In n small_numbers.
Proof.
  intros Hn. unfold small_numbers. apply in_map_iff.
  exists (Z.to_nat n). split; [lia|]. apply in_seq. lia.
Qed.

Lemma format_03d_int (n : Z) :
  0 <= n <= 999 ->
  Helpers.int (Helpers.format_03d n) = Ok n /\
  String.length (Helpers.format_03d n) = 3%nat.
Proof.
  intros Hn.
  assert (H : forallb (fun n =>
                (n =? 1000)
                || (match Helpers.int (Helpers.format_03d n) with
                    | Ok m => m =? n
                    | Raise _ => false
                    end
                    && (String.length (Helpers.format_03d n) =? 3)%nat))
                small_numbers = true) by (vm_compute; reflexivity).
  rewrite forallb_forall in H. specialize (H n (small_numbers_spec n ltac:(lia))).
  apply orb_true_iff in H as [H|H]; [lia|].
  apply andb_true_iff in H as [H1 H2].
  destruct (Helpers.int (Helpers.format_03d n)) as [m|]; [|done].
  apply Z.eqb_eq in H1 as ->. by apply Nat.eqb_eq in H2.
Qed.

Lemma format_03d_no_slash (n : Z) :
  0 <= n <= 1000 -> contains "/" (Helpers.format_03d n) = false.
Proof.
  intros Hn.
  assert (H : forallb (fun n => negb (contains "/" (Helpers.format_03d n)))
                small_numbers = true) by (vm_compute; reflexivity).
  rewrite forallb_forall in H. specialize (H n (small_numbers_spec n Hn)).
  by apply negb_true_iff in H.
Qed.

Lemma format_03d_step (n : Z) :
  0 <= n < 999 ->
  String.compare (Helpers.format_03d n) (Helpers.format_03d (n + 1)) = Lt.
Proof.
  intros Hn.
  assert (H : forallb (fun n =>
                (999 <=? n)
                || match String.compare (Helpers.format_03d n) (Helpers.format_03d (n + 1)) with
                   | Lt => true
                   | _ => false
                   end)
                small_numbers = true) by (vm_compute; reflexivity).
  rewrite forallb_forall in H. specialize (H n (small_numbers_spec n ltac:(lia))).
  apply orb_true_iff in H as [H|H]; [lia|].
  by destruct (String.compare _ _).
Qed.

Lemma format_03d_lt (i k : Z) :
  0 <= i < k -> k <= 999 ->
  String.compare (Helpers.format_03d i) (Helpers.format_03d k) = Lt.
Proof.
  intros Hi Hk.
  assert (H : forall d : nat, 0 <= i -> i + 1 + Z.of_nat d <= 999 ->
            String.compare (Helpers.format_03d i)
              (Helpers.format_03d (i + 1 + Z.of_nat d)) = Lt).
  { induction d as [|d IH]; intros H0 Hd.
    - rewrite Z.add_0_r. apply format_03d_step. lia.
    - eapply compare_lt_trans; [apply IH; lia|].
      replace (i + 1 + Z.of_nat (Datatypes.S d)) with (i + 1 + Z.of_nat d + 1) by lia.
      apply format_03d_step. lia. }
  specialize (H (Z.to_nat (k - i - 1)) ltac:(lia) ltac:(lia)).
  by replace (i + 1 + Z.of_nat (Z.to_nat (k - i - 1))) with k in H by lia.
Qed.

(** Up to 999, run names are ordered as run numbers. *)
Lemma run_name_leb (today : string) (i k : Z) :
  0 <= i <= k -> k <= 999 ->
  String.leb (Helpers.run_name today i) (Helpers.run_name today k) = true.
Proof.
  intros Hi Hk. unfold String.leb, Helpers.run_name.
  rewrite compare_common_prefix.
  change ("#" +:+ ?x) with (String "#" x). cbn [String.compare].
  unfold Ascii.compare. rewrite N.compare_refl.
  destruct (decide (i = k)) as [->|Hne]; [by rewrite compare_refl|].
  by rewrite format_03d_lt by lia.
Qed.

Lemma run_name_lt_ne (today : string) (i k : Z) :
  0 <= i < k -> k <= 999 -> Helpers.run_name today i <> Helpers.run_name today k.
Proof.
  intros Hi Hk Heq. unfold Helpers.run_name in Heq.
  apply (inj (String.app today)) in Heq.
  injection Heq as Heq.
  pose proof (format_03d_lt i k Hi Hk) as Hlt.
  rewrite Heq, compare_refl in Hlt. discriminate.
Qed.

(** ** Paths of runs *)

Lemma run_name_prefix (today : string) (n : Z) :
  String.prefix today (Helpers.run_name today n) = true.
Proof.
  unfold Helpers.run_name. induction today as [|c t IH]; cbn; [done|].
  destruct (ascii_dec c c); [apply IH|done].
Qed.

Lemma truediv_name (root : Path) (s : string) :
  contains "/" s = false -> s <> EmptyString -> s <> "."%string ->
  truediv root s = root ++ [s].
Proof.
  intros Hs Hne Hdot. unfold truediv. rewrite (split_single _ _ Hs). cbn [List.filter].
  apply String.eqb_neq in Hne, Hdot. by rewrite Hne, Hdot.
Qed.

Lemma contains_append (c : ascii) (a b : string) :
  contains c (a +:+ b) = contains c a || contains c b.
Proof.
  induction a as [|x a IH]; cbn; [done|]. by rewrite IH, orb_assoc.
Qed.

Lemma truediv_run (today : string) (root : Path) (n : Z) :
  contains "/" today = false -> 0 <= n <= 1000 ->
  truediv root (Helpers.run_name today n) = root ++ [Helpers.run_name today n].
Proof.
  intros Ht Hn. apply truediv_name.
  - unfold Helpers.run_name. rewrite !contains_append, Ht.
    by rewrite format_03d_no_slash.
  - unfold Helpers.run_name. by destruct today.
  - unfold Helpers.run_name. by destruct today as [|c [|c' t]].
Qed.

Lemma str_path_last (root : Path) (n : string) :
  exists pre, Helpers.str_path (root ++ [n]) = pre +:+ n.
Proof.
  unfold Helpers.str_path. induction root as [|a root [pre IH]].
  - by exists EmptyString.
  - exists (a +:+ "/" +:+ pre). cbn [app].
    destruct (root ++ [n]) as [|x l] eqn:E; [by destruct root|].
    change (String.concat "/" (a :: x :: l)) with (a +:+ "/" +:+ String.concat "/" (x :: l)).
    by rewrite IH, !append_assoc.
Qed.

Lemma slice_from_append (pre s : string) :
  slice_from (String.length pre) (pre +:+ s) = s.
Proof. induction pre as [|c pre IH]; cbn; [by destruct s|done]. Qed.

Lemma slice_from_add (i k : nat) (s : string) :
  slice_from (i + k) s = slice_from k (slice_from i s).
Proof.
  revert s. induction i as [|i IH]; intros s; cbn; [done|].
  destruct s as [|c s]; [by destruct k|apply IH].
Qed.

(** The last three characters of a path are those of its name, when the
    name has three. *)
Lemma last3_path (root : Path) (n : string) :
  (3 <= String.length n)%nat ->
  Helpers.last3 (Helpers.str_path (root ++ [n])) = Helpers.last3 n.
Proof.
  intros Hn. destruct (str_path_last root n) as [pre ->].
  unfold Helpers.last3. rewrite length_append.
  replace (String.length pre + String.length n - 3)%nat
    with (String.length pre + (String.length n - 3))%nat by lia.
  by rewrite slice_from_add, slice_from_append.
Qed.

Lemma last3_run_name (today : string) (n : Z) :
  0 <= n <= 999 ->
  Helpers.last3 (Helpers.run_name today n) = Helpers.format_03d n.
Proof.
  intros Hn. destruct (format_03d_int n Hn) as [_ Hlen].
  unfold Helpers.last3, Helpers.run_name.
  rewrite <- append_assoc, length_append, Hlen.
  replace (String.length (today +:+ "#") + 3 - 3)%nat
    with (String.length (today +:+ "#")) by lia.
  apply slice_from_append.
Qed.

Lemma length_run_name (today : string) (n : Z) :
  0 <= n <= 999 -> (3 <= String.length (Helpers.run_name today n))%nat.
Proof.
  intros Hn. destruct (format_03d_int n Hn) as [_ Hlen].
  unfold Helpers.run_name. rewrite !length_append, Hlen. lia.
Qed.

(** ** The directory of a run *)

Lemma glob_today_none (today : string) (root : Path) (children : list string) :
  (forall c : string, In c children -> String.prefix today c = false) ->
  Helpers.glob_today today root children = [].
Proof.
  intros H. unfold Helpers.glob_today.
  induction children as [|c cs IH]; cbn [List.filter]; [done|].
  rewrite (H c) by (by left). apply IH. intros c' Hc'. apply H. by right.
Qed.

(** The entry that sorts last among today's entries is the one both
    functions read the previous number from. *)
Lemma latest_entry_first (today : string) (root : Path) (children : list string)
    (m : string) :
  In m children -> String.prefix today m = true ->
  (forall c : string, In c children -> String.prefix today c = true ->
     String.leb c m = true) ->
  exists rest,
    Helpers.sorted_reverse (Helpers.glob_today today root children)
    = (root ++ [m]) :: rest.
Proof.
  intros Hm Hpre Hmax. apply sorted_reverse_head.
  - unfold Helpers.glob_today. apply in_map_iff. exists m. split; [done|].
    apply filter_In. done.
  - intros p Hp. unfold Helpers.glob_today in Hp.
    apply in_map_iff in Hp as (c & <- & Hc). apply filter_In in Hc as [Hc Hcp].
    rewrite path_leb_siblings. by apply Hmax.
Qed.

(** X10.  On a day without any entry named after the date, both
    functions name run 1: the directory [<date>#001] under the root. *)
Theorem first_run_of_the_day (today : string) (root : Path) (children : list string) :
  contains "/" today = false ->
  (forall c : string, In c children -> String.prefix today c = false) ->
  Helpers.new_output_dir today root children = Ok (root ++ [today +:+ "#001"]) /\
  Helpers.get_latest_directory today root children = Ok (root ++ [today +:+ "#001"]).
Proof.
  intros Ht Hnone.
  unfold Helpers.new_output_dir, Helpers.get_latest_directory.
  rewrite (glob_today_none _ _ _ Hnone), sorted_reverse_nil.
  rewrite truediv_run by (done || lia). done.
Qed.

(** After the runs up to [k <= 998] comes run [k + 1], a new name. *)
Lemma next_run_named (today : string) (root : Path)
    (children : list string) (k : Z) :
  contains "/" today = false ->
  0 <= k <= 998 ->
  In (Helpers.run_name today k) children ->
  (forall c : string, In c children -> String.prefix today c = true ->
     exists i, 0 <= i <= k /\ c = Helpers.run_name today i) ->
  Helpers.new_output_dir today root children
    = Ok (root ++ [Helpers.run_name today (k + 1)]) /\
  ~ In (Helpers.run_name today (k + 1)) children.
Proof.
  intros Ht Hk Hin Hruns.
  destruct (latest_entry_first today root children (Helpers.run_name today k))
    as [rest Hsorted]; [done|apply run_name_prefix| |].
  { intros c Hc Hpre. destruct (Hruns c Hc Hpre) as (i & Hi & ->).
    apply run_name_leb; lia. }
  split.
  - unfold Helpers.new_output_dir. rewrite Hsorted.
    rewrite last3_path by (apply length_run_name; lia).
    rewrite last3_run_name by lia.
    destruct (format_03d_int k ltac:(lia)) as [-> _]. cbn [rbind].
    by rewrite truediv_run by (done || lia).
  - intros Hnew.
    destruct (Hruns _ Hnew (run_name_prefix _ _)) as (i & Hi & Heq).
    destruct (decide (i = k + 1)) as [->|Hne]; [lia|].
    symmetry in Heq. revert Heq. apply run_name_lt_ne; lia.
Qed.

(** X11.  When today's entries are the runs numbered up to [k], with run
    [k] among them and [k <= 998], [new_output_dir] names run [k + 1],
    and no entry has that name yet. *)
Theorem runs_are_numbered_in_sequence (today : string) (root : Path)
    (children : list string) (k : Z) :
  contains "/" today = false ->
  0 <= k <= 998 ->
  In (Helpers.run_name today k) children ->
  (forall c : string, In c children -> String.prefix today c = true ->
     exists i, 0 <= i <= k /\ c = Helpers.run_name today i) ->
  Helpers.new_output_dir today root children
    = Ok (root ++ [Helpers.run_name today (k + 1)]) /\
  ~ In (Helpers.run_name today (k + 1)) children.
Proof. apply next_run_named. Qed.

(** After run 1000, run 999 still sorts last. *)
Lemma run_1000_named_again (today : string) (root : Path)
    (children : list string) :
  contains "/" today = false ->
  In (Helpers.run_name today 999) children ->
  In (Helpers.run_name today 1000) children ->
  (forall c : string, In c children -> String.prefix today c = true ->
     exists i, 0 <= i <= 1000 /\ c = Helpers.run_name today i) ->
  Helpers.new_output_dir today root children
    = Ok (root ++ [Helpers.run_name today 1000]) /\
  In (Helpers.run_name today 1000) children.
Proof.
  intros Ht H999 H1000 Hruns. split; [|done].
  destruct (latest_entry_first today root children (Helpers.run_name today 999))
    as [rest Hsorted]; [done|apply run_name_prefix| |].
  { intros c Hc Hpre. destruct (Hruns c Hc Hpre) as (i & Hi & ->).
    destruct (decide (i = 1000)) as [->|Hne]; [|apply run_name_leb; lia].
    unfold String.leb, Helpers.run_name. rewrite compare_common_prefix. reflexivity. }
  unfold Helpers.new_output_dir. rewrite Hsorted.
  rewrite last3_path by (apply length_run_name; lia).
  rewrite last3_run_name by lia.
  destruct (format_03d_int 999 ltac:(lia)) as [-> _]. cbn [rbind].
  by rewrite truediv_run by (done || lia).
Qed.

(** X12.  Numbers wrap at the third digit.  Once the runs 999 and 1000
    of a day both exist, run 999 still sorts last, and [new_output_dir]
    names run 1000 again: a directory that is already there. *)
Theorem thousandth_run_is_named_again (today : string) (root : Path)
    (children : list string) :
  contains "/" today = false ->
  In (Helpers.run_name today 999) children ->
  In (Helpers.run_name today 1000) children ->
  (forall c : string, In c children -> String.prefix today c = true ->
     exists i, 0 <= i <= 1000 /\ c = Helpers.run_name today i) ->
  Helpers.new_output_dir today root children
    = Ok (root ++ [Helpers.run_name today 1000]) /\
  In (Helpers.run_name today 1000) children.
Proof. apply run_1000_named_again. Qed.

(** X13.  When today's entries are the runs numbered up to [k], with run
    [k] among them and [k <= 999], [get_latest_directory] returns the
    directory of run [k], which exists. *)
Theorem latest_directory_is_the_last_run (today : string) (root : Path)
    (children : list string) (k : Z) :
  contains "/" today = false ->
  0 <= k <= 999 ->
  In (Helpers.run_name today k) children ->
  (forall c : string, In c children -> String.prefix today c = true ->
     exists i, 0 <= i <= k /\ c = Helpers.run_name today i) ->
  Helpers.get_latest_directory today root children
    = Ok (root ++ [Helpers.run_name today k]).
Proof.
  intros Ht Hk Hin Hruns.
  destruct (latest_entry_first today root children (Helpers.run_name today k))
    as [rest Hsorted]; [done|apply run_name_prefix| |].
  { intros c Hc Hpre. destruct (Hruns c Hc Hpre) as (i & Hi & ->).
    apply run_name_leb; lia. }
  unfold Helpers.get_latest_directory. rewrite Hsorted.
  rewrite last3_path by (apply length_run_name; lia).
  rewrite last3_run_name by lia.
  destruct (format_03d_int k ltac:(lia)) as [-> _]. cbn [rbind].
  by rewrite truediv_run by (done || lia).
Qed.

(** *** Names that do not end in a number *)

Lemma digits_bad_last (ch : ascii) (s : string) :
  Helpers.digit_of ch = None ->
  forall (acc : Z) (after_digit : bool),
    Helpers.digits acc after_digit (s +:+ String ch EmptyString) = None.
Proof.
  intros Hch. induction s as [|c s IH]; intros acc b; cbn [String.append Helpers.digits].
  - rewrite Hch. by destruct (Ascii.eqb ch "_" && b).
  - destruct (Helpers.digit_of c); [apply IH|].
    destruct (Ascii.eqb c "_" && b); [apply IH|done].
Qed.

Lemma lstrip_keeps_last (ch : ascii) (s : string) :
  Helpers.is_space ch = false ->
  exists s', Helpers.lstrip (s +:+ String ch EmptyString) = s' +:+ String ch EmptyString.
Proof.
  intros Hch. induction s as [|c s [s' IH]]; cbn [String.append Helpers.lstrip].
  - rewrite Hch. by exists EmptyString.
  - destruct (Helpers.is_space c); [by exists s'|by exists (String c s)].
Qed.

Lemma rstrip_keeps_last (ch : ascii) (s : string) :
  Helpers.is_space ch = false ->
  Helpers.rstrip (s +:+ String ch EmptyString) = s +:+ String ch EmptyString.
Proof.
  intros Hch. induction s as [|c s IH]; cbn [String.append Helpers.rstrip].
  - by rewrite Hch.
  - rewrite IH. by destruct s.
Qed.

Lemma int_bad_last (ch : ascii) (s : string) :
  Helpers.digit_of ch = None -> Helpers.is_space ch = false ->
  Helpers.int (s +:+ String ch EmptyString) = Raise ValueError.
Proof.
  intros Hd Hs. unfold Helpers.int, Helpers.strip.
  destruct (lstrip_keeps_last ch s Hs) as [s' ->].
  rewrite (rstrip_keeps_last ch s' Hs).
  destruct s' as [|c s']; cbn [String.append].
  - destruct (Ascii.eqb ch "+"); [done|]. destruct (Ascii.eqb ch "-"); [done|].
    by rewrite (digits_bad_last ch EmptyString Hd).
  - destruct (Ascii.eqb c "+"); [by rewrite digits_bad_last|].
    destruct (Ascii.eqb c "-"); [by rewrite digits_bad_last|].
    by rewrite (digits_bad_last ch (String c s') Hd).
Qed.

Lemma slice_from_keeps_last (i : nat) (s : string) (ch : ascii) :
  (i <= String.length s)%nat ->
  slice_from i (s +:+ String ch EmptyString) = slice_from i s +:+ String ch EmptyString.
Proof.
  revert s. induction i as [|i IH]; intros [|c s] Hi; cbn in *; try done; try lia.
  apply IH. lia.
Qed.

(** X14.  When the entry that sorts last among today's entries ends in a
    character that is neither a decimal digit nor whitespace to [int]
    (133 and 160 are whitespace to it, 28 to 31 are not), both functions
    raise [ValueError]: no directory is named. *)
Theorem stray_entry_breaks_numbering (today : string) (root : Path)
    (children : list string) (s : string) (ch : ascii) :
  let m := s +:+ String ch EmptyString in
  In m children -> String.prefix today m = true ->
  (forall c : string, In c children -> String.prefix today c = true ->
     String.leb c m = true) ->
  Helpers.digit_of ch = None -> Helpers.is_space ch = false ->
  Helpers.new_output_dir today root children = Raise ValueError /\
  Helpers.get_latest_directory today root children = Raise ValueError.
Proof.
  intros m Hin Hpre Hmax Hd Hs.
  destruct (latest_entry_first today root children m Hin Hpre Hmax) as [rest Hsorted].
  assert (Hint : Helpers.int (Helpers.last3 (Helpers.str_path (root ++ [m])))
                 = Raise ValueError).
  { destruct (str_path_last root m) as [pre ->]. subst m.
    rewrite <- append_assoc. unfold Helpers.last3.
    rewrite slice_from_keeps_last; [by apply int_bad_last|].
    rewrite length_append. cbn [String.length]. lia. }
  unfold Helpers.new_output_dir, Helpers.get_latest_directory.
  by rewrite Hsorted, Hint.
Qed.

(** ** From construction to [main] *)

(** X15.  [main] sends no request and writes nothing unless the client
    could be built: when naming the output directory raises, that
    exception leaves [main], whether or not the key is set; when the
    directory could be named and [API_KEY_EIA] is not set, the bare
    [Exception] of [_generate_api_key_query] does. *)
Theorem main_needs_a_client (env : Env) (environ : Script.Environ) (OUTPUT_DIR : Path)
    (today : string) (children : list string) (w : World) :
  (forall e : exn,
     Helpers.new_output_dir today (truediv OUTPUT_DIR "eia_api") children = Raise e ->
     Script.main env environ OUTPUT_DIR today children w = (Some (Builtin e), w)) /\
  (forall output_dir : Path,
     Helpers.new_output_dir today (truediv OUTPUT_DIR "eia_api") children = Ok output_dir ->
     environ !! "API_KEY_EIA"%string = None ->
     exists message,
       Script.main env environ OUTPUT_DIR today children w = (Some (Exception message), w)).
Proof.
  split.
  - intros e He. unfold Script.main, Script.__init__. by rewrite He.
  - intros output_dir Hdir Hkey. unfold Script.main, Script.__init__,
      Script._generate_api_key_query. rewrite Hdir, Hkey. eauto.
Qed.

Lemma default_out_path_annual (self : EIAAPI.t) :
  EIAAPI.resolve_out_path self Script.annual_params
  = EIAAPI.output_dir self ++ ["annual_cost-per-btu_receipts-btu_2001.json"%string].
Proof.
  unfold EIAAPI.resolve_out_path, EIAAPI.default_out_path. cbn [Options.out_path Script.annual_params].
  by apply truediv_name.
Qed.

Lemma default_out_path_monthly (self : EIAAPI.t) :
  EIAAPI.resolve_out_path self Script.monthly_params
  = EIAAPI.output_dir self ++ ["monthly_cost-per-btu_receipts-btu_2001.json"%string].
Proof.
  unfold EIAAPI.resolve_out_path, EIAAPI.default_out_path.
  cbn [Options.out_path Script.monthly_params Script.annual_params].
  by apply truediv_name.
Qed.

Lemma gz_of_entry (dir : Path) (n : string) :
  removelast (dir ++ [n]) ++ [name (dir ++ [n]) +:+ ".gz"] = dir ++ [n +:+ ".gz"].
Proof. unfold name. by rewrite removelast_last, last_last. Qed.

Lemma entry_ne (dir : Path) (a b : string) : a <> b -> dir ++ [a] <> dir ++ [b].
Proof. intros Hab Heq. apply app_inv_head in Heq. congruence. Qed.

(** X16.  When [main] returns, both calls have returned, the monthly one
    from the world [w1] the annual one left, and the output directory of
    the client holds the two compressed aggregates, annual and monthly,
    each decoding to the bracketed bodies of the pages of its own call;
    neither uncompressed file is left: the monthly call does not disturb
    the annual archive. *)
Theorem main_leaves_two_archives (env : Env) (environ : Script.Environ)
    (OUTPUT_DIR : Path) (today : string) (children : list string) (w w' : World) :
  (forall blocks : list string,
     gunzip env (gzip_stream env blocks) = Some (String.concat EmptyString blocks)) ->
  Script.main env environ OUTPUT_DIR today children w = (None, w') ->
  exists (api : EIAAPI.t) (w1 : World) (za zm : string),
    Script.__init__ environ OUTPUT_DIR today children = inr api /\
    EIAAPI.get_fuel_receipts_costs_aggregates env api Script.annual_params w
      = (Ok tt, w1) /\
    EIAAPI.get_fuel_receipts_costs_aggregates env api Script.monthly_params w1
      = (Ok tt, w') /\
    fs w' !! (EIAAPI.output_dir api
              ++ ["annual_cost-per-btu_receipts-btu_2001.json.gz"%string]) = Some za /\
    fs w' !! (EIAAPI.output_dir api
              ++ ["monthly_cost-per-btu_receipts-btu_2001.json.gz"%string]) = Some zm /\
    gunzip env za
      = Some ("[" +:+ String.concat page_sep (page_bodies env w w1) +:+ "]") /\
    gunzip env zm
      = Some ("[" +:+ String.concat page_sep (page_bodies env w1 w') +:+ "]") /\
    fs w' !! (EIAAPI.output_dir api
              ++ ["annual_cost-per-btu_receipts-btu_2001.json"%string]) = None /\
    fs w' !! (EIAAPI.output_dir api
              ++ ["monthly_cost-per-btu_receipts-btu_2001.json"%string]) = None.
Proof.
  intros Hcodec. unfold Script.main.
  destruct (Script.__init__ environ OUTPUT_DIR today children) as [e|api]; [done|].
  destruct (EIAAPI.get_fuel_receipts_costs_aggregates env api Script.annual_params w)
    as [[[]|e] w1] eqn:Hannual; [|done].
  destruct (EIAAPI.get_fuel_receipts_costs_aggregates env api Script.monthly_params w1)
    as [[[]|e] w2] eqn:Hmonthly; [|done].
  intros [= <-].
  destruct (call_completed env api _ w w1 Hcodec Hannual) as (za & Ha1 & Ha2 & Ha3 & _).
  destruct (call_completed env api _ w1 w2 Hcodec Hmonthly) as (zm & Hm1 & Hm2 & Hm3 & Hm4).
  rewrite default_out_path_annual in Ha1, Ha2.
  rewrite default_out_path_monthly in Hm1, Hm2, Hm4.
  rewrite gz_of_entry in Ha2, Hm2, Hm4.
  exists api, w1, za, zm. split; [done|]. split; [done|]. split; [done|].
  split; [rewrite Hm4; [done|by apply entry_ne..]|].
  split; [done|]. split; [done|]. split; [done|].
  split; [|done]. rewrite Hm4; [done|by apply entry_ne..].
Qed.

(** ** The FERC Form 1 spider *)

Lemma append_inv_tail (a b c : string) : a +:+ c = b +:+ c -> a = b.
Proof.
  intros H.
  assert (Hlen : String.length a = String.length b).
  { apply (f_equal String.length) in H. rewrite !length_append in H. lia. }
  revert b H Hlen. induction a as [|x a IH]; intros [|y b] H Hlen; cbn in *; try done.
  injection H as -> H. f_equal. apply IH; [done|lia].
Qed.

Lemma form_url_inj (y y' : Z) :
  Ferc1Spider.url (Ferc1Spider.form_for_year y)
  = Ferc1Spider.url (Ferc1Spider.form_for_year y') -> y = y'.
Proof.
  cbn [Ferc1Spider.url Ferc1Spider.form_for_year]. intros H.
  apply (inj (String.app _)) in H. apply append_inv_tail in H.
  by apply (inj pretty) in H.
Qed.

Lemma in_range (lo hi x : Z) : In x (range lo hi) <-> lo <= x < hi.
Proof.
  unfold range. rewrite in_map_iff. split.
  - intros (k & <- & Hk). apply in_seq in Hk. lia.
  - intros Hx. exists (Z.to_nat (x - lo)). split; [lia|]. apply in_seq. lia.
Qed.

Lemma NoDup_range (lo hi : Z) : NoDup (range lo hi).
Proof.
  unfold range. apply NoDup_fmap_2; [|apply NoDup_seq].
  intros a b H. lia.
Qed.

(** X17.  [all_form_requests] yields one request per year from 1994 to
    2021, in that order, 28 in all, each for the archive of its year;
    two years never share a URL, so no archive is requested twice. *)
Theorem all_forms_requested_once :
  map Ferc1Spider.meta_year Ferc1Spider.all_form_requests = range 1994 2022 /\
  List.length Ferc1Spider.all_form_requests = 28%nat /\
  (forall rq : Ferc1Spider.Request,
     In rq Ferc1Spider.all_form_requests <->
     exists y, 1994 <= y <= 2021 /\ rq = Ferc1Spider.form_for_year y) /\
  (forall y y' : Z,
     Ferc1Spider.url (Ferc1Spider.form_for_year y)
     = Ferc1Spider.url (Ferc1Spider.form_for_year y') -> y = y') /\
  NoDup (map Ferc1Spider.url Ferc1Spider.all_form_requests).
Proof.
  unfold Ferc1Spider.all_form_requests.
  split; [by rewrite map_map, map_id|]. split; [reflexivity|]. split; [|split].
  - intros rq. rewrite in_map_iff. split.
    + intros (y & <- & Hy). apply in_range in Hy. exists y. split; [lia|done].
    + intros (y & Hy & ->). exists y. split; [done|]. apply in_range. lia.
  - apply form_url_inj.
  - rewrite map_map. apply NoDup_fmap_2; [|apply NoDup_range].
    intros y y'. apply form_url_inj.
Qed.

Lemma year_file_no_slash (y : Z) :
  1994 <= y < 2022 -> contains "/" ("ferc1-" +:+ pretty y +:+ ".zip") = false.
Proof.
  intros Hy.
  assert (H : forallb (fun y => negb (contains "/" ("ferc1-" +:+ pretty y +:+ ".zip")))
                (range 1994 2022) = true) by (vm_compute; reflexivity).
  rewrite forallb_forall in H. specialize (H y (proj2 (in_range _ _ _) Hy)).
  by apply negb_true_iff in H.
Qed.

(** X18.  For a response to the request of a year from 1994 to 2021,
    [parse] yields the body with that year and the path
    [ferc1-<year>.zip] under the output directory; two such years never
    share a path, so no archive overwrites another. *)
Theorem each_year_has_its_own_file (output_dir : Path) (y : Z) (body : string) :
  1994 <= y < 2022 ->
  let item := Ferc1Spider.parse output_dir
                {| Ferc1Spider.request := Ferc1Spider.form_for_year y;
                   Ferc1Spider.body := body |} in
  Ferc1Spider.data item = body /\
  Ferc1Spider.year item = y /\
  Ferc1Spider.save_path item = output_dir ++ ["ferc1-" +:+ pretty y +:+ ".zip"] /\
  (forall (y' : Z) (body' : string),
     1994 <= y' < 2022 ->
     Ferc1Spider.save_path
       (Ferc1Spider.parse output_dir
          {| Ferc1Spider.request := Ferc1Spider.form_for_year y';
             Ferc1Spider.body := body' |})
     = Ferc1Spider.save_path item -> y' = y).
Proof.
  intros Hy item.
  assert (Hpath : forall (z : Z) (b : string), 1994 <= z < 2022 ->
            Ferc1Spider.save_path
              (Ferc1Spider.parse output_dir
                 {| Ferc1Spider.request := Ferc1Spider.form_for_year z;
                    Ferc1Spider.body := b |})
            = output_dir ++ ["ferc1-" +:+ pretty z +:+ ".zip"]).
  { intros z b Hz. cbn. apply truediv_name; [by apply year_file_no_slash|done|done]. }
  split; [done|]. split; [done|]. split; [by apply Hpath|].
  intros y' body' Hy' Heq. subst item. rewrite !Hpath in Heq by done.
  apply app_inv_head in Heq. injection Heq as Heq.
  apply append_inv_tail in Heq. by apply (inj pretty) in Heq.
Qed.

(** ** The bulk download *)

Lemma listdir_spec (d : Bulk.Disk) (root : Path) (n : string) :
  In n (Bulk.listdir d root) <->
  root ++ [n] ∈ Bulk.dirs d \/ is_Some (Bulk.files d !! (root ++ [n])).
Proof.
  unfold Bulk.listdir. rewrite <- list_elem_of_In, list_elem_of_omap. split.
  - intros (p & Hp & Hf). case_bool_decide as Hparent; [|done].
    destruct Hparent as [Hne <-]. injection Hf as <-.
    rewrite <- (app_removelast_last EmptyString Hne).
    apply elem_of_elements, elem_of_union in Hp as [Hp|Hp]; [by left|right].
    by apply elem_of_dom.
  - intros H. exists (root ++ [n]). split.
    + apply elem_of_elements, elem_of_union.
      destruct H as [H|H]; [by left|right]. by apply elem_of_dom.
    + rewrite bool_decide_eq_true_2.
      * by rewrite last_last.
      * split; [by destruct root|apply removelast_last].
Qed.

Lemma fold_append (chunks : list string) (acc : string) :
  fold_left (fun content chunk => content +:+ chunk) chunks acc
  = acc +:+ String.concat EmptyString chunks.
Proof.
  revert acc. induction chunks as [|c cs IH]; intros acc; cbn [fold_left].
  - cbn. by rewrite append_nil_r.
  - by rewrite IH, concat_empty_cons, append_assoc.
Qed.

Lemma elem_of_ancestors_self (p : Path) : p <> [] -> In p (Bulk.ancestors p).
Proof.
  induction p as [|a p IH]; [done|]. intros _. cbn [Bulk.ancestors].
  destruct p as [|b p]; [by left|]. right. apply in_map. by apply IH.
Qed.

Lemma ancestors_length (p q : Path) :
  In q (Bulk.ancestors p) -> (List.length q <= List.length p)%nat /\ q <> [].
Proof.
  revert q. induction p as [|a p IH]; intros q; cbn [Bulk.ancestors]; [done|].
  intros [<-|Hq]; [cbn; split; [lia|done]|].
  apply in_map_iff in Hq as (q' & <- & Hq'). apply IH in Hq' as [Hlen _].
  cbn. split; [lia|done].
Qed.

Lemma ancestors_prefix (p q : Path) :
  In q (Bulk.ancestors p) -> exists r, p = q ++ r.
Proof.
  revert q. induction p as [|a p IH]; intros q; cbn [Bulk.ancestors]; [done|].
  intros [<-|Hq]; [by exists p|].
  apply in_map_iff in Hq as (q' & <- & Hq'). apply IH in Hq' as [r ->]. by exists r.
Qed.

(** Of the leading parts of [root ++ [x]], only the whole is an entry of
    [root]. *)
Lemma ancestors_child (root : Path) (x n : string) :
  In (root ++ [n]) (Bulk.ancestors (root ++ [x])) -> n = x.
Proof.
  intros H. apply ancestors_prefix in H as [r Hr].
  rewrite <- app_assoc in Hr. apply app_inv_head in Hr.
  cbn in Hr. by injection Hr as -> _.
Qed.


Lemma not_listed (d : Bulk.Disk) (root : Path) (n : string) :
  ~ In n (Bulk.listdir d root) ->
  Bulk.is_dir d (root ++ [n]) || Bulk.is_file d (root ++ [n]) = false.
Proof.
  intros H. rewrite listdir_spec in H.
  unfold Bulk.is_dir, Bulk.is_file. apply orb_false_iff. split.
  - apply orb_false_iff. split; apply bool_decide_eq_false_2; [by destruct root|tauto].
  - apply bool_decide_eq_false_2. tauto.
Qed.

Lemma listed (d : Bulk.Disk) (root : Path) (n : string) :
  In n (Bulk.listdir d root) ->
  Bulk.is_dir d (root ++ [n]) || Bulk.is_file d (root ++ [n]) = true.
Proof.
  intros H. rewrite listdir_spec in H.
  unfold Bulk.is_dir, Bulk.is_file. apply orb_true_iff.
  destruct H as [H|H]; [left|right].
  - apply orb_true_iff. right. by apply bool_decide_eq_true_2.
  - by apply bool_decide_eq_true_2.
Qed.

Lemma zip_path (output_dir : Path) :
  truediv output_dir "eia_bulk_elec.zip" = output_dir ++ ["eia_bulk_elec.zip"%string].
Proof. by apply truediv_name. Qed.

(** A run that finds the runs up to [k <= 998] names run [k + 1] and
    makes its directory. *)
Lemma bulk_run_starts (today : string) (root : Path) (d : Bulk.Disk) (k : Z) :
  contains "/" today = false -> 0 <= k <= 998 ->
  runs_so_far today root d k ->
  way_clear d (root ++ [Helpers.run_name today (k + 1)]) ->
  let output_dir := root ++ [Helpers.run_name today (k + 1)] in
  Helpers.new_output_dir today root (Bulk.listdir d root) = Ok output_dir /\
  Bulk.mkdir_parents output_dir d
    = inr {| Bulk.dirs := Bulk.dirs d ∪ list_to_set (Bulk.ancestors output_dir);
             Bulk.files := Bulk.files d |}.
Proof.
  intros Ht Hk [Hin Hruns] Hway output_dir.
  destruct (next_run_named today root _ k Ht Hk Hin Hruns) as [Hnew Hfresh].
  split; [done|]. subst output_dir. unfold Bulk.mkdir_parents.
  rewrite (not_listed _ _ _ Hfresh). unfold way_clear in Hway. by rewrite Hway.
Qed.

(** The numbering moves on by one when the directory of run [k + 1] is
    made, whether or not the file is written into it. *)
Lemma runs_advance (today : string) (root : Path) (d : Bulk.Disk) (k : Z)
    (files' : gmap Path string) :
  runs_so_far today root d k ->
  let output_dir := root ++ [Helpers.run_name today (k + 1)] in
  (forall p : Path, is_Some (files' !! p) ->
     is_Some (Bulk.files d !! p) \/ p = output_dir ++ ["eia_bulk_elec.zip"%string]) ->
  runs_so_far today root
    {| Bulk.dirs := Bulk.dirs d ∪ list_to_set (Bulk.ancestors output_dir);
       Bulk.files := files' |} (k + 1).
Proof.
  intros [Hin Hruns] output_dir Hfiles. split.
  - apply listdir_spec. left. cbn [Bulk.dirs]. apply elem_of_union. right.
    apply elem_of_list_to_set, list_elem_of_In, elem_of_ancestors_self. by destruct root.
  - intros c Hc Hpre. apply listdir_spec in Hc. cbn [Bulk.dirs Bulk.files] in Hc.
    assert (Hold : In c (Bulk.listdir d root) ->
              exists i, 0 <= i <= k + 1 /\ c = Helpers.run_name today i).
    { intros Hc'. destruct (Hruns c Hc' Hpre) as (i & Hi & ->). exists i. split; [lia|done]. }
    destruct Hc as [Hc|Hc].
    + apply elem_of_union in Hc as [Hc|Hc].
      * apply Hold, listdir_spec. by left.
      * apply elem_of_list_to_set, list_elem_of_In, ancestors_child in Hc.
        exists (k + 1). split; [|done].
        destruct (Hruns _ Hin (run_name_prefix _ _)) as (i & Hi & _). lia.
    + apply Hfiles in Hc as [Hc|Hc].
      * apply Hold, listdir_spec. by right.
      * exfalso. apply (f_equal (@List.length string)) in Hc.
        subst output_dir. rewrite !length_app in Hc. cbn in Hc. lia.
Qed.

(** X19.  When today's runs are numbered up to [k <= 998] and the
    server answers with a success status and a numeric or absent
    [content-length], [main] returns 0: it has made the directory of run
    [k + 1], sent one request, and written the chunks, in order, to
    [eia_bulk_elec.zip] in that directory, and changed no other file. *)
Theorem bulk_download_fills_the_next_run (OUTPUT_DIR : Path) (today : string)
    (resp : Bulk.Download) (s : Bulk.State) (k size : Z) :
  let root := truediv OUTPUT_DIR "eia_bulk_elec" in
  let output_dir := root ++ [Helpers.run_name today (k + 1)] in
  let out_path := output_dir ++ ["eia_bulk_elec.zip"%string] in
  contains "/" today = false -> 0 <= k <= 998 ->
  runs_so_far today root (Bulk.disk s) k ->
  way_clear (Bulk.disk s) output_dir ->
  ((400 <=? Bulk.status_code resp) && (Bulk.status_code resp <? 600)) = false ->
  Bulk.total_size_in_bytes resp = Ok size ->
  exists s' : Bulk.State,
    Bulk.main OUTPUT_DIR today resp s = (inr 0, s') /\
    Bulk.files (Bulk.disk s')
      = <[out_path := String.concat EmptyString (Bulk.chunks resp)]>
          (Bulk.files (Bulk.disk s)) /\
    output_dir ∈ Bulk.dirs (Bulk.disk s') /\
    Bulk.requested s' = Bulk.requested s ++ [Bulk.DATA_URL] /\
    runs_so_far today root (Bulk.disk s') (k + 1).
Proof.
  intros root output_dir out_path Ht Hk Hruns Hway Hst Hsize.
  destruct (bulk_run_starts today root (Bulk.disk s) k Ht Hk Hruns Hway) as [Hnew Hmk].
  subst output_dir out_path.
  unfold Bulk.main. fold root. rewrite Hnew.
  rewrite zip_path, removelast_last. rewrite Hmk, Hst, Hsize.
  eexists. split; [reflexivity|]. cbn [Bulk.disk Bulk.files Bulk.dirs Bulk.requested].
  rewrite fold_append. split; [done|]. split.
  { apply elem_of_union. right.
    apply elem_of_list_to_set, list_elem_of_In, elem_of_ancestors_self.
    by destruct root. }
  split; [done|].
  apply runs_advance; [done|]. intros p Hp.
  destruct (decide (p = (root ++ [Helpers.run_name today (k + 1)])
                        ++ ["eia_bulk_elec.zip"%string])) as [->|Hne]; [by right|left].
  by rewrite lookup_insert_ne in Hp.
Qed.

(** X20.  When the server answers with an error status, or with a
    [content-length] that is not a number, [main] raises ([HTTPError],
    [ValueError]) after the directory of run [k + 1] was made and the
    request sent: no file is written, and the empty directory counts as
    run [k + 1] from then on. *)
Theorem bulk_failed_download_uses_up_a_run (OUTPUT_DIR : Path) (today : string)
    (resp : Bulk.Download) (s : Bulk.State) (k : Z) :
  let root := truediv OUTPUT_DIR "eia_bulk_elec" in
  let output_dir := root ++ [Helpers.run_name today (k + 1)] in
  contains "/" today = false -> 0 <= k <= 998 ->
  runs_so_far today root (Bulk.disk s) k ->
  way_clear (Bulk.disk s) output_dir ->
  ((400 <=? Bulk.status_code resp) && (Bulk.status_code resp <? 600)) = true \/
  Bulk.total_size_in_bytes resp = Raise ValueError ->
  exists (e : exn) (s' : Bulk.State),
    Bulk.main OUTPUT_DIR today resp s = (inl (Builtin e), s') /\
    (e = HTTPError (Bulk.status_code resp) \/ e = ValueError) /\
    Bulk.files (Bulk.disk s') = Bulk.files (Bulk.disk s) /\
    output_dir ∈ Bulk.dirs (Bulk.disk s') /\
    Bulk.requested s' = Bulk.requested s ++ [Bulk.DATA_URL] /\
    runs_so_far today root (Bulk.disk s') (k + 1).
Proof.
  intros root output_dir Ht Hk Hruns Hway Hfail.
  destruct (bulk_run_starts today root (Bulk.disk s) k Ht Hk Hruns Hway) as [Hnew Hmk].
  assert (Hdir : output_dir ∈ Bulk.dirs (Bulk.disk s)
                              ∪ list_to_set (Bulk.ancestors output_dir)).
  { apply elem_of_union. right.
    apply elem_of_list_to_set, list_elem_of_In, elem_of_ancestors_self.
    subst output_dir. by destruct root. }
  assert (Hadv : runs_so_far today root
            {| Bulk.dirs := Bulk.dirs (Bulk.disk s)
                            ∪ list_to_set (Bulk.ancestors output_dir);
               Bulk.files := Bulk.files (Bulk.disk s) |} (k + 1))
    by (apply runs_advance; [done|by left]).
  subst output_dir.
  unfold Bulk.main. fold root. rewrite Hnew.
  rewrite zip_path, removelast_last. rewrite Hmk.
  destruct ((400 <=? Bulk.status_code resp) && (Bulk.status_code resp <? 600)) eqn:Hst.
  - eexists _, _. split; [reflexivity|]. split; [by left|]. done.
  - destruct Hfail as [?|Hsize]; [done|]. rewrite Hsize.
    eexists _, _. split; [reflexivity|]. split; [by right|]. done.
Qed.

(** X21.  Once the runs 999 and 1000 of a day both exist, every further
    run of that day raises [FileExistsError] from [mkdir]: no request is
    sent and nothing is changed. *)
Theorem bulk_download_fails_after_run_1000 (OUTPUT_DIR : Path) (today : string)
    (resp : Bulk.Download) (s : Bulk.State) :
  let root := truediv OUTPUT_DIR "eia_bulk_elec" in
  contains "/" today = false ->
  In (Helpers.run_name today 999) (Bulk.listdir (Bulk.disk s) root) ->
  In (Helpers.run_name today 1000) (Bulk.listdir (Bulk.disk s) root) ->
  (forall c : string, In c (Bulk.listdir (Bulk.disk s) root) ->
     String.prefix today c = true ->
     exists i, 0 <= i <= 1000 /\ c = Helpers.run_name today i) ->
  Bulk.main OUTPUT_DIR today resp s = (inl FileExistsError, s).
Proof.
  intros root Ht H999 H1000 Hruns.
  destruct (run_1000_named_again today root _ Ht H999 H1000 Hruns) as [Hnew _].
  unfold Bulk.main. fold root. rewrite Hnew.
  rewrite zip_path, removelast_last. unfold Bulk.mkdir_parents.
  by rewrite (listed _ _ _ H1000).
Qed.

(** ** The further theorems at sample runs *)

Lemma failed_fetch_is_not_compressed_witness :
  let env := Sample.env_of [Sample.server_error] Sample.no_fault in
  let w := Sample.empty_world in
  let out_path := EIAAPI.resolve_out_path Sample.self Options.defaults in
  let w2 := snd (EIAAPI.write_aggregate env Sample.self
                   (EIAAPI.build_param_dict Options.defaults) out_path w) in
  EIAAPI.get_fuel_receipts_costs_aggregates env Sample.self Options.defaults w
    = (Raise (HTTPError 500), w2) /\
  (exists written : string, fs w2 !! out_path = Some ("[" +:+ written)) /\
  (forall p : Path, p <> out_path -> fs w2 !! p = fs w !! p).
Proof.
  intros env w out_path w2.
  apply (failed_fetch_is_not_compressed env Sample.self Options.defaults w w2 (HTTPError 500)).
  vm_compute; exact eq_refl.
Defined.

Lemma first_page_error_aborts_call_witness :
  let env := Sample.env_of [Sample.server_error] Sample.no_fault in
  exists w',
    EIAAPI.get_fuel_receipts_costs_aggregates env Sample.self Options.defaults
      Sample.empty_world = (Raise (HTTPError 500), w') /\
    fs w' = <[EIAAPI.resolve_out_path Sample.self Options.defaults := "["%string]>
              (fs Sample.empty_world).
Proof.
  intros env.
  apply (first_page_error_aborts_call env Sample.self Options.defaults Sample.empty_world).
  vm_compute. discriminate.
Defined.

Lemma later_requests_keep_parameters_witness :
  let env := Sample.env_of [Sample.page (Some "2.0.2"%string) 10000;
                            Sample.page (Some "2.0.2"%string) 10000] Sample.no_fault in
  let url := EIAAPI.electric_power_url Sample.self in
  let param_dict := EIAAPI.build_param_dict Options.defaults in
  let w := Sample.open_world Sample.out "[" in
  let w' := snd (EIAAPI._get_all_values env url param_dict Sample.out w) in
  fs w !! Sample.out = Some "["%string /\
  forall rq : Request, In rq (new_requests w w') ->
    req_url rq = url /\
    forall k : string, k <> "offset"%string ->
      dict_get (x_params rq) k = dict_get param_dict k.
Proof.
  intros env url param_dict w w'.
  split; [reflexivity|].
  apply (later_requests_keep_parameters env url param_dict Sample.out w w' "[" (Ok tt)).
  - reflexivity.
  - vm_compute; exact eq_refl.
Defined.

Lemma major_drift_needs_one_component_witness :
  EIAAPI._check_api_version_against "2.0.2" (VDict [("apiVersion"%string, VStr "3")])
    Sample.empty_world
  = (Ok tt, record_events [Warn (MajorChange "2.0.2" (VStr "3"))] Sample.empty_world).
Proof.
  apply (major_drift_needs_one_component "2.0.2" "3"
           (VDict [("apiVersion"%string, VStr "3")]) Sample.empty_world).
  - reflexivity.
  - vm_compute. discriminate.
Defined.

Lemma version_checked_once_witness :
  let env := Sample.env_of [Sample.page (Some "2.1.0"%string) 12000;
                            Sample.page (Some "2.1.0"%string) 12000;
                            Sample.page (Some "2.1.0"%string) 12000] Sample.no_fault in
  let url := EIAAPI.electric_power_url Sample.self in
  let param_dict := EIAAPI.build_param_dict Options.defaults in
  let w := Sample.open_world Sample.out "[" in
  exists (w' : World) (v : string) (sev : Severity),
    EIAAPI._get_all_values env url param_dict Sample.out w = (Ok tt, w') /\
    getitem (Sample.page_json (Some "2.1.0"%string) 12000) "apiVersion" = Ok (VStr v) /\
    events w' =
      events w ++ signalled EIAAPI.API_VERSION (VStr v) sev
      ++ [LogInfo (Downloading (VInt 12000) (- (- 12000 / 5000)))].
Proof.
  intros env url param_dict w.
  apply (version_checked_once env url param_dict Sample.out w "["
           (Sample.page_json (Some "2.1.0"%string) 12000) 12000 5000).
  - reflexivity.
  - reflexivity.
  - do 4 eexists. repeat split; reflexivity.
  - reflexivity.
  - lia.
  - reflexivity.
Defined.

Lemma zero_length_divides_by_zero_witness :
  let env := Sample.env_of [Sample.page (Some "2.0.2"%string) 10] Sample.no_fault in
  exists w',
    EIAAPI.get_fuel_receipts_costs_aggregates env Sample.self Demo.zero_length
      Sample.empty_world = (Raise ZeroDivisionError, w').
Proof.
  intros env.
  apply (zero_length_divides_by_zero env Sample.self Demo.zero_length Sample.empty_world
           (Sample.page_json (Some "2.0.2"%string) 10) 10).
  - reflexivity.
  - reflexivity.
  - reflexivity.
  - do 4 eexists. repeat split; reflexivity.
Defined.

Lemma gzip_file_can_keep_source_witness :
  let env := Sample.env_of [] Sample.no_fault in
  let w := Sample.open_world Sample.out "[{}]" in
  let w' := snd (EIAAPI.gzip_file env Sample.out false w) in
  exists content z : string,
    fs w' !! Sample.out = Some content /\ fs w !! Sample.out = Some content /\
    fs w' !! (removelast Sample.out ++ [name Sample.out +:+ ".gz"]) = Some z /\
    gunzip env z = Some content /\
    requests w' = requests w /\ events w' = events w.
Proof.
  intros env w w'.
  apply (gzip_file_can_keep_source env Sample.out w w').
  - intros blocks. reflexivity.
  - vm_compute; exact eq_refl.
Defined.

Lemma gzip_file_touches_two_paths_witness :
  let env := Sample.env_of [] (fun _ => true) in
  let w := Sample.open_world Sample.out "[{}]" in
  let run := EIAAPI.gzip_file env Sample.out true w in
  (forall q : Path, q <> Sample.out ->
     q <> removelast Sample.out ++ [name Sample.out +:+ ".gz"] ->
     fs (snd run) !! q = fs w !! q) /\
  (fs w !! Sample.out = None -> fst run = Raise FileNotFoundError /\ snd run = w).
Proof.
  intros env w run.
  apply (gzip_file_touches_two_paths env Sample.out true w (snd run) (fst run)).
  vm_compute; exact eq_refl.
Defined.

Lemma completed_call_leaves_compressed_array_witness :
  let env := Sample.env_of [Sample.page (Some "2.0.2"%string) 10000;
                            Sample.page (Some "2.0.2"%string) 10000] Sample.no_fault in
  let w := Sample.empty_world in
  let w' := snd (EIAAPI.get_fuel_receipts_costs_aggregates env Sample.self
                   Options.defaults w) in
  let out_path := EIAAPI.resolve_out_path Sample.self Options.defaults in
  let gz := removelast out_path ++ [name out_path +:+ ".gz"] in
  exists z : string,
    fs w' !! out_path = None /\
    fs w' !! gz = Some z /\
    gunzip env z =
      Some ("[" +:+ String.concat page_sep (page_bodies env w w') +:+ "]") /\
    (forall q : Path, q <> out_path -> q <> gz -> fs w' !! q = fs w !! q).
Proof.
  intros env w w'.
  apply (completed_call_leaves_compressed_array env Sample.self Options.defaults w w').
  - intros blocks. reflexivity.
  - vm_compute; exact eq_refl.
Defined.

Lemma first_run_of_the_day_witness :
  Helpers.new_output_dir Demo.today Demo.bulk_root ["2019-05-30#004"%string]
    = Ok (Demo.bulk_root ++ [Demo.today +:+ "#001"]) /\
  Helpers.get_latest_directory Demo.today Demo.bulk_root ["2019-05-30#004"%string]
    = Ok (Demo.bulk_root ++ [Demo.today +:+ "#001"]).
Proof.
  apply (first_run_of_the_day Demo.today Demo.bulk_root ["2019-05-30#004"%string]).
  - reflexivity.
  - intros c [<-|[]]. reflexivity.
Defined.

Lemma runs_are_numbered_in_sequence_witness :
  let children := ["2019-05-31#002"; "2019-05-30#007"; "2019-05-31#001"]%string in
  Helpers.new_output_dir Demo.today Demo.bulk_root children
    = Ok (Demo.bulk_root ++ [Helpers.run_name Demo.today (2 + 1)]) /\
  ~ In (Helpers.run_name Demo.today (2 + 1)) children.
Proof.
  intros children.
  apply (runs_are_numbered_in_sequence Demo.today Demo.bulk_root children 2).
  - reflexivity.
  - lia.
  - left. reflexivity.
  - intros c [<-|[<-|[<-|[]]]] Hpre.
    + exists 2. split; [lia|reflexivity].
    + vm_compute in Hpre. discriminate.
    + exists 1. split; [lia|reflexivity].
Defined.

Lemma thousandth_run_is_named_again_witness :
  let children := ["2019-05-31#1000"; "2019-05-31#999"]%string in
  Helpers.new_output_dir Demo.today Demo.bulk_root children
    = Ok (Demo.bulk_root ++ [Helpers.run_name Demo.today 1000]) /\
  In (Helpers.run_name Demo.today 1000) children.
Proof.
  intros children.
  apply (thousandth_run_is_named_again Demo.today Demo.bulk_root children).
  - reflexivity.
  - right. left. reflexivity.
  - left. reflexivity.
  - intros c [<-|[<-|[]]] _.
    + exists 1000. split; [lia|reflexivity].
    + exists 999. split; [lia|reflexivity].
Defined.

Lemma latest_directory_is_the_last_run_witness :
  Helpers.get_latest_directory Demo.today Demo.bulk_root
    ["2019-05-31#001"; "2019-05-31#002"]%string
  = Ok (Demo.bulk_root ++ [Helpers.run_name Demo.today 2]).
Proof.
  apply (latest_directory_is_the_last_run Demo.today Demo.bulk_root
           ["2019-05-31#001"; "2019-05-31#002"]%string 2).
  - reflexivity.
  - lia.
  - right. left. reflexivity.
  - intros c [<-|[<-|[]]] _.
    + exists 1. split; [lia|reflexivity].
    + exists 2. split; [lia|reflexivity].
Defined.

Lemma stray_entry_breaks_numbering_witness :
  let children := ["2019-05-31#001"; "2019-05-31.log"]%string in
  Helpers.new_output_dir Demo.today Demo.bulk_root children = Raise ValueError /\
  Helpers.get_latest_directory Demo.today Demo.bulk_root children = Raise ValueError.
Proof.
  intros children.
  apply (stray_entry_breaks_numbering Demo.today Demo.bulk_root children
           "2019-05-31.lo" "g").
  - right. left. reflexivity.
  - reflexivity.
  - intros c [<-|[<-|[]]] _; reflexivity.
  - reflexivity.
  - reflexivity.
Defined.

Lemma main_needs_a_client_witness :
  exists message,
    Script.main (Sample.env_of [] Sample.no_fault) ∅ ["out"%string] Demo.today []
      Sample.empty_world
    = (Some (Exception message), Sample.empty_world).
Proof.
  destruct (main_needs_a_client (Sample.env_of [] Sample.no_fault) ∅ ["out"%string]
              Demo.today [] Sample.empty_world) as [_ H].
  apply (H (["out"; "eia_api"; "2019-05-31#001"]%string)); reflexivity.
Defined.

Lemma main_leaves_two_archives_witness :
  let env := Sample.env_of [Sample.page (Some "2.0.2"%string) 10;
                            Sample.page (Some "2.0.2"%string) 20] Sample.no_fault in
  let w := Sample.empty_world in
  let w' := snd (Script.main env Demo.environ ["out"%string] Demo.today [] w) in
  exists (api : EIAAPI.t) (w1 : World) (za zm : string),
    Script.__init__ Demo.environ ["out"%string] Demo.today [] = inr api /\
    EIAAPI.get_fuel_receipts_costs_aggregates env api Script.annual_params w
      = (Ok tt, w1) /\
    EIAAPI.get_fuel_receipts_costs_aggregates env api Script.monthly_params w1
      = (Ok tt, w') /\
    fs w' !! (EIAAPI.output_dir api
              ++ ["annual_cost-per-btu_receipts-btu_2001.json.gz"%string]) = Some za /\
    fs w' !! (EIAAPI.output_dir api
              ++ ["monthly_cost-per-btu_receipts-btu_2001.json.gz"%string]) = Some zm /\
    gunzip env za
      = Some ("[" +:+ String.concat page_sep (page_bodies env w w1) +:+ "]") /\
    gunzip env zm
      = Some ("[" +:+ String.concat page_sep (page_bodies env w1 w') +:+ "]") /\
    fs w' !! (EIAAPI.output_dir api
              ++ ["annual_cost-per-btu_receipts-btu_2001.json"%string]) = None /\
    fs w' !! (EIAAPI.output_dir api
              ++ ["monthly_cost-per-btu_receipts-btu_2001.json"%string]) = None.
Proof.
  intros env w w'.
  apply (main_leaves_two_archives env Demo.environ ["out"%string] Demo.today [] w w').
  - intros blocks. reflexivity.
  - vm_compute; exact eq_refl.
Defined.

Lemma each_year_has_its_own_file_witness :
  let item := Ferc1Spider.parse ["out"; "ferc1"; "2019-05-31#001"]%string
                {| Ferc1Spider.request := Ferc1Spider.form_for_year 2001;
                   Ferc1Spider.body := "PK" |} in
  Ferc1Spider.data item = "PK"%string /\
  Ferc1Spider.year item = 2001 /\
  Ferc1Spider.save_path item
    = ["out"; "ferc1"; "2019-05-31#001"]%string ++ ["ferc1-" +:+ pretty 2001 +:+ ".zip"] /\
  (forall (y' : Z) (body' : string),
     1994 <= y' < 2022 ->
     Ferc1Spider.save_path
       (Ferc1Spider.parse ["out"; "ferc1"; "2019-05-31#001"]%string
          {| Ferc1Spider.request := Ferc1Spider.form_for_year y';
             Ferc1Spider.body := body' |})
     = Ferc1Spider.save_path item -> y' = 2001).
Proof.
  apply (each_year_has_its_own_file ["out"; "ferc1"; "2019-05-31#001"]%string 2001 "PK").
  lia.
Defined.

Lemma demo_runs_so_far :
  runs_so_far Demo.today Demo.bulk_root (Demo.disk_with ["2019-05-31#001"%string]) 1.
Proof.
  assert (Hls : Bulk.listdir (Demo.disk_with ["2019-05-31#001"%string]) Demo.bulk_root
                = ["2019-05-31#001"%string]) by (vm_compute; reflexivity).
  unfold runs_so_far. rewrite Hls. split; [left; reflexivity|].
  intros c [<-|[]] _. exists 1. split; [lia|reflexivity].
Qed.

Lemma bulk_download_fills_the_next_run_witness :
  let s := Demo.state_with ["2019-05-31#001"%string] in
  let root := truediv ["out"%string] "eia_bulk_elec" in
  let output_dir := root ++ [Helpers.run_name Demo.today (1 + 1)] in
  let out_path := output_dir ++ ["eia_bulk_elec.zip"%string] in
  exists s' : Bulk.State,
    Bulk.main ["out"%string] Demo.today Demo.download s = (inr 0, s') /\
    Bulk.files (Bulk.disk s')
      = <[out_path := String.concat EmptyString (Bulk.chunks Demo.download)]>
          (Bulk.files (Bulk.disk s)) /\
    output_dir ∈ Bulk.dirs (Bulk.disk s') /\
    Bulk.requested s' = Bulk.requested s ++ [Bulk.DATA_URL] /\
    runs_so_far Demo.today root (Bulk.disk s') (1 + 1).
Proof.
  intros s root output_dir out_path.
  apply (bulk_download_fills_the_next_run ["out"%string] Demo.today Demo.download s 1 6).
  - reflexivity.
  - lia.
  - exact demo_runs_so_far.
  - vm_compute; exact eq_refl.
  - reflexivity.
  - reflexivity.
Defined.

Lemma bulk_failed_download_uses_up_a_run_witness :
  let s := Demo.state_with ["2019-05-31#001"%string] in
  let root := truediv ["out"%string] "eia_bulk_elec" in
  let output_dir := root ++ [Helpers.run_name Demo.today (1 + 1)] in
  exists (e : exn) (s' : Bulk.State),
    Bulk.main ["out"%string] Demo.today Demo.refused s = (inl (Builtin e), s') /\
    (e = HTTPError (Bulk.status_code Demo.refused) \/ e = ValueError) /\
    Bulk.files (Bulk.disk s') = Bulk.files (Bulk.disk s) /\
    output_dir ∈ Bulk.dirs (Bulk.disk s') /\
    Bulk.requested s' = Bulk.requested s ++ [Bulk.DATA_URL] /\
    runs_so_far Demo.today root (Bulk.disk s') (1 + 1).
Proof.
  intros s root output_dir.
  apply (bulk_failed_download_uses_up_a_run ["out"%string] Demo.today Demo.refused s 1).
  - reflexivity.
  - lia.
  - exact demo_runs_so_far.
  - vm_compute; exact eq_refl.
  - left. reflexivity.
Defined.

Lemma bulk_download_fails_after_run_1000_witness :
  let s := Demo.state_with ["2019-05-31#1000"; "2019-05-31#999"]%string in
  Bulk.main ["out"%string] Demo.today Demo.download s = (inl FileExistsError, s).
Proof.
  intros s.
  assert (Hls : Bulk.listdir (Bulk.disk s) (truediv ["out"%string] "eia_bulk_elec")
                = ["2019-05-31#999"; "2019-05-31#1000"]%string
                  \/ Bulk.listdir (Bulk.disk s) (truediv ["out"%string] "eia_bulk_elec")
                     = ["2019-05-31#1000"; "2019-05-31#999"]%string).
  { vm_compute. auto. }
  apply (bulk_download_fails_after_run_1000 ["out"%string] Demo.today Demo.download s).
  - reflexivity.
  - destruct Hls as [-> | ->]; [left|right; left]; reflexivity.
  - destruct Hls as [-> | ->]; [right; left|left]; reflexivity.
  - intros c Hc _. destruct Hls as [Hls|Hls]; rewrite Hls in Hc;
      destruct Hc as [<-|[<-|[]]];
      ((exists 999; split; [lia|reflexivity]) || (exists 1000; split; [lia|reflexivity])).
Defined.

